(** * dba_pricerunner_scraper: price normalisation, price-string extraction,
      bounded JSON-array extraction and the comparison pipeline

    A shallow embedding of the pure core of [dba_pricerunner_scraper.py]:
    [normalize_price], [extract_price_string], [_extract_json_array],
    [sort_items_by_price], [_short], the price loop of the DBA searches,
    [_parse_price_arg] and the [in_range] price filter of [main], and the
    row pairing and the table lines of the comparison printers.

    Python strings are sequences of Unicode code points; floats are IEEE
    binary64 values, kept here as sign, odd mantissa and binary exponent.
    Exceptions are explicit: every function returns in the [res] monad. *)

From Stdlib Require Import ZArith NArith List Bool Lia String Ascii.
From Stdlib Require Import Sorting.Permutation Sorting.Sorted.
Import ListNotations.

Local Open Scope Z_scope.

(* ================================================================== *)
(** ** Python values, exceptions *)

Inductive exn : Type :=
| AttributeError
| ValueError
| IndexError
| TypeError.

Inductive res (A : Type) : Type :=
| Ret (a : A)
| Raise (e : exn).

Arguments Ret {A} a.
Arguments Raise {A} e.

Definition bind {A B : Type} (c : res A) (k : A -> res B) : res B :=
  match c with
  | Ret a => k a
  | Raise e => Raise e
  end.

Notation "x <- c ;; k" := (bind c (fun x => k))
  (at level 61, c at next level, right associativity).

(** [try: c except Exception: h] *)
Definition try_except {A : Type} (c : res A) (h : res A) : res A :=
  match c with
  | Ret a => Ret a
  | Raise _ => h
  end.

(** A code point. *)
Definition pychar : Type := N.
Definition pystr : Type := list pychar.

(** String literals of this file are ASCII; [py] reads one as a [pystr]. *)
Definition py (s : string) : pystr :=
  List.map N_of_ascii (list_ascii_of_string s).

(** [pyq] reads a literal in which the apostrophe stands for the double
    quote character. *)
Definition pyq (s : string) : pystr :=
  List.map (fun c => if N.eqb c 39 then 34%N else c) (py s).

(** An argument that is either [None] or a [str]. *)
Inductive pyarg : Type :=
| PyNone
| PyStr (s : pystr).

(** Truth value of [None] / a string ([if not text]). *)
Definition truthy (a : pyarg) : bool :=
  match a with
  | PyNone => false
  | PyStr [] => false
  | PyStr (_ :: _) => true
  end.

(* ================================================================== *)
(** ** Character classes *)

Definition in_ranges (c : N) (rs : list (N * N)) : bool :=
  existsb (fun r => (N.leb (fst r) c && N.ltb c (fst r + snd r))%bool) rs.

(** ASCII [0-9]. *)
Definition is_ascii_digit (c : pychar) : bool :=
  (N.leb 48 c && N.leb c 57)%bool.

(** [str.isspace] and the regular expression class [\s] on [str] patterns:
    the whitespace code points of the Unicode database. *)
Definition whitespace_ranges : list (N * N) :=
  [ (9, 5); (28, 5); (133, 1); (160, 1); (5760, 1); (8192, 11);
    (8232, 2); (8239, 1); (8287, 1); (12288, 1) ]%N.

Definition is_space (c : pychar) : bool := in_ranges c whitespace_ranges.

(** [\d] on [str] patterns and [str.isdecimal]: general category Nd
    (Unicode 14, as shipped with CPython 3.11); first code point and length
    of each run. *)
Definition decimal_ranges : list (N * N) :=
  [ (48, 10); (1632, 10); (1776, 10); (1984, 10); (2406, 10); (2534, 10);
    (2662, 10); (2790, 10); (2918, 10); (3046, 10); (3174, 10); (3302, 10);
    (3430, 10); (3558, 10); (3664, 10); (3792, 10); (3872, 10); (4160, 10);
    (4240, 10); (6112, 10); (6160, 10); (6470, 10); (6608, 10); (6784, 10);
    (6800, 10); (6992, 10); (7088, 10); (7232, 10); (7248, 10); (42528, 10);
    (43216, 10); (43264, 10); (43472, 10); (43504, 10); (43600, 10);
    (44016, 10); (65296, 10); (66720, 10); (68912, 10); (69734, 10);
    (69872, 10); (69942, 10); (70096, 10); (70384, 10); (70736, 10);
    (70864, 10); (71248, 10); (71360, 10); (71472, 10); (71904, 10);
    (72016, 10); (72784, 10); (73040, 10); (73120, 10); (92768, 10);
    (92864, 10); (93008, 10); (120782, 50); (123200, 10); (123632, 10);
    (125264, 10); (130032, 10) ]%N.

Definition is_decimal (c : pychar) : bool := in_ranges c decimal_ranges.

(** [str.isdigit]: the decimals and the other characters of numeric type
    Digit (superscripts, circled digits, ...). *)
Definition other_digit_ranges : list (N * N) :=
  [ (178, 2); (185, 1); (4969, 9); (6618, 1); (8304, 1); (8308, 6);
    (8320, 10); (9312, 9); (9332, 9); (9352, 9); (9450, 1); (9461, 9);
    (9471, 1); (10102, 9); (10112, 9); (10122, 9); (68160, 4); (69216, 9);
    (69714, 9); (127232, 11) ]%N.

Definition isdigit (c : pychar) : bool :=
  (is_decimal c || in_ranges c other_digit_ranges)%bool.

Definition ch_dot : pychar := 46%N.     (* '.' *)
Definition ch_comma : pychar := 44%N.   (* ',' *)
Definition ch_space : pychar := 32%N.   (* ' ' *)
Definition ch_nbsp : pychar := 160%N.   (* U+00A0 *)
Definition ch_minus : pychar := 45%N.   (* '-' *)
Definition ch_plus : pychar := 43%N.    (* '+' *)
Definition ch_quote : pychar := 34%N.   (* double quote *)
Definition ch_bslash : pychar := 92%N.  (* backslash *)
Definition ch_lbrack : pychar := 91%N.  (* '[' *)
Definition ch_rbrack : pychar := 93%N.  (* ']' *)

(* ================================================================== *)
(** ** String methods *)

Fixpoint is_prefix (p s : pystr) : bool :=
  match p, s with
  | [], _ => true
  | _ :: _, [] => false
  | a :: p', b :: s' => (N.eqb a b && is_prefix p' s')%bool
  end.

(** [s.replace(old, empty)] for a non-empty [old]: the occurrences of
    [old] are removed left to right, without overlap.  [skip] counts the
    characters of the occurrence in progress that are still to be dropped. *)
Fixpoint remove_sub_from (old : pystr) (skip : nat) (s : pystr) : pystr :=
  match s with
  | [] => []
  | c :: s' =>
      match skip with
      | S k => remove_sub_from old k s'
      | O =>
          if is_prefix old s
          then remove_sub_from old (Nat.pred (List.length old)) s'
          else c :: remove_sub_from old O s'
      end
  end.

Definition remove_sub (old s : pystr) : pystr := remove_sub_from old O s.

(** [s.replace(a, b)] for single characters. *)
Definition replace_char (a b : pychar) (s : pystr) : pystr :=
  List.map (fun c => if N.eqb c a then b else c) s.

Fixpoint lstrip (s : pystr) : pystr :=
  match s with
  | [] => []
  | c :: s' => if is_space c then lstrip s' else s
  end.

(** [s.strip()] *)
Definition strip (s : pystr) : pystr :=
  List.rev (lstrip (List.rev (lstrip s))).

(** [s.rfind(c)] for a single character: the last index, or -1. *)
Fixpoint rfind_from (c : pychar) (s : pystr) (i : Z) (last : Z) : Z :=
  match s with
  | [] => last
  | a :: s' => rfind_from c s' (i + 1) (if N.eqb a c then i else last)
  end.

Definition rfind (c : pychar) (s : pystr) : Z := rfind_from c s 0 (-1).

Definition len (s : pystr) : Z := Z.of_nat (List.length s).

(* ================================================================== *)
(** ** Floats

    A binary64 value is a sign with an infinity or a finite magnitude
    [m * 2^e]; the finite magnitudes are kept with [m] odd (zero is
    [m = 0], [e = 0]), so that equal values are equal terms.  No operation
    of this program produces a NaN. *)

Inductive pyfloat : Type :=
| Fin (neg : bool) (m : Z) (e : Z)
| Inf (neg : bool).

Fixpoint pos_odd_part (p : positive) : positive * Z :=
  match p with
  | xO p' => let (q, k) := pos_odd_part p' in (q, k + 1)
  | _ => (p, 0)
  end.

(** [m * 2^e] with the factors of two moved into the exponent. *)
Definition normalise (m e : Z) : Z * Z :=
  match m with
  | Zpos p => let (q, k) := pos_odd_part p in (Zpos q, e + k)
  | _ => (0, 0)
  end.

(** [flt z e] is the float [z * 2^e], for a value the format holds exactly:
    [flt 1234 0] is 1234.0 and [flt 25 (-1)] is 12.5. *)
Definition flt (z e : Z) : pyfloat :=
  let (m, e') := normalise (Z.abs z) e in Fin (z <? 0) m e'.

(** Round-to-nearest, ties-to-even, of the non-negative rational
    [num / den] to binary64.  The quotient [q] and remainder [r] give the
    value in units of [2^-1074], the smallest subnormal; [sh] is the number
    of low bits of [q] that do not fit the 53-bit significand, [lost] the
    part that is dropped, in units of [1 / den], and [half] half a unit in
    the last place in the same units.  [None] is overflow. *)
Definition round_ratio (num den : Z) : option (Z * Z) :=
  let q := (num * 2 ^ 1074) / den in
  let r := (num * 2 ^ 1074) mod den in
  let sh := Z.max 0 (Z.log2 q - 52) in
  let m0 := Z.shiftr q sh in
  let lost := (q mod 2 ^ sh) * den + r in
  let half := 2 ^ sh * den in
  let m1 :=
    match 2 * lost ?= half with
    | Lt => m0
    | Gt => m0 + 1
    | Eq => if Z.even m0 then m0 else m0 + 1
    end in
  if 2 ^ 2098 <=? m1 * 2 ^ sh then None
  else Some (normalise m1 (sh - 1074)).

Definition float_of_ratio (neg : bool) (num den : Z) : pyfloat :=
  match round_ratio num den with
  | Some (m, e) => Fin neg m e
  | None => Inf neg
  end.

(** The float nearest to [M * 10^p]. *)
Definition float_of_decimal (neg : bool) (M p : Z) : pyfloat :=
  if 0 <=? p then float_of_ratio neg (M * 10 ^ p) 1
  else float_of_ratio neg M (10 ^ (- p)).

Definition digit_val (c : pychar) : Z := Z.of_N c - 48.

Fixpoint digits_value (ds : pystr) (acc : Z) : Z :=
  match ds with
  | [] => acc
  | c :: ds' => digits_value ds' (10 * acc + digit_val c)
  end.

Fixpoint span_digits (s : pystr) : pystr * pystr :=
  match s with
  | c :: s' =>
      if is_ascii_digit c
      then let (ds, r) := span_digits s' in (c :: ds, r)
      else ([], s)
  | [] => ([], [])
  end.

(** Digits with at most one point and at least one digit: the mantissa as
    an integer, the number of digits after the point, and what follows. *)
Definition parse_number (s : pystr) : option (Z * Z * pystr) :=
  let (ip, r) := span_digits s in
  match r with
  | c :: r' =>
      if N.eqb c ch_dot then
        let (fp, r'') := span_digits r' in
        match (ip ++ fp)%list with
        | [] => None
        | ds => Some (digits_value ds 0, len fp, r'')
        end
      else
        match ip with
        | [] => None
        | _ => Some (digits_value ip 0, 0, r)
        end
  | [] =>
      match ip with
      | [] => None
      | _ => Some (digits_value ip 0, 0, [])
      end
  end.

(** Nothing, or [e] or [E], an optional sign and at least one digit: the
    decimal exponent. *)
Definition parse_exponent (r : pystr) : option Z :=
  match r with
  | [] => Some 0
  | c :: r' =>
      if (N.eqb c 101 || N.eqb c 69)%bool then
        let (neg, ds) :=
          match r' with
          | d :: r'' =>
              if N.eqb d ch_minus then (true, r'')
              else if N.eqb d ch_plus then (false, r'')
              else (false, r')
          | [] => (false, [])
          end in
        match ds with
        | [] => None
        | _ =>
            if List.forallb is_ascii_digit ds
            then Some (if neg then - digits_value ds 0 else digits_value ds 0)
            else None
        end
      else None
  end.

(** A decimal numeral [M * 10^p]. *)
Definition parse_decimal (s : pystr) : option (Z * Z) :=
  match parse_number s with
  | Some (M, k, r) =>
      match parse_exponent r with
      | Some x => Some (M, x - k)
      | None => None
      end
  | None => None
  end.

(** [float(s)] on an optional sign and a decimal numeral of ASCII digits,
    with at most one point and an optional exponent; anything else here
    raises [ValueError].  (The builtin also reads [inf], [nan],
    underscores, blanks around the numeral and other scripts' digits; no
    call site of this program lets such a string through, see
    [core_chars].) *)
Definition py_float (s : pystr) : res pyfloat :=
  let (neg, body) :=
    match s with
    | c :: s' =>
        if N.eqb c ch_minus then (true, s')
        else if N.eqb c ch_plus then (false, s')
        else (false, s)
    | [] => (false, [])
    end in
  match parse_decimal body with
  | Some (M, p) => Ret (float_of_decimal neg M p)
  | None => Raise ValueError
  end.

(** The sign and magnitude of two finite floats on a common exponent. *)
Definition signed (neg : bool) (m : Z) : Z := if neg then - m else m.

(** [a < b] on floats. *)
Definition float_ltb (a b : pyfloat) : bool :=
  match a, b with
  | Fin n1 m1 e1, Fin n2 m2 e2 =>
      let e := Z.min e1 e2 in
      signed n1 m1 * 2 ^ (e1 - e) <? signed n2 m2 * 2 ^ (e2 - e)
  | Fin _ _ _, Inf n2 => negb n2
  | Inf n1, Fin _ _ _ => n1
  | Inf n1, Inf n2 => (n1 && negb n2)%bool
  end.

(** [a <= b] on floats. *)
Definition float_leb (a b : pyfloat) : bool :=
  match a, b with
  | Fin n1 m1 e1, Fin n2 m2 e2 =>
      let e := Z.min e1 e2 in
      signed n1 m1 * 2 ^ (e1 - e) <=? signed n2 m2 * 2 ^ (e2 - e)
  | Fin _ _ _, Inf n2 => negb n2
  | Inf n1, Fin _ _ _ => n1
  | Inf n1, Inf n2 => (n1 || negb n2)%bool
  end.

(* ================================================================== *)
(** ** normalize_price *)

(** [re.sub(r"[^0-9\.,\s]", empty, s)] keeps these characters. *)
Definition price_char (c : pychar) : bool :=
  (is_ascii_digit c || N.eqb c ch_dot || N.eqb c ch_comma || is_space c)%bool.

(** [[\.\s]] *)
Definition dot_or_space (c : pychar) : bool :=
  (N.eqb c ch_dot || is_space c)%bool.

(** [\d{3}] at the head of [s]. *)
Definition three_decimals (s : pystr) : bool :=
  match s with
  | a :: b :: c :: _ => (is_decimal a && is_decimal b && is_decimal c)%bool
  | _ => false
  end.

(** [re.search(r'(?:[\.\s]\d{3})', s)] finds a match. *)
Fixpoint re_search_sep3 (s : pystr) : bool :=
  match s with
  | [] => false
  | c :: s' => ((dot_or_space c && three_decimals s') || re_search_sep3 s')%bool
  end.

(** [''.join(ch for ch in core if (ch.isdigit() or ch == '.'))] *)
Definition digits_and_dots (core : pystr) : pystr :=
  List.filter (fun ch => (isdigit ch || N.eqb ch ch_dot)%bool) core.

(** [try: return float(core) / except Exception: return None] *)
Definition float_or_none (core : pystr) : res (option pyfloat) :=
  try_except (v <- py_float core ;; Ret (Some v)) (Ret None).

(** The local [cleaned]: currency words and non-breaking spaces out,
    stripped, then only digits, points, commas and blanks kept. *)
Definition cleaned_of (price_str : pystr) : pystr :=
  let s := remove_sub (py "DKK") (remove_sub (py "kr") (remove_sub (py "kr.") price_str)) in
  let s := replace_char ch_nbsp ch_space s in
  let s := strip s in
  List.filter price_char s.

(** [x in (1, 2, 3)] *)
Definition in_1_2_3 (x : Z) : bool :=
  ((x =? 1) || (x =? 2) || (x =? 3))%bool.

Definition decimal_sep_of (cleaned : pystr) : option pychar :=
  let last_dot := rfind ch_dot cleaned in
  let last_comma := rfind ch_comma cleaned in
  if ((last_dot =? -1) && (last_comma =? -1))%bool then None
  else if last_comma <? last_dot then
    if in_1_2_3 (len cleaned - last_dot - 1) then Some ch_dot else None
  else
    if in_1_2_3 (len cleaned - last_comma - 1) then Some ch_comma else None.

Definition normalize_price (price_str : pyarg) : res (option pyfloat) :=
  if negb (truthy price_str) then Ret None else
  match price_str with
  | PyNone => Raise AttributeError
  | PyStr p =>
      let cleaned := cleaned_of p in
      match cleaned with
      | [] => Ret None
      | _ :: _ =>
          if re_search_sep3 cleaned then
            let core := List.filter (fun c => negb (dot_or_space c)) cleaned in
            let core := replace_char ch_comma ch_dot core in
            let core := digits_and_dots core in
            float_or_none core
          else
            match decimal_sep_of cleaned with
            | None =>
                let digits :=
                  List.filter
                    (fun c => negb (is_space c || N.eqb c ch_dot || N.eqb c ch_comma))
                    cleaned in
                float_or_none digits
            | Some sep =>
                let core :=
                  if N.eqb sep ch_dot then
                    List.filter (fun c => negb (is_space c || N.eqb c ch_comma)) cleaned
                  else
                    replace_char ch_comma ch_dot
                      (List.filter (fun c => negb (dot_or_space c)) cleaned) in
                let core := digits_and_dots core in
                float_or_none core
            end
      end
  end.

(* ================================================================== *)
(** ** extract_price_string *)

(** A match object: group 1, which takes part in every match of both
    patterns below, and the groups after it ([None] for a group that took
    no part in the match). *)
Record pymatch : Type := mk_match {
  group1 : pystr;
  later_groups : list (option pystr)
}.

(** [m.group(2)]: [IndexError] when the pattern has no second group. *)
Definition group2 (m : pymatch) : res (option pystr) :=
  match later_groups m with
  | g :: _ => Ret g
  | [] => Raise IndexError
  end.

(** [\d{1,n}], greedy: the leading decimals, at most [n] of them. *)
Fixpoint take_decimals (n : nat) (s : pystr) : pystr * pystr :=
  match n, s with
  | S n', c :: s' =>
      if is_decimal c
      then let (ds, r) := take_decimals n' s' in (c :: ds, r)
      else ([], s)
  | _, _ => ([], s)
  end.

(** [(?:[\.\s]\d{3})*], greedy. *)
Fixpoint take_groups (s : pystr) : pystr * pystr :=
  match s with
  | c :: d1 :: d2 :: d3 :: s' =>
      if (dot_or_space c && is_decimal d1 && is_decimal d2 && is_decimal d3)%bool
      then let (g, r) := take_groups s' in (c :: d1 :: d2 :: d3 :: g, r)
      else ([], s)
  | _ => ([], s)
  end.

(** [(?:,\d{1,2})?], greedy. *)
Definition take_fraction (s : pystr) : pystr * pystr :=
  match s with
  | c :: s' =>
      if N.eqb c ch_comma then
        match take_decimals 2 s' with
        | ([], _) => ([], s)
        | (ds, r) => (c :: ds, r)
        end
      else ([], s)
  | [] => ([], s)
  end.

(** [\s*], greedy. *)
Fixpoint skip_spaces (s : pystr) : pystr :=
  match s with
  | c :: s' => if is_space c then skip_spaces s' else s
  | [] => []
  end.

(** The letters of the currency words under [re.IGNORECASE]; [k] also
    matches U+212A, the Kelvin sign. *)
Definition is_k (c : pychar) : bool :=
  (N.eqb c 107 || N.eqb c 75 || N.eqb c 8490)%bool.
Definition is_r (c : pychar) : bool := (N.eqb c 114 || N.eqb c 82)%bool.
Definition is_d (c : pychar) : bool := (N.eqb c 100 || N.eqb c 68)%bool.

(** [(kr\.?|DKK)?]: the text of group 2, when it takes part. *)
Definition take_currency (s : pystr) : option pystr :=
  match s with
  | a :: b :: r =>
      if (is_k a && is_r b)%bool then
        match r with
        | c :: _ => if N.eqb c ch_dot then Some [a; b; c] else Some [a; b]
        | [] => Some [a; b]
        end
      else
        match r with
        | c :: _ => if (is_d a && is_k b && is_k c)%bool then Some [a; b; c] else None
        | [] => None
        end
  | _ => None
  end.

(** The pattern
    [(\d{1,3}(?:[\.\s]\d{3})*(?:,\d{1,2})?)\s*(kr\.?|DKK)?]
    anchored at the head of [s].  Every part after the leading digits may
    match the empty string, so the greedy choice of each part is the match
    the backtracking engine reports. *)
Definition match_price_at (s : pystr) : option pymatch :=
  match take_decimals 3 s with
  | ([], _) => None
  | (ds, r1) =>
      let (gs, r2) := take_groups r1 in
      let (fr, r3) := take_fraction r2 in
      let r4 := skip_spaces r3 in
      Some (mk_match (ds ++ gs ++ fr) [take_currency r4])
  end.

(** [re.search] of that pattern: the leftmost match. *)
Fixpoint search_price (s : pystr) : option pymatch :=
  match s with
  | [] => None
  | _ :: s' =>
      match match_price_at s with
      | Some m => Some m
      | None => search_price s'
      end
  end.

Fixpoint take_while (f : pychar -> bool) (s : pystr) : pystr :=
  match s with
  | c :: s' => if f c then c :: take_while f s' else []
  | [] => []
  end.

Fixpoint drop_while (f : pychar -> bool) (s : pystr) : pystr :=
  match s with
  | c :: s' => if f c then drop_while f s' else s
  | [] => []
  end.

(** The fallback pattern, one group holding [\d+] and then any run of
    decimals, points, blanks and commas, anchored at the head of [s]. *)
Definition match_digits_at (s : pystr) : option pymatch :=
  match take_while is_decimal s with
  | [] => None
  | ds =>
      let r := drop_while is_decimal s in
      Some (mk_match
              (ds ++ take_while
                       (fun c => (is_decimal c || dot_or_space c || N.eqb c ch_comma)%bool) r)
              [])
  end.

Fixpoint search_digits (s : pystr) : option pymatch :=
  match s with
  | [] => None
  | _ :: s' =>
      match match_digits_at s with
      | Some m => Some m
      | None => search_digits s'
      end
  end.

(** [c.upper()] for ASCII letters; the other characters a currency match
    can hold (the point and U+212A) are their own upper case. *)
Definition upper_char (c : pychar) : pychar :=
  if (N.leb 97 c && N.leb c 122)%bool then (c - 32)%N else c.

Definition upper (s : pystr) : pystr := List.map upper_char s.

Fixpoint str_eqb (a b : pystr) : bool :=
  match a, b with
  | [], [] => true
  | x :: a', y :: b' => (N.eqb x y && str_eqb a' b')%bool
  | _, _ => false
  end.

Definition extract_price_string (text : pyarg) : res pystr :=
  if negb (truthy text) then Ret [] else
  match text with
  | PyNone => Raise TypeError
  | PyStr t =>
      let found :=
        match search_price t with
        | Some m => Some m
        | None => search_digits t
        end in
      match found with
      | None => Ret []
      | Some m =>
          let num := group1 m in
          g <- group2 m ;;
          let cur :=
            match g with
            | Some (c :: cs) => c :: cs
            | _ => py "kr."
            end in
          let cur := strip cur in
          let cur :=
            if str_eqb (upper cur) (py "DKK") then py "DKK"
            else match cur with
                 | [] => py "kr."
                 | _ => cur
                 end in
          Ret (strip (num ++ [ch_space] ++ cur))
      end
  end.

(* ================================================================== *)
(** ** _extract_json_array *)

(** [text.find(needle, start)], on the text from index [i] on. *)
Fixpoint find_from (needle s : pystr) (i : Z) : Z :=
  match s with
  | [] => match needle with [] => i | _ => -1 end
  | _ :: s' => if is_prefix needle s then i else find_from needle s' (i + 1)
  end.

Definition find (needle text : pystr) (start : Z) : Z :=
  find_from needle (List.skipn (Z.to_nat start) text) start.

(** [text[i:j]] for [0 <= i]. *)
Definition slice (text : pystr) (i j : Z) : pystr :=
  List.firstn (Z.to_nat (j - i)) (List.skipn (Z.to_nat i) text).

(** One turn of the scanning loop on character [ch]: the new
    [(in_str, esc, depth)] and whether the function returns here. *)
Definition scan_step (ch : pychar) (in_str esc : bool) (depth : Z)
  : bool * bool * Z * bool :=
  let in_str := if (N.eqb ch ch_quote && negb esc)%bool then negb in_str else in_str in
  if (N.eqb ch ch_bslash && negb esc)%bool then (in_str, true, depth, false)
  else
    let esc := false in
    if negb in_str then
      if N.eqb ch ch_lbrack then (in_str, esc, depth + 1, false)
      else if N.eqb ch ch_rbrack then
        (in_str, esc, depth - 1, (depth - 1 =? 0))
      else (in_str, esc, depth, false)
    else (in_str, esc, depth, false).

(** The loop over [enumerate(text[i:], start=i)]: the index [j] at which
    it returns, if it does. *)
Fixpoint scan (s : pystr) (j : Z) (in_str esc : bool) (depth : Z) : option Z :=
  match s with
  | [] => None
  | ch :: s' =>
      match scan_step ch in_str esc depth with
      | (_, _, _, true) => Some j
      | (in_str', esc', depth', false) => scan s' (j + 1) in_str' esc' depth'
      end
  end.

Definition _extract_json_array (text : pyarg) (key : pystr) : res (option pystr) :=
  match text with
  | PyNone => Raise AttributeError
  | PyStr t =>
      let needle := ([ch_quote] ++ key ++ [ch_quote; 58; ch_lbrack]%N)%list in
      let idx := find needle t 0 in
      if idx =? -1 then Ret None else
      let i := find [ch_lbrack] t idx in
      if i =? -1 then Ret None else
      match scan (List.skipn (Z.to_nat i) t) i false false 0 with
      | Some j => Ret (Some (slice t i (j + 1)))
      | None => Ret None
      end
  end.

(* ================================================================== *)
(** ** Listing records, the price filter and the row pairing *)

(** The dictionaries the search functions build. *)
Record item : Type := mk_item {
  site : pystr;
  title : option pystr;
  price : pystr;
  price_num : option pyfloat;
  url : option pystr;
  location : pystr
}.

(** [in_range] of [main], closed over [minp] and [maxp]. *)
Definition in_range (minp maxp : option pyfloat) (it : item) : bool :=
  match price_num it with
  | None => false
  | Some pn =>
      if match minp with Some lo => float_ltb pn lo | None => false end
      then false
      else if match maxp with Some hi => float_ltb hi pn | None => false end
      then false
      else true
  end.

Definition is_some {A : Type} (o : option A) : bool :=
  match o with Some _ => true | None => false end.

(** The filtering step of [main]: applied when a bound was given. *)
Definition apply_price_filter (minp maxp : option pyfloat) (items : list item)
  : list item :=
  if (is_some minp || is_some maxp)%bool
  then List.filter (in_range minp maxp) items
  else items.

(** [range(n)] *)
Definition range (n : Z) : list Z :=
  List.map Z.of_nat (List.seq 0 (Z.to_nat n)).

(** [items[i] if i < len(items) else None], for [0 <= i]. *)
Definition item_at (items : list item) (i : Z) : option item :=
  if i <? Z.of_nat (List.length items)
  then List.nth_error items (Z.to_nat i)
  else None.

(** [rows[:n]] *)
Definition slice_to {A : Type} (rows : list A) (n : Z) : list A :=
  if 0 <=? n then List.firstn (Z.to_nat n) rows
  else List.firstn (Z.to_nat (Z.of_nat (List.length rows) + n)) rows.

(** The rows [print_comparison_table] prints, as the pair of records each
    one is rendered from: built for [max(len(dba), len(pr), n)] indexes,
    then cut to [rows[:n]]. *)
Definition table_rows (dba_items pr_items : list item) (n : Z)
  : list (option item * option item) :=
  let maxrows :=
    Z.max (Z.max (Z.of_nat (List.length dba_items)) (Z.of_nat (List.length pr_items))) n in
  let rows :=
    List.map (fun i => (item_at dba_items i, item_at pr_items i)) (range maxrows) in
  slice_to rows n.

(** The rows of [print_comparison_markdown] and [print_comparison_grid]:
    one per index of [range(n)]. *)
Definition grid_rows (dba_items pr_items : list item) (n : Z)
  : list (option item * option item) :=
  List.map (fun i => (item_at dba_items i, item_at pr_items i)) (range n).

(* ================================================================== *)
(** ** str(float)

    [repr] of a float is the shortest decimal numeral that [float] reads
    back as the same value, the nearest to the value among those of that
    length; it is laid out in exponent form when the decimal point would
    fall more than 16 digits to the right of the first digit or more than
    3 zeros to its left. *)

Fixpoint digits_rev (fuel : nat) (n : Z) : pystr :=
  match fuel with
  | O => []
  | S f =>
      let d := (Z.to_N (n mod 10) + 48)%N in
      if n <? 10 then [d] else d :: digits_rev f (n / 10)
  end.

(** The decimal digits of [n >= 0], most significant first. *)
Definition digits_of (n : Z) : pystr :=
  List.rev (digits_rev (S (Z.to_nat (Z.log2 n))) n).

Definition is_zero_digit (c : pychar) : bool := N.eqb c 48.

Definition rstrip_zeros (ds : pystr) : pystr :=
  List.rev (drop_while is_zero_digit (List.rev ds)).

Definition zeros (n : Z) : pystr := List.repeat 48%N (Z.to_nat n).

(** The layout of the digits [ds] with the decimal point [decpt] places
    after the start of [ds]. *)
Definition format_repr (ds : pystr) (decpt : Z) : pystr :=
  if ((decpt <=? -4) || (16 <? decpt))%bool then
    let x := decpt - 1 in
    let xs := digits_of (Z.abs x) in
    let xs := if Z.abs x <? 10 then 48%N :: xs else xs in
    let mant :=
      match ds with
      | [d] => [d]
      | d :: rest => d :: ch_dot :: rest
      | [] => []
      end in
    (mant ++ [101%N; if x <? 0 then ch_minus else ch_plus] ++ xs)%list
  else if decpt <=? 0 then
    (py "0." ++ zeros (- decpt) ++ ds)%list
  else if len ds <=? decpt then
    (ds ++ zeros (decpt - len ds) ++ py ".0")%list
  else
    (List.firstn (Z.to_nat decpt) ds ++ [ch_dot] ++ List.skipn (Z.to_nat decpt) ds)%list.

(** The position of the decimal point of [num / den > 0]: the [d] with
    [10^(d-1) <= num / den < 10^d]. *)
Fixpoint leading_zeros (fuel : nat) (num den : Z) (j : Z) : Z :=
  match fuel with
  | O => j
  | S f => if den <=? num * 10 ^ j then j else leading_zeros f num den (j + 1)
  end.

Definition decimal_point (num den : Z) : Z :=
  if den <=? num then len (digits_of (num / den))
  else 1 - leading_zeros 400 num den 1.

(** [float(r)] is the positive finite float [m * 2^e]. *)
Definition reads_as (r : pystr) (m e : Z) : bool :=
  match py_float r with
  | Ret (Fin false m' e') => ((m' =? m) && (e' =? e))%bool
  | _ => false
  end.

(** The rendering of the integer [D] scaled by [10^(-scale)]. *)
Definition render (D scale : Z) : pystr :=
  let ds := digits_of D in
  format_repr (rstrip_zeros ds) (len ds - scale).

(** The search for the shortest numeral: with [n] digits, the two
    numerals around [num / den] are tried, the nearer one first (the even
    one on a tie). *)
Fixpoint shortest (fuel : nat) (n : Z) (num den dp : Z) (m e : Z) : option pystr :=
  match fuel with
  | O => None
  | S f =>
      let scale := n - dp in
      let num' := if 0 <=? scale then num * 10 ^ scale else num in
      let den' := if 0 <=? scale then den else den * 10 ^ (- scale) in
      let lo := num' / den' in
      let rem := num' mod den' in
      let lo_first :=
        match 2 * rem ?= den' with
        | Lt => true
        | Gt => false
        | Eq => Z.even lo
        end in
      let r1 := render (if lo_first then lo else lo + 1) scale in
      let r2 := render (if lo_first then lo + 1 else lo) scale in
      if reads_as r1 m e then Some r1
      else if reads_as r2 m e then Some r2
      else shortest f (n + 1) num den dp m e
  end.

(** [repr(v)], which is also [str(v)].  Seventeen significant digits tell
    any two binary64 values apart, so the search ends within that many;
    the empty string stands for a search that did not. *)
Definition float_repr (v : pyfloat) : pystr :=
  match v with
  | Inf neg => ((if neg then [ch_minus] else []) ++ py "inf")%list
  | Fin neg m e =>
      let body :=
        if m =? 0 then py "0.0"
        else
          let num := if 0 <=? e then m * 2 ^ e else m in
          let den := if 0 <=? e then 1 else 2 ^ (- e) in
          match shortest 17 1 num den (decimal_point num den) m e with
          | Some r => r
          | None => []
          end in
      ((if neg then [ch_minus] else []) ++ body)%list
  end.

(* ================================================================== *)
(** ** sort_items_by_price *)

(** [keyfn]: the price, or [float('inf')] for a record without one. *)
Definition keyfn (it : item) : pyfloat :=
  match price_num it with
  | Some v => v
  | None => Inf false
  end.

(** [sorted(items, key=key)].  The builtin sort is stable and compares the
    keys with [<] only; on floats, which [<] orders as a strict weak order,
    a stable sort has one result, the one of this stable insertion. *)
Fixpoint insert_by {A : Type} (key : A -> pyfloat) (x : A) (l : list A) : list A :=
  match l with
  | [] => [x]
  | y :: l' =>
      if float_ltb (key y) (key x) then y :: insert_by key x l'
      else x :: l
  end.

Definition sorted_by {A : Type} (key : A -> pyfloat) (l : list A) : list A :=
  List.fold_right (insert_by key) [] l.

Definition sort_items_by_price (items : list item) : list item :=
  sorted_by keyfn items.

(* ================================================================== *)
(** ** _short *)

(** [s.split()]: the maximal runs of characters that are not blanks;
    [cur] holds, reversed, the run in progress. *)
Fixpoint split_from (cur : pystr) (s : pystr) : list pystr :=
  match s with
  | [] =>
      match cur with
      | [] => []
      | _ => [List.rev cur]
      end
  | c :: s' =>
      if is_space c then
        match cur with
        | [] => split_from [] s'
        | _ => List.rev cur :: split_from [] s'
        end
      else split_from (c :: cur) s'
  end.

Definition split (s : pystr) : list pystr := split_from [] s.

(** [sep.join(ws)] *)
Fixpoint join (sep : pystr) (ws : list pystr) : pystr :=
  match ws with
  | [] => []
  | [w] => w
  | w :: ws' => (w ++ sep ++ join sep ws')%list
  end.

Definition _short (s : pyarg) (n : Z) : res pystr :=
  if negb (truthy s) then Ret [] else
  match s with
  | PyNone => Raise AttributeError
  | PyStr t =>
      let t := join [ch_space] (split t) in
      if len t <=? n then Ret t
      else Ret (slice_to t (n - 3) ++ py "...")%list
  end.

(* ================================================================== *)
(** ** _parse_price_arg *)

(** The value of a decimal digit of any script: the runs of
    [decimal_ranges] count from zero, ten by ten. *)
Fixpoint decimal_value_in (rs : list (N * N)) (c : pychar) : option N :=
  match rs with
  | [] => None
  | r :: rs' =>
      if (N.leb (fst r) c && N.ltb c (fst r + snd r))%bool
      then Some ((c - fst r) mod 10)%N
      else decimal_value_in rs' c
  end.

(** [float] reads the decimal digits of every script as the ASCII ones. *)
Definition ascii_decimals (s : pystr) : pystr :=
  List.map
    (fun c =>
       match decimal_value_in decimal_ranges c with
       | Some d => (48 + d)%N
       | None => c
       end) s.

(** [float(s)] on a string of digits of any script and points, as the
    fallback of [_parse_price_arg] builds it. *)
Definition py_float_text (s : pystr) : res pyfloat :=
  py_float (ascii_decimals s).

(** [_parse_price_arg] of [main]. *)
Definition _parse_price_arg (s : pyarg) : res (option pyfloat) :=
  match s with
  | PyNone => Ret None
  | PyStr t =>
      v <- normalize_price s ;;
      match v with
      | Some x => Ret (Some x)
      | None =>
          try_except
            (let s2 := replace_char ch_comma ch_dot (remove_sub [ch_dot] t) in
             w <- py_float_text (digits_and_dots s2) ;; Ret (Some w))
            (Ret None)
      end
  end.

(* ================================================================== *)
(** ** The price of a listing *)

(** The price loop of [search_dba_requests] and [search_dba_selenium],
    over the texts of the listing's [span], [div] and [p] tags in
    document order. *)
Fixpoint first_price (txts : list pystr) : res pystr :=
  match txts with
  | [] => Ret []
  | txt :: rest =>
      if negb (truthy (PyStr txt)) then first_price rest
      else
        pstr <- extract_price_string (PyStr txt) ;;
        if truthy (PyStr pstr) then Ret pstr else first_price rest
  end.

(** The [price] and [price_num] fields of the record. *)
Definition listing_price (txts : list pystr) : res (pystr * option pyfloat) :=
  price <- first_price txts ;;
  price_num <- normalize_price (PyStr price) ;;
  Ret (price, price_num).

(* ================================================================== *)
(** ** The lines of print_comparison_table *)

(** [s.ljust(w)] *)
Definition ljust (s : pystr) (w : Z) : pystr :=
  (s ++ List.repeat ch_space (Z.to_nat (w - len s)))%list.

(** The column widths. *)
Definition widths : list Z := [3; 50; 12; 12; 50; 12].

(** [fmt(row)]: the cells padded to their columns and joined; a cell
    beyond the last column has no width to index. *)
Definition fmt (row : list pystr) : res pystr :=
  if (List.length row <=? List.length widths)%nat
  then Ret (join (py " | ")
              (List.map (fun cw => ljust (fst cw) (snd cw))
                 (List.combine row widths)))
  else Raise IndexError.

(** The header tuple, and the length of the rule printed under it:
    [sum(widths) + len(sep) * (len(widths) - 1)]. *)
Definition hdr : list pystr :=
  [ py "#"; py "DBA title"; py "DBA price"; py "DBA loc";
    py "PriceRunner title"; py "PR price" ].

Definition rule_width : Z :=
  List.fold_right Z.add 0 widths
  + len (py " | ") * (Z.of_nat (List.length widths) - 1).

(** [it.get('title','')] as the argument of [_short]. *)
Definition title_arg (it : item) : pyarg :=
  match title it with
  | Some t => PyStr t
  | None => PyNone
  end.

(** The tuple [print_comparison_table] appends for index [i]. *)
Definition table_row (i : Z) (left right : option item) : res (list pystr) :=
  lt <- match left with Some l => _short (title_arg l) 60 | None => Ret [] end ;;
  rt <- match right with Some r => _short (title_arg r) 60 | None => Ret [] end ;;
  Ret [ digits_of (i + 1);
        lt;
        match left with Some l => price l | None => [] end;
        match left with Some l => location l | None => [] end;
        rt;
        match right with Some r => price r | None => [] end ].

(* ================================================================== *)
(** ** Predicates of the statements *)

(** An ASCII digit or a point. *)
Definition digit_or_dot (c : pychar) : bool :=
  (is_ascii_digit c || N.eqb c ch_dot)%bool.

(** No ASCII digit occurs in [s]. *)
Definition no_digit (s : pystr) : Prop :=
  forall c, In c s -> is_ascii_digit c = false.

(** The sign of a float: [true] for the negative ones. *)
Definition sign_of (v : pyfloat) : bool :=
  match v with
  | Fin neg _ _ => neg
  | Inf neg => neg
  end.

(** The sign bit is clear and [0.0 <= v]. *)
Definition nonneg_float (v : pyfloat) : Prop :=
  sign_of v = false /\ float_leb (flt 0 0) v = true.

(** Three ASCII digits and no fourth at the head of [s]. *)
Definition exactly_three_digits (s : pystr) : bool :=
  match s with
  | a :: b :: c :: r =>
      (is_ascii_digit a && is_ascii_digit b && is_ascii_digit c &&
       match r with
       | d :: _ => negb (is_ascii_digit d)
       | [] => true
       end)%bool
  | _ => false
  end.

(** Somewhere in [s], a point or a blank with exactly three digits right
    after it. *)
Fixpoint has_group_of_three (s : pystr) : bool :=
  match s with
  | [] => false
  | c :: s' =>
      ((dot_or_space c && exactly_three_digits s') || has_group_of_three s')%bool
  end.

(** [pn] is present and within the bounds, each bound inclusive and a
    missing bound no bound. *)
Definition price_within (minp maxp pn : option pyfloat) : bool :=
  match pn with
  | None => false
  | Some v =>
      (match minp with Some lo => float_leb lo v | None => true end &&
       match maxp with Some hi => float_leb v hi | None => true end)%bool
  end.

(** Records for the examples: one with a given price, one with a given
    title. *)
Definition sample_item (pn : option pyfloat) : item :=
  mk_item (py "dba") None [] pn None [].

Definition sample_titled (t : string) : item :=
  mk_item (py "dba") (Some (py t)) [] None None [].

(** A plain decimal numeral with one or two digits after the point, such as
    [1234.0] or [12.5]. *)
Definition short_plain (r : pystr) : bool :=
  let (ip, rest) := span_digits r in
  match ip, rest with
  | _ :: _, c :: fp =>
      (N.eqb c ch_dot && List.forallb is_ascii_digit fp &&
       (Nat.eqb (List.length fp) 1 || Nat.eqb (List.length fp) 2))%bool
  | _, _ => false
  end.

(** Zero is kept as [0 * 2^0]. *)
Definition zero_ok (v : pyfloat) : Prop :=
  match v with
  | Fin _ 0 e => e = 0
  | _ => True
  end.

(** The keys of [a] and [b] are in order: [keyfn a <= keyfn b]. *)
Definition key_le (a b : item) : Prop :=
  float_leb (keyfn a) (keyfn b) = true.

(** The key of [it] is neither below nor above [k]: the two sort as
    equal. *)
Definition same_key (k : pyfloat) (it : item) : bool :=
  (negb (float_ltb (keyfn it) k) && negb (float_ltb k (keyfn it)))%bool.

(** Where a scan for blanks stands: at the start, right after a blank, or
    right after another character. *)
Inductive ws_state : Type := AtStart | AfterSpace | AfterChar.

(** From the state [st] on, [s] has no blank but single spaces, each
    between two other characters. *)
Fixpoint single_spaced (st : ws_state) (s : pystr) : bool :=
  match s with
  | [] => match st with AfterSpace => false | _ => true end
  | c :: s' =>
      if N.eqb c ch_space then
        match st with
        | AfterChar => single_spaced AfterSpace s'
        | _ => false
        end
      else if is_space c then false
      else single_spaced AfterChar s'
  end.

(** No blank at either end, no blank but the space, no two spaces in a
    row. *)
Definition tidy (s : pystr) : bool := single_spaced AtStart s.

(** A word: not empty, no blank in it. *)
Definition good_word (w : pystr) : Prop :=
  w <> [] /\ Forall (fun c => is_space c = false) w.

(** [needle] occurs in [s]. *)
Definition occurs (needle s : pystr) : Prop :=
  exists pre post, s = (pre ++ needle ++ post)%list.

(** What [_extract_json_array] looks for: the key in quotes, a colon and
    an opening bracket. *)
Definition key_needle (key : pystr) : pystr :=
  ([ch_quote] ++ key ++ [ch_quote; 58; ch_lbrack]%N)%list.

(** The same without the bracket. *)
Definition key_prefix (key : pystr) : pystr :=
  ([ch_quote] ++ key ++ [ch_quote; 58]%N)%list.

(** A spelling of [kr], [kr.] or [DKK] in either letter case, as the
    currency group matches it. *)
Definition currency_token (cur : pystr) : bool :=
  match cur with
  | [a; b] => (is_k a && is_r b)%bool
  | [a; b; c] =>
      ((is_k a && is_r b && N.eqb c ch_dot) || (is_d a && is_k b && is_k c))%bool
  | _ => false
  end.

(** No digit character other than the decimals occurs in [s]: no
    superscript, circled or other digit that [float] does not read. *)
Definition plain_digits (s : pystr) : bool :=
  List.forallb (fun c => negb (in_ranges c other_digit_ranges)) s.

(** The number of commas of [s]. *)
Definition commas (s : pystr) : nat := count_occ N.eq_dec s ch_comma.

(** What may follow the number of a price: nothing, or a blank and a
    currency token. *)
Definition currency_suffix (sfx : pystr) : bool :=
  match sfx with
  | [] => true
  | c :: cur => (N.eqb c ch_space && currency_token cur)%bool
  end.

(** What the cleaning leaves of the text after the number: nothing when
    the currency token is removed, else a blank and the point of the
    token, if it has one. *)
Definition residue (sfx : pystr) : pystr :=
  match sfx with
  | [] => []
  | _ :: cur =>
      match remove_sub (py "DKK")
              (remove_sub (py "kr") (remove_sub (py "kr.") cur)) with
      | [] => []
      | R => ch_space :: List.filter price_char R
      end
  end.

(** [(?:[\.\s]\d{3})*] in ASCII digits, up to the end of the string. *)
Fixpoint groups_of_three (s : pystr) : bool :=
  match s with
  | [] => true
  | sep :: d1 :: d2 :: d3 :: s' =>
      (dot_or_space sep && is_ascii_digit d1 && is_ascii_digit d2
       && is_ascii_digit d3 && groups_of_three s')%bool
  | _ => false
  end.

(** A whole number as a listing writes it: ASCII digits, then any number
    of groups of a point or a blank and three digits. *)
Definition whole_number (num : pystr) : bool :=
  let (ds, r) := span_digits num in
  match ds with
  | [] => false
  | _ :: _ => groups_of_three r
  end.

(** The number its digits spell. *)
Definition whole_value (num : pystr) : Z :=
  digits_value (List.filter is_ascii_digit num) 0.

(** A whole number below [2^53] and what may follow it. *)
Definition whole_price (num sfx : pystr) : bool :=
  (whole_number num && currency_suffix sfx && (whole_value num <? 2 ^ 53))%bool.

(** No decimal digit of another script occurs in [s]. *)
Definition ascii_decimals_only (s : pystr) : bool :=
  List.forallb (fun c => implb (is_decimal c) (is_ascii_digit c)) s.

(** The currency token after the blank has a point and is not [kr.]
    itself: cleaning keeps that point. *)
Definition point_token (sfx : pystr) : bool :=
  match sfx with
  | [] => false
  | _ :: cur =>
      (List.existsb (N.eqb ch_dot) cur && negb (str_eqb cur (py "kr.")))%bool
  end.

(** The currency the result shows for group 2 of the primary pattern. *)
Definition shown_currency (g : option pystr) : pystr :=
  match g with
  | Some (c :: cs) =>
      if str_eqb (upper (c :: cs)) (py "DKK") then py "DKK" else c :: cs
  | _ => py "kr."
  end.

(* ================================================================== *)
(** * Properties *)

(** ** Characters *)

Ltac to_props :=
  repeat match goal with
  | H : (_ && _)%bool = true |- _ => apply andb_true_iff in H; destruct H
  | H : (_ || _)%bool = false |- _ => apply orb_false_iff in H; destruct H
  | H : negb _ = true |- _ => apply negb_true_iff in H
  | H : negb _ = false |- _ => apply negb_false_iff in H
  | H : N.leb _ _ = true |- _ => apply N.leb_le in H
  | H : N.leb _ _ = false |- _ => apply N.leb_gt in H
  | H : N.ltb _ _ = true |- _ => apply N.ltb_lt in H
  | H : N.ltb _ _ = false |- _ => apply N.ltb_ge in H
  | H : N.eqb _ _ = true |- _ => apply N.eqb_eq in H
  | H : N.eqb _ _ = false |- _ => apply N.eqb_neq in H
  end.

Lemma ascii_digit_range (c : pychar) :
  is_ascii_digit c = true <-> (48 <= c <= 57)%N.
Proof.
  unfold is_ascii_digit. rewrite andb_true_iff, !N.leb_le. tauto.
Qed.

Lemma ascii_digit_is_decimal (c : pychar) :
  is_ascii_digit c = true -> is_decimal c = true.
Proof.
  intros H. apply ascii_digit_range in H.
  unfold is_decimal, in_ranges, decimal_ranges.
  cbn [existsb fst snd]. apply orb_true_iff. left.
  apply andb_true_iff. split; [apply N.leb_le | apply N.ltb_lt]; lia.
Qed.

Lemma ascii_digit_isdigit (c : pychar) :
  is_ascii_digit c = true -> isdigit c = true.
Proof.
  intros H. unfold isdigit. rewrite (ascii_digit_is_decimal c H). reflexivity.
Qed.

Lemma space_not_ascii_digit (c : pychar) :
  is_space c = true -> is_ascii_digit c = false.
Proof.
  intros H. destruct (is_ascii_digit c) eqn:E; [exfalso | reflexivity].
  apply ascii_digit_range in E.
  unfold is_space, in_ranges, whitespace_ranges in H. cbn [existsb fst snd] in H.
  repeat (apply orb_true_iff in H; destruct H as [H | H]);
    try discriminate; to_props; lia.
Qed.

(** ** String methods keep to the characters they are given *)

Lemma remove_sub_from_In (old : pystr) (c : pychar) (s : pystr) :
  forall k, In c (remove_sub_from old k s) -> In c s.
Proof.
  induction s as [| a s IH]; intros k H; [exact H |].
  cbn [remove_sub_from] in H. destruct k as [| k].
  - destruct (is_prefix old (a :: s)).
    + right. eapply IH; eassumption.
    + destruct H as [H | H]; [left; exact H | right; eapply IH; eassumption].
  - right. eapply IH; eassumption.
Qed.

Lemma remove_sub_In (old s : pystr) (c : pychar) :
  In c (remove_sub old s) -> In c s.
Proof. apply remove_sub_from_In. Qed.

Lemma lstrip_In (s : pystr) (c : pychar) : In c (lstrip s) -> In c s.
Proof.
  induction s as [| a s IH]; cbn [lstrip]; [tauto |].
  destruct (is_space a); [intros H; right; auto | tauto].
Qed.

Lemma strip_In (s : pystr) (c : pychar) : In c (strip s) -> In c s.
Proof.
  unfold strip. intros H.
  apply in_rev in H. apply lstrip_In in H. apply in_rev in H.
  now apply lstrip_In.
Qed.

Lemma replace_char_In (a b : pychar) (s : pystr) (c : pychar) :
  In c (replace_char a b s) -> In c s \/ c = b.
Proof.
  unfold replace_char. intros H. apply in_map_iff in H.
  destruct H as [x [Hx Hin]]. destruct (N.eqb x a); subst; auto.
Qed.

Lemma cleaned_of_In (p : pystr) (c : pychar) :
  In c (cleaned_of p) -> price_char c = true /\ (In c p \/ c = ch_space).
Proof.
  unfold cleaned_of. intros H. apply filter_In in H. destruct H as [H Hc].
  split; [exact Hc |].
  apply strip_In in H. apply replace_char_In in H.
  destruct H as [H | H]; [left | right; exact H].
  now repeat apply remove_sub_In in H.
Qed.

(** ** What reaches [float] *)

Lemma span_digits_no_digit (s : pystr) :
  no_digit s -> span_digits s = ([], s).
Proof.
  destruct s as [| c s]; intros H; [reflexivity |].
  cbn [span_digits]. rewrite (H c (or_introl eq_refl)). reflexivity.
Qed.

Lemma parse_decimal_no_digit (s : pystr) :
  no_digit s -> parse_decimal s = None.
Proof.
  intros H. unfold parse_decimal, parse_number.
  rewrite (span_digits_no_digit s H).
  destruct s as [| c r]; [reflexivity |].
  destruct (N.eqb c ch_dot); [| reflexivity].
  rewrite span_digits_no_digit by (intros x Hx; apply H; now right).
  reflexivity.
Qed.

(** A string without a digit is not a number. *)
Lemma py_float_no_digit (s : pystr) :
  no_digit s -> py_float s = Raise ValueError.
Proof.
  intros H. unfold py_float.
  assert (Htl : forall c s', s = c :: s' -> no_digit s').
  { intros c s' -> x Hx. apply H. now right. }
  destruct s as [| c s'].
  - reflexivity.
  - specialize (Htl c s' eq_refl).
    destruct (N.eqb c ch_minus); [now rewrite parse_decimal_no_digit |].
    destruct (N.eqb c ch_plus); now rewrite parse_decimal_no_digit.
Qed.

Lemma float_or_none_no_digit (s : pystr) :
  no_digit s -> float_or_none s = Ret None.
Proof.
  intros H. unfold float_or_none. now rewrite py_float_no_digit.
Qed.

Lemma no_digit_filter (f : pychar -> bool) (s : pystr) :
  no_digit s -> no_digit (List.filter f s).
Proof. intros H c Hc. apply filter_In in Hc. now apply H. Qed.

Lemma no_digit_replace (a b : pychar) (s : pystr) :
  is_ascii_digit b = false -> no_digit s -> no_digit (replace_char a b s).
Proof.
  intros Hb H c Hc. apply replace_char_In in Hc.
  destruct Hc as [Hc | ->]; auto.
Qed.

Lemma no_digit_cleaned (p : pystr) : no_digit p -> no_digit (cleaned_of p).
Proof.
  intros H c Hc. apply cleaned_of_In in Hc.
  destruct Hc as [_ [Hc | ->]]; [now apply H | reflexivity].
Qed.

Lemma normalise_nonneg (m e : Z) : 0 <= fst (normalise m e).
Proof.
  unfold normalise. destruct m as [| p | p]; cbn; try lia.
  destruct (pos_odd_part p). cbn. lia.
Qed.

Lemma round_ratio_nonneg (num den m e : Z) :
  round_ratio num den = Some (m, e) -> 0 <= m.
Proof.
  unfold round_ratio. cbv zeta.
  destruct (_ <=? _); [discriminate |].
  intros H. injection H as H.
  match type of H with normalise ?a ?b = _ =>
    pose proof (normalise_nonneg a b) as Hn; rewrite H in Hn end.
  exact Hn.
Qed.

Lemma float_of_ratio_nonneg (num den : Z) :
  nonneg_float (float_of_ratio false num den).
Proof.
  unfold float_of_ratio. destruct (round_ratio num den) as [[m e] |] eqn:E.
  - apply round_ratio_nonneg in E. split; [reflexivity |].
    change (flt 0 0) with (Fin false 0 0).
    cbn [float_leb signed]. apply Z.leb_le.
    rewrite Z.mul_0_l. apply Z.mul_nonneg_nonneg; [lia |].
    apply Z.pow_nonneg. lia.
  - split; reflexivity.
Qed.

Lemma float_of_decimal_nonneg (M p : Z) :
  nonneg_float (float_of_decimal false M p).
Proof.
  unfold float_of_decimal. destruct (0 <=? p); apply float_of_ratio_nonneg.
Qed.

(** A string of digits and points has no sign to read. *)
Lemma py_float_unsigned (s : pystr) (v : pyfloat) :
  Forall (fun c => digit_or_dot c = true) s ->
  py_float s = Ret v -> nonneg_float v.
Proof.
  intros Hs. unfold py_float.
  assert (Hhd : (let (neg, body) :=
            match s with
            | c :: s' =>
                if N.eqb c ch_minus then (true, s')
                else if N.eqb c ch_plus then (false, s') else (false, s)
            | [] => (false, [])
            end in (neg, body)) = (false, s)).
  { destruct s as [| c s']; [reflexivity |].
    inversion Hs as [| ? ? Hc _]; subst.
    unfold digit_or_dot in Hc.
    destruct (N.eqb c ch_minus) eqn:E1.
    { apply N.eqb_eq in E1. subst c. discriminate Hc. }
    destruct (N.eqb c ch_plus) eqn:E2.
    { apply N.eqb_eq in E2. subst c. discriminate Hc. }
    reflexivity. }
  destruct (match s with
            | c :: s' =>
                if N.eqb c ch_minus then (true, s')
                else if N.eqb c ch_plus then (false, s') else (false, s)
            | [] => (false, [])
            end) as [neg body].
  injection Hhd as -> ->.
  destruct (parse_decimal s) as [[M k] |]; [| discriminate].
  intros H. injection H as <-. apply float_of_decimal_nonneg.
Qed.

Lemma price_char_cases (c : pychar) :
  price_char c = true ->
  is_ascii_digit c = true \/ c = ch_dot \/ c = ch_comma \/ is_space c = true.
Proof.
  unfold price_char. rewrite !orb_true_iff, !N.eqb_eq. tauto.
Qed.

Lemma comma_to_dot_chars (s : pystr) :
  Forall (fun c => price_char c = true) s ->
  Forall (fun c => digit_or_dot c = true)
    (replace_char ch_comma ch_dot (List.filter (fun c => negb (dot_or_space c)) s)).
Proof.
  intros Hs. apply Forall_forall. intros c Hc.
  unfold replace_char in Hc. apply in_map_iff in Hc.
  destruct Hc as [x [Hx Hin]]. apply filter_In in Hin. destruct Hin as [Hin Hf].
  rewrite Forall_forall in Hs. specialize (Hs x Hin).
  destruct (N.eqb x ch_comma) eqn:E; [subst c; reflexivity |].
  subst c. apply N.eqb_neq in E. apply negb_true_iff in Hf.
  unfold dot_or_space in Hf. apply orb_false_iff in Hf. destruct Hf as [Hd Hsp].
  apply N.eqb_neq in Hd.
  destruct (price_char_cases x Hs) as [H | [H | [H | H]]]; try congruence.
  unfold digit_or_dot. now rewrite H.
Qed.

Lemma keep_dot_chars (s : pystr) :
  Forall (fun c => price_char c = true) s ->
  Forall (fun c => digit_or_dot c = true)
    (List.filter (fun c => negb (is_space c || N.eqb c ch_comma)) s).
Proof.
  intros Hs. apply Forall_forall. intros c Hc.
  apply filter_In in Hc. destruct Hc as [Hin Hf].
  rewrite Forall_forall in Hs. specialize (Hs c Hin).
  apply negb_true_iff, orb_false_iff in Hf. destruct Hf as [Hsp Hco].
  apply N.eqb_neq in Hco. unfold digit_or_dot.
  destruct (price_char_cases c Hs) as [H | [H | [H | H]]]; try congruence.
  - now rewrite H.
  - subst c. apply orb_true_r.
Qed.

Lemma keep_digit_chars (s : pystr) :
  Forall (fun c => price_char c = true) s ->
  Forall (fun c => digit_or_dot c = true)
    (List.filter (fun c => negb (is_space c || N.eqb c ch_dot || N.eqb c ch_comma)) s).
Proof.
  intros Hs. apply Forall_forall. intros c Hc.
  apply filter_In in Hc. destruct Hc as [Hin Hf].
  rewrite Forall_forall in Hs. specialize (Hs c Hin).
  apply negb_true_iff in Hf. apply orb_false_iff in Hf. destruct Hf as [Hf Hco].
  apply orb_false_iff in Hf. destruct Hf as [Hsp Hd].
  apply N.eqb_neq in Hco. apply N.eqb_neq in Hd. unfold digit_or_dot.
  destruct (price_char_cases c Hs) as [H | [H | [H | H]]]; try congruence.
  now rewrite H.
Qed.

Lemma digits_and_dots_chars (s : pystr) :
  Forall (fun c => digit_or_dot c = true) s ->
  Forall (fun c => digit_or_dot c = true) (digits_and_dots s).
Proof.
  intros Hs. apply Forall_forall. intros c Hc.
  apply filter_In in Hc. rewrite Forall_forall in Hs. now apply Hs.
Qed.

(** The last filter before [float] changes nothing: the string is made of
    ASCII digits and points already. *)
Lemma digits_and_dots_id (s : pystr) :
  Forall (fun c => digit_or_dot c = true) s -> digits_and_dots s = s.
Proof.
  induction 1 as [| c s Hc _ IH]; [reflexivity |].
  unfold digits_and_dots in *. cbn [List.filter].
  assert (E : (isdigit c || N.eqb c ch_dot)%bool = true).
  { unfold digit_or_dot in Hc. apply orb_true_iff in Hc.
    destruct Hc as [Hc | Hc].
    - now rewrite (ascii_digit_isdigit c Hc).
    - rewrite Hc. apply orb_true_r. }
  rewrite E, IH. reflexivity.
Qed.

Lemma cleaned_of_chars (p : pystr) :
  Forall (fun c => price_char c = true) (cleaned_of p).
Proof.
  apply Forall_forall. intros c Hc. now apply cleaned_of_In in Hc.
Qed.

(** Every call of [float] in [normalize_price] is on a string of ASCII
    digits and points, in which a digit comes from the input. *)
Lemma core_chars (p : pystr) :
  exists core,
    (normalize_price (PyStr p) = Ret None \/
     normalize_price (PyStr p) = float_or_none core) /\
    Forall (fun c => digit_or_dot c = true) core /\
    (no_digit p -> no_digit core).
Proof.
  pose proof (cleaned_of_chars p) as Hch.
  pose proof (no_digit_cleaned p) as Hnd.
  unfold normalize_price.
  destruct (truthy (PyStr p)); cbn [negb];
    [| exists []; repeat split; auto; intros _ c []].
  destruct (cleaned_of p) as [| c0 cl] eqn:Ecl;
    [exists []; repeat split; auto; intros _ c [] |].
  destruct (re_search_sep3 (c0 :: cl)).
  - eexists. split; [right; reflexivity |]. split.
    + apply digits_and_dots_chars, comma_to_dot_chars, Hch.
    + intros H. apply no_digit_filter, no_digit_replace; [reflexivity |].
      apply no_digit_filter. auto.
  - destruct (decimal_sep_of (c0 :: cl)) as [sep |].
    + eexists. split; [right; reflexivity |]. split.
      * apply digits_and_dots_chars. destruct (N.eqb sep ch_dot).
        -- apply keep_dot_chars, Hch.
        -- apply comma_to_dot_chars, Hch.
      * intros H. apply no_digit_filter. destruct (N.eqb sep ch_dot).
        -- apply no_digit_filter. auto.
        -- apply no_digit_replace; [reflexivity |]. apply no_digit_filter. auto.
    + eexists. split; [right; reflexivity |]. split.
      * apply keep_digit_chars, Hch.
      * intros H. apply no_digit_filter. auto.
Qed.

(** A number [normalize_price] returns was read by [float] from a string
    of ASCII digits and points. *)
Lemma normalize_price_result (a : pyarg) (v : pyfloat) :
  normalize_price a = Ret (Some v) ->
  exists core,
    Forall (fun c => digit_or_dot c = true) core /\ py_float core = Ret v.
Proof.
  destruct a as [| p]; [discriminate |].
  destruct (core_chars p) as [core [[E | E] [Hch _]]]; rewrite E;
    [discriminate |].
  unfold float_or_none. destruct (py_float core) as [w | e] eqn:Ew;
    cbn [bind try_except]; [| discriminate].
  intros H. injection H as <-. exists core. split; assumption.
Qed.

(** ** Claims on [normalize_price] *)

(** C1: the listed inputs give the listed results:
    "kr. 1.234" and "1.234,00 kr" give 1234.0, "150 kr." gives 150.0,
    "3.250" gives 3250.0, "12,5" gives 12.5, and the empty string gives
    None. *)
Theorem normalize_price_examples :
  normalize_price (PyStr (py "kr. 1.234")) = Ret (Some (flt 1234 0)) /\
  normalize_price (PyStr (py "1.234,00 kr")) = Ret (Some (flt 1234 0)) /\
  normalize_price (PyStr (py "150 kr.")) = Ret (Some (flt 150 0)) /\
  normalize_price (PyStr (py "3.250")) = Ret (Some (flt 3250 0)) /\
  normalize_price (PyStr (py "12,5")) = Ret (Some (flt 25 (-1))) /\
  normalize_price (PyStr (py "")) = Ret None.
Proof.
  repeat split; vm_compute; reflexivity.
Qed.

(** C4: a string without a digit character, whatever points, commas or
    blanks it holds, normalises to None. *)
Theorem normalize_price_no_digit (s : pystr) :
  (forall c, In c s -> is_ascii_digit c = false) ->
  normalize_price (PyStr s) = Ret None.
Proof.
  intros H. destruct (core_chars s) as [core [[E | E] [_ Hnd]]]; [exact E |].
  rewrite E. apply float_or_none_no_digit. apply Hnd. exact H.
Qed.

Lemma normalize_price_no_digit_witness :
  normalize_price (PyStr (py "kr. , . -")) = Ret None.
Proof.
  apply normalize_price_no_digit.
  intros c Hc. cbn in Hc.
  repeat (destruct Hc as [<- | Hc]; [reflexivity |]). destruct Hc.
Defined.

(** C10: a number returned by [normalize_price] is never negative: its
    sign bit is clear and [0.0 <= v] holds; a minus sign is dropped with
    the other characters that are not digits, points, commas or blanks. *)
Theorem normalize_price_nonneg (a : pyarg) (v : pyfloat) :
  normalize_price a = Ret (Some v) ->
  sign_of v = false /\ float_leb (flt 0 0) v = true.
Proof.
  intros H. destruct (normalize_price_result a v H) as [core [Hch Ew]].
  exact (py_float_unsigned core v Hch Ew).
Qed.

Lemma normalize_price_nonneg_witness :
  normalize_price (PyStr (py "-150 kr")) = Ret (Some (flt 150 0)) /\
  sign_of (flt 150 0) = false /\ float_leb (flt 0 0) (flt 150 0) = true.
Proof.
  split; [vm_compute; reflexivity |].
  apply (normalize_price_nonneg (PyStr (py "-150 kr")) (flt 150 0)).
  vm_compute. reflexivity.
Defined.

Lemma exactly_three_is_three (s : pystr) :
  exactly_three_digits s = true -> three_decimals s = true.
Proof.
  destruct s as [| a [| b [| c r]]]; try discriminate.
  cbn [exactly_three_digits three_decimals]. intros H. to_props.
  now rewrite !ascii_digit_is_decimal.
Qed.

Lemma group_of_three_found (s : pystr) :
  has_group_of_three s = true -> re_search_sep3 s = true.
Proof.
  induction s as [| c s IH]; [discriminate |].
  cbn [has_group_of_three re_search_sep3]. intros H.
  apply orb_true_iff in H. apply orb_true_iff. destruct H as [H | H].
  - left. to_props. rewrite H. now rewrite exactly_three_is_three.
  - right. auto.
Qed.

(** C2: when the cleaned string holds a point or blank immediately followed
    by exactly three digits, every point and blank is a thousands
    separator: the result is the float read from the cleaned string with
    the points and blanks removed and the commas turned into points (None
    when that is not a number), whatever the last separator is. *)
Theorem thousands_rule (p : pystr) :
  has_group_of_three (cleaned_of p) = true ->
  normalize_price (PyStr p) =
  float_or_none
    (replace_char ch_comma ch_dot
       (List.filter (fun c => negb (dot_or_space c)) (cleaned_of p))).
Proof.
  intros H. unfold normalize_price.
  destruct p as [| c0 p]; [discriminate H |].
  cbn [truthy negb].
  destruct (cleaned_of (c0 :: p)) as [| c1 cl] eqn:Ecl; [discriminate H |].
  rewrite (group_of_three_found _ H).
  rewrite digits_and_dots_id; [reflexivity |].
  apply comma_to_dot_chars. rewrite <- Ecl. apply cleaned_of_chars.
Qed.

Lemma thousands_rule_witness :
  has_group_of_three (cleaned_of (py "3.250 kr")) = true /\
  decimal_sep_of (cleaned_of (py "3.250 kr")) = Some ch_dot /\
  normalize_price (PyStr (py "3.250 kr")) = float_or_none (py "3250").
Proof.
  split; [vm_compute; reflexivity |].
  split; [vm_compute; reflexivity |].
  rewrite (thousands_rule (py "3.250 kr")); vm_compute; reflexivity.
Defined.

(** ** Claims on [extract_price_string] *)

(** A decimal digit is no blank, no point, no comma and no currency
    letter. *)
Lemma decimal_char_facts (c : pychar) :
  is_decimal c = true ->
  is_space c = false /\ N.eqb c ch_dot = false /\ N.eqb c ch_comma = false /\
  is_k c = false /\ is_d c = false.
Proof.
  intros H.
  unfold is_decimal, in_ranges, decimal_ranges in H. cbn [existsb fst snd] in H.
  unfold is_space, in_ranges, whitespace_ranges, is_k, is_d, ch_dot, ch_comma.
  cbn [existsb fst snd].
  repeat (apply orb_true_iff in H; destruct H as [H | H]);
    try discriminate; to_props;
    repeat split;
    repeat (apply orb_false_iff; split); try reflexivity;
    try (apply N.eqb_neq; lia);
    apply andb_false_iff; rewrite N.leb_gt, N.ltb_ge; lia.
Qed.

Lemma lstrip_no_space (c : pychar) (s : pystr) :
  is_space c = false -> lstrip (c :: s) = c :: s.
Proof. intros H. cbn [lstrip]. now rewrite H. Qed.

(** [strip] leaves a string alone that neither starts nor ends with a
    blank. *)
Lemma strip_id (a z : pychar) (mid : pystr) :
  is_space a = false -> is_space z = false ->
  strip (a :: mid ++ [z]) = a :: mid ++ [z].
Proof.
  intros Ha Hz. unfold strip. rewrite lstrip_no_space by exact Ha.
  change (a :: mid ++ [z]) with ((a :: mid) ++ [z]).
  rewrite rev_app_distr. cbn [rev app].
  rewrite lstrip_no_space by exact Hz.
  change (z :: rev mid ++ [a]) with ([z] ++ (rev mid ++ [a])).
  rewrite rev_app_distr, rev_app_distr, rev_involutive. reflexivity.
Qed.

Lemma take_groups_decimal (c : pychar) (s : pystr) :
  is_decimal c = true -> take_groups (c :: s) = ([], c :: s).
Proof.
  intros H. destruct (decimal_char_facts c H) as [Hs [Hd _]].
  destruct s as [| d1 [| d2 [| d3 s]]]; try reflexivity.
  cbn [take_groups]. unfold dot_or_space. rewrite Hs, Hd. reflexivity.
Qed.

Lemma take_currency_decimal (c : pychar) (s : pystr) :
  is_decimal c = true -> take_currency (c :: s) = None.
Proof.
  intros H. destruct (decimal_char_facts c H) as [_ [_ [_ [Hk Hd]]]].
  destruct s as [| b [| c' s]]; try reflexivity;
    cbn [take_currency]; rewrite Hk; cbn [andb]; rewrite ?Hd; reflexivity.
Qed.

(** C9: on a bare run of four or more digits the primary pattern matches
    the first three digits only, with no currency, so the result is those
    three digits and the default suffix, and the fallback pattern is not
    tried. *)
Theorem extract_price_string_digit_run (s : pystr) :
  Forall (fun c => is_decimal c = true) s ->
  (4 <= List.length s)%nat ->
  search_price s = Some (mk_match (List.firstn 3 s) [None]) /\
  extract_price_string (PyStr s) = Ret (List.firstn 3 s ++ py " kr.").
Proof.
  intros Hs Hlen.
  destruct s as [| a [| b [| c [| d r]]]]; cbn [List.length] in Hlen; try lia.
  inversion Hs as [| ? ? Ha Hs1]; subst.
  inversion Hs1 as [| ? ? Hb Hs2]; subst.
  inversion Hs2 as [| ? ? Hc Hs3]; subst.
  inversion Hs3 as [| ? ? Hd _]; subst.
  assert (Hm : match_price_at (a :: b :: c :: d :: r)
               = Some (mk_match [a; b; c] [None])).
  { unfold match_price_at. cbn [take_decimals]. rewrite Ha, Hb, Hc.
    rewrite (take_groups_decimal d r Hd).
    destruct (decimal_char_facts d Hd) as [Hsp [_ [Hco _]]].
    unfold take_fraction. rewrite Hco.
    cbn [skip_spaces]. rewrite Hsp.
    rewrite (take_currency_decimal d r Hd). reflexivity. }
  assert (Hsearch : search_price (a :: b :: c :: d :: r)
                    = Some (mk_match [a; b; c] [None])).
  { cbn [search_price]. rewrite Hm. reflexivity. }
  split; [exact Hsearch |].
  unfold extract_price_string. cbn [truthy negb]. rewrite Hsearch.
  cbn [group1 group2 later_groups bind List.firstn].
  change (strip (py "kr.")) with (py "kr.").
  change (str_eqb (upper (py "kr.")) (py "DKK")) with false.
  cbv iota.
  destruct (decimal_char_facts a Ha) as [Hsp _].
  f_equal.
  transitivity (strip (a :: [b; c; ch_space; 107; 114]%N ++ [ch_dot]));
    [reflexivity |].
  rewrite (strip_id a ch_dot [b; c; ch_space; 107; 114]%N Hsp eq_refl).
  reflexivity.
Qed.

Lemma extract_price_string_digit_run_witness :
  extract_price_string (PyStr (py "12345")) = Ret (py "123 kr.").
Proof.
  apply (extract_price_string_digit_run (py "12345")).
  - repeat constructor.
  - cbn. lia.
Defined.

(** The fallback pattern finds nothing where the primary found nothing:
    both need a decimal digit to start. *)
Lemma take_decimals_head (n : nat) (c : pychar) (s : pystr) :
  is_decimal c = true ->
  exists ds r, take_decimals (S n) (c :: s) = (c :: ds, r).
Proof.
  intros H. cbn [take_decimals]. rewrite H.
  destruct (take_decimals n s) as [ds r]. eauto.
Qed.

Lemma match_digits_needs_price (s : pystr) :
  match_price_at s = None -> match_digits_at s = None.
Proof.
  destruct s as [| c s]; [reflexivity |].
  destruct (is_decimal c) eqn:E.
  - unfold match_price_at.
    destruct (take_decimals_head 2 c s E) as [ds [r1 ->]].
    destruct (take_groups r1) as [gs r2]. destruct (take_fraction r2).
    intros H. discriminate H.
  - intros _. unfold match_digits_at. cbn [take_while]. rewrite E. reflexivity.
Qed.

Lemma search_digits_needs_price (s : pystr) :
  search_price s = None -> search_digits s = None.
Proof.
  induction s as [| c s IH]; [reflexivity |].
  cbn [search_price search_digits].
  destruct (match_price_at (c :: s)) eqn:E; [discriminate |].
  rewrite (match_digits_needs_price _ E). exact IH.
Qed.

Lemma match_price_groups (s : pystr) (m : pymatch) :
  match_price_at s = Some m -> exists g, later_groups m = [g].
Proof.
  unfold match_price_at. destruct (take_decimals 3 s) as [[| d ds] r1];
    [discriminate |].
  destruct (take_groups r1) as [gs r2]. destruct (take_fraction r2).
  intros H. injection H as <-. eexists. reflexivity.
Qed.

Lemma search_price_groups (s : pystr) (m : pymatch) :
  search_price s = Some m -> exists g, later_groups m = [g].
Proof.
  induction s as [| c s IH]; [discriminate |].
  cbn [search_price]. destruct (match_price_at (c :: s)) eqn:E.
  - intros H. injection H as <-. eapply match_price_groups; eassumption.
  - exact IH.
Qed.

Lemma extract_price_string_returns (text : pyarg) :
  exists v, extract_price_string text = Ret v.
Proof.
  unfold extract_price_string.
  destruct (truthy text) eqn:Et; cbn [negb]; [| eexists; reflexivity].
  destruct text as [| t]; [discriminate Et |].
  destruct (search_price t) as [m |] eqn:E.
  - destruct (search_price_groups t m E) as [g Hg].
    unfold group2. rewrite Hg. cbn [bind]. eexists. reflexivity.
  - rewrite (search_digits_needs_price t E). eexists. reflexivity.
Qed.

Lemma float_or_none_returns (core : pystr) :
  exists v, float_or_none core = Ret v.
Proof.
  unfold float_or_none. destruct (py_float core); cbn; eexists; reflexivity.
Qed.

Lemma normalize_price_returns (a : pyarg) :
  exists v, normalize_price a = Ret v.
Proof.
  destruct a as [| p]; [eexists; reflexivity |].
  destruct (core_chars p) as [core [[E | E] _]]; rewrite E.
  - eexists. reflexivity.
  - apply float_or_none_returns.
Qed.

Lemma extract_json_array_returns (t key : pystr) :
  exists v, _extract_json_array (PyStr t) key = Ret v.
Proof.
  unfold _extract_json_array. cbv zeta.
  destruct (_ =? -1); [eexists; reflexivity |].
  destruct (_ =? -1); [eexists; reflexivity |].
  destruct (scan _ _ _ _ _); eexists; reflexivity.
Qed.

(** ** Claims on [_extract_json_array] *)

(** C5: the scan knows strings.  On the text
    ["products":[{"a":1},{"b":"]"}]] with key [products] the whole array is
    returned, the bracket inside the quoted value left alone; the same
    holds behind an escaped quote.  In a string, a bracket changes neither
    the depth nor ends the scan, and a quote right after a backslash does
    not open or close a string. *)
Theorem extract_json_array_string_aware :
  _extract_json_array (PyStr (pyq "'products':[{'a':1},{'b':']'}]")) (py "products")
  = Ret (Some (pyq "[{'a':1},{'b':']'}]")) /\
  _extract_json_array (PyStr (pyq "'products':[{'b':'\']'}] tail]")) (py "products")
  = Ret (Some (pyq "[{'b':'\']'}]")) /\
  (forall esc depth,
      scan_step ch_rbrack true esc depth = (true, false, depth, false) /\
      scan_step ch_lbrack true esc depth = (true, false, depth, false)) /\
  (forall in_str depth,
      scan_step ch_quote in_str true depth = (in_str, false, depth, false)).
Proof.
  split; [vm_compute; reflexivity |].
  split; [vm_compute; reflexivity |].
  split.
  - intros esc depth. destruct esc; split; reflexivity.
  - intros in_str depth. destruct in_str; reflexivity.
Qed.

(** ** No exception reaches the caller *)

(** C6, as stated, fails: [_extract_json_array] has no guard for a missing
    text and raises on [None]. *)
Lemma extract_json_array_none_raises :
  _extract_json_array PyNone (py "products") = Raise AttributeError /\
  ~ (forall text key, exists v, _extract_json_array text key = Ret v).
Proof.
  split; [reflexivity |].
  intros H. destruct (H PyNone (py "products")) as [v Hv]. discriminate Hv.
Qed.

(** C6, amended: on every string, empty or malformed, each of the three
    operations returns a value or None and raises nothing; on [None],
    [normalize_price] returns None and [extract_price_string] the empty
    string. *)
Theorem core_never_raises :
  (forall a : pyarg, exists v, normalize_price a = Ret v) /\
  (forall a : pyarg, exists v, extract_price_string a = Ret v) /\
  (forall (t key : pystr), exists v, _extract_json_array (PyStr t) key = Ret v) /\
  normalize_price PyNone = Ret None /\
  extract_price_string PyNone = Ret [] /\
  normalize_price (PyStr []) = Ret None /\
  extract_price_string (PyStr []) = Ret [] /\
  (forall key, _extract_json_array (PyStr []) key = Ret None).
Proof.
  split; [exact normalize_price_returns |].
  split; [exact extract_price_string_returns |].
  split; [exact extract_json_array_returns |].
  repeat split; try reflexivity.
Qed.

(** ** The price filter *)

Lemma float_leb_ltb (a b : pyfloat) : float_leb a b = negb (float_ltb b a).
Proof.
  destruct a as [n1 m1 e1 | n1], b as [n2 m2 e2 | n2]; cbn [float_leb float_ltb].
  - rewrite (Z.min_comm e2 e1). apply Z.leb_antisym.
  - reflexivity.
  - now rewrite negb_involutive.
  - rewrite negb_andb, negb_involutive. apply orb_comm.
Qed.

Lemma in_range_within (minp maxp : option pyfloat) (it : item) :
  in_range minp maxp it = price_within minp maxp (price_num it).
Proof.
  unfold in_range, price_within. destruct (price_num it) as [pn |]; [| reflexivity].
  destruct minp as [lo |], maxp as [hi |]; rewrite ?float_leb_ltb;
    repeat match goal with |- context [float_ltb ?x ?y] =>
      destruct (float_ltb x y) end; reflexivity.
Qed.

(** C7: with a bound supplied, the filter keeps, in their order, exactly
    the records whose price is present and within the bounds, both ends
    included: a record without a price goes, one strictly below the
    minimum or strictly above the maximum goes, one equal to a bound
    stays. *)
Theorem price_filter_keeps_range (minp maxp : option pyfloat) (items : list item) :
  (is_some minp || is_some maxp)%bool = true ->
  apply_price_filter minp maxp items
  = List.filter (fun it => price_within minp maxp (price_num it)) items /\
  (forall it, In it (apply_price_filter minp maxp items) <->
     In it items /\
     exists v, price_num it = Some v /\
       (forall lo, minp = Some lo -> float_ltb v lo = false /\ float_leb lo v = true) /\
       (forall hi, maxp = Some hi -> float_ltb hi v = false /\ float_leb v hi = true)).
Proof.
  intros Hb.
  assert (E : apply_price_filter minp maxp items
              = List.filter (fun it => price_within minp maxp (price_num it)) items).
  { unfold apply_price_filter. rewrite Hb.
    apply filter_ext. intros it. apply in_range_within. }
  split; [exact E |].
  intros it. rewrite E, filter_In. unfold price_within.
  split.
  - intros [Hin Hw]. split; [exact Hin |].
    destruct (price_num it) as [v |]; [| discriminate].
    exists v. split; [reflexivity |].
    apply andb_true_iff in Hw. destruct Hw as [Hlo Hhi].
    split.
    + intros lo ->. split; [| exact Hlo].
      rewrite float_leb_ltb in Hlo. now apply negb_true_iff in Hlo.
    + intros hi ->. split; [| exact Hhi].
      rewrite float_leb_ltb in Hhi. now apply negb_true_iff in Hhi.
  - intros [Hin [v [Hv [Hlo Hhi]]]]. split; [exact Hin |].
    rewrite Hv. apply andb_true_iff. split.
    + destruct minp as [lo |]; [| reflexivity]. apply (Hlo lo eq_refl).
    + destruct maxp as [hi |]; [| reflexivity]. apply (Hhi hi eq_refl).
Qed.

Lemma price_filter_keeps_range_witness :
  apply_price_filter (Some (flt 500 0)) (Some (flt 3000 0))
    [ sample_item (Some (flt 499 0)); sample_item (Some (flt 500 0));
      sample_item None; sample_item (Some (flt 3000 0));
      sample_item (Some (flt 6001 (-1))); sample_item (Some (Inf false)) ]
  = [ sample_item (Some (flt 500 0)); sample_item (Some (flt 3000 0)) ].
Proof.
  rewrite (proj1 (price_filter_keeps_range (Some (flt 500 0)) (Some (flt 3000 0))
                    _ eq_refl)).
  vm_compute. reflexivity.
Defined.

(** ** The row pairing *)

Lemma item_at_nth (items : list item) (i : Z) :
  0 <= i -> item_at items i = List.nth_error items (Z.to_nat i).
Proof.
  intros Hi. unfold item_at.
  destruct (i <? Z.of_nat (List.length items)) eqn:E; [reflexivity |].
  apply Z.ltb_ge in E. symmetry. apply nth_error_None. lia.
Qed.

Lemma range_length (n : Z) : List.length (range n) = Z.to_nat n.
Proof. unfold range. now rewrite length_map, length_seq. Qed.

Lemma range_nth (n : Z) (k : nat) :
  (k < Z.to_nat n)%nat -> List.nth_error (range n) k = Some (Z.of_nat k).
Proof.
  intros Hk. unfold range. rewrite nth_error_map.
  rewrite nth_error_seq.
  replace (k <? Z.to_nat n)%nat with true by (symmetry; apply Nat.ltb_lt; exact Hk).
  reflexivity.
Qed.

Lemma firstn_seq_le (k start m : nat) :
  (k <= m)%nat -> List.firstn k (List.seq start m) = List.seq start k.
Proof.
  revert start m. induction k as [| k IH]; intros start m Hk; [reflexivity |].
  destruct m as [| m]; [lia |].
  cbn [List.seq List.firstn]. rewrite IH by lia. reflexivity.
Qed.

Lemma firstn_range (n m : Z) :
  0 <= n <= m -> List.firstn (Z.to_nat n) (range m) = range n.
Proof.
  intros H. unfold range. rewrite firstn_map, firstn_seq_le by lia.
  reflexivity.
Qed.

(** For a count that is not negative the table prints the rows of the
    other two printers. *)
Lemma table_rows_grid_rows (dba_items pr_items : list item) (n : Z) :
  0 <= n -> table_rows dba_items pr_items n = grid_rows dba_items pr_items n.
Proof.
  intros Hn. unfold table_rows, grid_rows, slice_to.
  replace (0 <=? n) with true by (symmetry; apply Z.leb_le; exact Hn).
  rewrite firstn_map, firstn_range by lia. reflexivity.
Qed.

(** C8: for a count [n] the printers lay out exactly [n] rows, row [i]
    holding the [i]-th record of each list, or nothing on the side whose
    list has no [i]-th record; no record is matched with another by
    anything but its position. *)
Theorem table_rows_pairs (dba_items pr_items : list item) (n : Z) :
  0 <= n ->
  Z.of_nat (List.length (table_rows dba_items pr_items n)) = n /\
  grid_rows dba_items pr_items n = table_rows dba_items pr_items n /\
  (forall i, 0 <= i < n ->
     List.nth_error (table_rows dba_items pr_items n) (Z.to_nat i)
     = Some (List.nth_error dba_items (Z.to_nat i),
             List.nth_error pr_items (Z.to_nat i))) /\
  (forall i, 0 <= i ->
     (Z.of_nat (List.length dba_items) <= i ->
      List.nth_error dba_items (Z.to_nat i) = None) /\
     (Z.of_nat (List.length pr_items) <= i ->
      List.nth_error pr_items (Z.to_nat i) = None)).
Proof.
  intros Hn. rewrite (table_rows_grid_rows dba_items pr_items n Hn).
  split; [| split; [reflexivity | split]].
  - unfold grid_rows. rewrite length_map, range_length. lia.
  - intros i Hi. unfold grid_rows. rewrite nth_error_map.
    rewrite range_nth by lia. cbn [option_map].
    rewrite Z2Nat.id by lia.
    rewrite !item_at_nth by lia. reflexivity.
  - intros i Hi. split; intros Hlen; apply nth_error_None; lia.
Qed.

Lemma table_rows_pairs_witness :
  table_rows
    [sample_titled "a"; sample_titled "b"; sample_titled "c"]
    [sample_titled "x"] 5
  = [ (Some (sample_titled "a"), Some (sample_titled "x"));
      (Some (sample_titled "b"), None);
      (Some (sample_titled "c"), None);
      (None, None); (None, None) ] /\
  Z.of_nat (List.length
    (table_rows [sample_titled "a"; sample_titled "b"; sample_titled "c"]
       [sample_titled "x"] 5)) = 5.
Proof.
  split; [vm_compute; reflexivity |].
  apply (table_rows_pairs
           [sample_titled "a"; sample_titled "b"; sample_titled "c"]
           [sample_titled "x"] 5).
  lia.
Defined.

(** ** Rendering a result and normalising it again *)

Lemma span_digits_spec (s ds r : pystr) :
  span_digits s = (ds, r) ->
  s = (ds ++ r)%list /\ Forall (fun c => is_ascii_digit c = true) ds.
Proof.
  revert ds r. induction s as [| c s IH]; intros ds r H.
  - injection H as <- <-. split; [reflexivity | constructor].
  - cbn [span_digits] in H. destruct (is_ascii_digit c) eqn:E.
    + destruct (span_digits s) as [ds' r'] eqn:E'. injection H as <- <-.
      destruct (IH ds' r' eq_refl) as [-> Hds].
      split; [reflexivity | constructor; assumption].
    + injection H as <- <-. split; [reflexivity | constructor].
Qed.

Lemma short_plain_shape (r : pystr) :
  short_plain r = true ->
  exists ip fp,
    r = (ip ++ ch_dot :: fp)%list /\ ip <> [] /\
    Forall (fun c => is_ascii_digit c = true) ip /\
    Forall (fun c => is_ascii_digit c = true) fp /\
    (1 <= List.length fp <= 2)%nat.
Proof.
  unfold short_plain. destruct (span_digits r) as [ip rest] eqn:E.
  destruct (span_digits_spec r ip rest E) as [-> Hip].
  destruct ip as [| a ip]; [discriminate |].
  destruct rest as [| c fp]; [discriminate |].
  intros H. to_props. subst c.
  exists (a :: ip), fp. repeat split; try assumption; try discriminate.
  - apply Forall_forall. intros x Hx.
    match goal with Hf : forallb _ _ = true |- _ =>
      rewrite forallb_forall in Hf; now apply Hf end.
  - match goal with Hl : (_ || _)%bool = true |- _ =>
      apply orb_true_iff in Hl; destruct Hl as [Hl | Hl];
      apply Nat.eqb_eq in Hl; lia end.
  - match goal with Hl : (_ || _)%bool = true |- _ =>
      apply orb_true_iff in Hl; destruct Hl as [Hl | Hl];
      apply Nat.eqb_eq in Hl; lia end.
Qed.

Lemma digit_or_dot_facts (c : pychar) :
  digit_or_dot c = true ->
  is_space c = false /\ c <> 107%N /\ c <> 68%N /\ c <> ch_nbsp /\
  c <> ch_comma /\ price_char c = true.
Proof.
  intros H. unfold digit_or_dot in H. apply orb_true_iff in H.
  destruct H as [H | H].
  - pose proof H as Hr. apply ascii_digit_range in Hr.
    assert (Hsp : is_space c = false).
    { destruct (is_space c) eqn:E; [| reflexivity].
      apply space_not_ascii_digit in E. congruence. }
    unfold price_char, ch_nbsp, ch_comma. rewrite H.
    repeat split; try assumption; try lia.
  - apply N.eqb_eq in H. subst c. repeat split; try discriminate.
Qed.

Lemma remove_sub_absent (old s : pystr) (h : pychar) :
  List.hd_error old = Some h -> ~ In h s -> remove_sub old s = s.
Proof.
  destruct old as [| h' t]; [discriminate |].
  intros Hh. injection Hh as ->.
  unfold remove_sub. induction s as [| c s IH]; intros Hn; [reflexivity |].
  cbn [remove_sub_from is_prefix].
  assert (E : N.eqb h c = false).
  { apply N.eqb_neq. intros ->. apply Hn. now left. }
  rewrite E. cbn [andb]. rewrite IH; [reflexivity |].
  intros Hin. apply Hn. now right.
Qed.

Lemma replace_char_absent (a b : pychar) (s : pystr) :
  ~ In a s -> replace_char a b s = s.
Proof.
  unfold replace_char. induction s as [| c s IH]; intros Hn; [reflexivity |].
  cbn [List.map].
  assert (E : N.eqb c a = false).
  { apply N.eqb_neq. intros ->. apply Hn. now left. }
  rewrite E, IH; [reflexivity |]. intros Hin. apply Hn. now right.
Qed.

Lemma lstrip_no_spaces (s : pystr) :
  Forall (fun c => is_space c = false) s -> lstrip s = s.
Proof.
  destruct 1 as [| c s Hc _]; [reflexivity |]. now apply lstrip_no_space.
Qed.

Lemma strip_no_spaces (s : pystr) :
  Forall (fun c => is_space c = false) s -> strip s = s.
Proof.
  intros H. unfold strip. rewrite (lstrip_no_spaces s H).
  rewrite lstrip_no_spaces by (apply Forall_rev; exact H).
  apply rev_involutive.
Qed.

Lemma filter_all (f : pychar -> bool) (s : pystr) :
  Forall (fun c => f c = true) s -> List.filter f s = s.
Proof.
  induction 1 as [| c s Hc _ IH]; [reflexivity |].
  cbn [List.filter]. now rewrite Hc, IH.
Qed.

(** A string of digits and points is its own cleaned form. *)
Lemma cleaned_of_digits_dots (s : pystr) :
  Forall (fun c => digit_or_dot c = true) s -> cleaned_of s = s.
Proof.
  intros H. rewrite Forall_forall in H.
  assert (Habs : forall x, (x = 107 \/ x = 68 \/ x = ch_nbsp)%N -> ~ In x s).
  { intros x Hx Hin. destruct (digit_or_dot_facts x (H x Hin))
      as [_ [H1 [H2 [H3 _]]]]. destruct Hx as [-> | [-> | ->]]; congruence. }
  unfold cleaned_of.
  rewrite (remove_sub_absent (py "kr.") s 107%N eq_refl) by (apply Habs; auto).
  rewrite (remove_sub_absent (py "kr") s 107%N eq_refl) by (apply Habs; auto).
  rewrite (remove_sub_absent (py "DKK") s 68%N eq_refl) by (apply Habs; auto).
  rewrite replace_char_absent by (apply Habs; auto).
  rewrite strip_no_spaces
    by (apply Forall_forall; intros x Hx; apply (digit_or_dot_facts x (H x Hx))).
  apply filter_all. apply Forall_forall. intros x Hx.
  apply (digit_or_dot_facts x (H x Hx)).
Qed.

Lemma digit_not_sep (c : pychar) :
  is_ascii_digit c = true -> dot_or_space c = false.
Proof.
  intros H. unfold dot_or_space.
  assert (Hd : digit_or_dot c = true) by (unfold digit_or_dot; now rewrite H).
  destruct (digit_or_dot_facts c Hd) as [-> _].
  apply ascii_digit_range in H.
  replace (N.eqb c ch_dot) with false; [reflexivity |].
  symmetry. apply N.eqb_neq. unfold ch_dot. lia.
Qed.

Lemma re_search_sep3_digits (s : pystr) :
  Forall (fun c => is_ascii_digit c = true) s -> re_search_sep3 s = false.
Proof.
  induction 1 as [| c s Hc _ IH]; [reflexivity |].
  cbn [re_search_sep3]. now rewrite (digit_not_sep c Hc), IH.
Qed.

Lemma re_search_sep3_short (ip fp : pystr) :
  Forall (fun c => is_ascii_digit c = true) ip ->
  Forall (fun c => is_ascii_digit c = true) fp ->
  (List.length fp <= 2)%nat ->
  re_search_sep3 (ip ++ ch_dot :: fp) = false.
Proof.
  intros Hip Hfp Hlen. induction Hip as [| c ip Hc _ IH].
  - cbn [app re_search_sep3]. rewrite (re_search_sep3_digits fp Hfp).
    destruct fp as [| a [| b [| c fp]]]; cbn [List.length] in Hlen;
      try lia; reflexivity.
  - cbn [app re_search_sep3]. now rewrite (digit_not_sep c Hc), IH.
Qed.

Lemma rfind_from_absent (c : pychar) (s : pystr) :
  ~ In c s -> forall i last, rfind_from c s i last = last.
Proof.
  induction s as [| a s IH]; intros Hn i last; [reflexivity |].
  cbn [rfind_from].
  assert (E : N.eqb a c = false).
  { apply N.eqb_neq. intros ->. apply Hn. now left. }
  rewrite E. apply IH. intros Hin. apply Hn. now right.
Qed.

Lemma rfind_from_last (c : pychar) (ip fp : pystr) :
  ~ In c fp ->
  forall i last, rfind_from c (ip ++ c :: fp) i last = i + len ip.
Proof.
  intros Hn. induction ip as [| a ip IH]; intros i last.
  - cbn [app rfind_from]. rewrite N.eqb_refl.
    rewrite rfind_from_absent by exact Hn. unfold len. cbn. lia.
  - cbn [app rfind_from]. rewrite IH. unfold len. cbn [List.length].
    lia.
Qed.

Lemma digits_no (c : pychar) (s : pystr) :
  is_ascii_digit c = false ->
  Forall (fun x => is_ascii_digit x = true) s -> ~ In c s.
Proof.
  intros Hc Hs Hin. rewrite Forall_forall in Hs. specialize (Hs c Hin).
  congruence.
Qed.

Lemma decimal_sep_of_short (ip fp : pystr) :
  Forall (fun c => is_ascii_digit c = true) ip ->
  Forall (fun c => is_ascii_digit c = true) fp ->
  (1 <= List.length fp <= 2)%nat ->
  decimal_sep_of (ip ++ ch_dot :: fp) = Some ch_dot.
Proof.
  intros Hip Hfp Hlen. unfold decimal_sep_of, rfind.
  rewrite (rfind_from_last ch_dot ip fp) by (apply digits_no; [reflexivity | exact Hfp]).
  rewrite (rfind_from_absent ch_comma).
  2:{ intros Hin. apply in_app_or in Hin. destruct Hin as [Hin | [Hin | Hin]].
      - revert Hin. apply digits_no; [reflexivity | exact Hip].
      - discriminate Hin.
      - revert Hin. apply digits_no; [reflexivity | exact Hfp]. }
  assert (Hl : 0 <= len ip) by (unfold len; lia).
  replace (0 + len ip =? -1) with false by (symmetry; apply Z.eqb_neq; lia).
  cbn [andb].
  replace (-1 <? 0 + len ip) with true by (symmetry; apply Z.ltb_lt; lia).
  replace (len (ip ++ ch_dot :: fp) - (0 + len ip) - 1)
    with (Z.of_nat (List.length fp)).
  2:{ unfold len. rewrite length_app. cbn [List.length]. lia. }
  unfold in_1_2_3.
  destruct fp as [| a [| b [| c fp]]]; cbn [List.length] in Hlen;
    try lia; reflexivity.
Qed.

(** A plain numeral with one or two decimals is read as it stands. *)
Lemma normalize_price_short_plain (r : pystr) :
  short_plain r = true -> normalize_price (PyStr r) = float_or_none r.
Proof.
  intros H. destruct (short_plain_shape r H) as [ip [fp [-> [Hne [Hip [Hfp Hlen]]]]]].
  assert (Hall : Forall (fun c => digit_or_dot c = true) (ip ++ ch_dot :: fp)).
  { apply Forall_app. split; [| constructor; [reflexivity |]].
    - eapply Forall_impl; [| exact Hip]. intros c Hc. unfold digit_or_dot.
      now rewrite Hc.
    - eapply Forall_impl; [| exact Hfp]. intros c Hc. unfold digit_or_dot.
      now rewrite Hc. }
  unfold normalize_price.
  replace (truthy (PyStr (ip ++ ch_dot :: fp))) with true
    by (destruct ip; [congruence | reflexivity]).
  cbn [negb]. rewrite (cleaned_of_digits_dots _ Hall).
  destruct (ip ++ ch_dot :: fp) as [| c0 cl] eqn:E;
    [destruct ip; discriminate E |].
  rewrite <- E in *.
  rewrite (re_search_sep3_short ip fp Hip Hfp) by lia.
  rewrite (decimal_sep_of_short ip fp Hip Hfp Hlen).
  rewrite N.eqb_refl.
  rewrite filter_all.
  - now rewrite digits_and_dots_id.
  - eapply Forall_impl; [| exact Hall]. intros c Hc.
    destruct (digit_or_dot_facts c Hc) as [Hs [_ [_ [_ [Hco _]]]]].
    rewrite Hs. apply N.eqb_neq in Hco. now rewrite Hco.
Qed.

Lemma normalise_zero (m e e' : Z) : normalise m e = (0, e') -> e' = 0.
Proof.
  unfold normalise. destruct m as [| p | p]; try (intros H; now injection H).
  destruct (pos_odd_part p). intros H. discriminate H.
Qed.

Lemma float_of_ratio_zero_ok (neg : bool) (num den : Z) :
  zero_ok (float_of_ratio neg num den).
Proof.
  unfold float_of_ratio. destruct (round_ratio num den) as [[m e] |] eqn:E;
    [| exact I].
  destruct m as [| p | p]; try exact I. cbn [zero_ok].
  unfold round_ratio in E. cbv zeta in E.
  destruct (_ <=? _); [discriminate |].
  injection E as E. eapply normalise_zero. exact E.
Qed.

Lemma py_float_zero_ok (s : pystr) (v : pyfloat) :
  py_float s = Ret v -> zero_ok v.
Proof.
  unfold py_float.
  destruct (match s with
            | c :: s' =>
                if N.eqb c ch_minus then (true, s')
                else if N.eqb c ch_plus then (false, s') else (false, s)
            | [] => (false, [])
            end) as [neg body].
  destruct (parse_decimal body) as [[M p] |]; [| discriminate].
  intros H. injection H as <-. unfold float_of_decimal.
  destruct (0 <=? p); apply float_of_ratio_zero_ok.
Qed.

Lemma reads_as_py_float (r : pystr) (m e : Z) :
  reads_as r m e = true -> py_float r = Ret (Fin false m e).
Proof.
  unfold reads_as. destruct (py_float r) as [[[|] m' e' | neg] | x];
    try discriminate.
  intros H. apply andb_true_iff in H. destruct H as [Hm He].
  apply Z.eqb_eq in Hm. apply Z.eqb_eq in He. now subst.
Qed.

(** What the search returns reads back as the float it was run for. *)
Lemma shortest_reads (fuel : nat) (num den dp m e : Z) (r : pystr) :
  forall n, shortest fuel n num den dp m e = Some r -> reads_as r m e = true.
Proof.
  induction fuel as [| f IH]; intros n; [discriminate |].
  cbn [shortest]. cbv zeta.
  match goal with |- context [reads_as ?r1 m e] =>
    destruct (reads_as r1 m e) eqn:E1 end.
  - intros H. injection H as <-. exact E1.
  - match goal with |- context [if reads_as ?r2 m e then _ else _] =>
      destruct (reads_as r2 m e) eqn:E2 end.
    + intros H. injection H as <-. exact E2.
    + apply IH.
Qed.

(** A rendering that is a plain numeral with one or two decimals reads
    back as the float it renders. *)
Lemma float_repr_reads_back (v : pyfloat) :
  sign_of v = false -> zero_ok v ->
  short_plain (float_repr v) = true ->
  py_float (float_repr v) = Ret v.
Proof.
  destruct v as [neg m e | neg]; cbn [sign_of]; intros -> Hz.
  - unfold float_repr. cbn [app]. destruct (m =? 0) eqn:Em.
    + apply Z.eqb_eq in Em. subst m. cbn [zero_ok] in Hz. subst e.
      intros _. reflexivity.
    + destruct (shortest _ _ _ _ _ _ _) as [r |] eqn:Es.
      * intros _. apply reads_as_py_float. eapply shortest_reads. exact Es.
      * intros H. discriminate H.
  - intros H. vm_compute in H. discriminate H.
Qed.

(** C3, as stated, fails: "0,125" is read as 0.125, which renders as
    "0.125", which is read as 125.0: a point before three digits groups
    thousands. *)
Lemma rendering_not_idempotent :
  normalize_price (PyStr (py "0,125")) = Ret (Some (flt 1 (-3))) /\
  float_repr (flt 1 (-3)) = py "0.125" /\
  normalize_price (PyStr (float_repr (flt 1 (-3)))) = Ret (Some (flt 125 0)) /\
  ~ (forall s v,
        normalize_price (PyStr s) = Ret (Some v) ->
        normalize_price (PyStr (float_repr v)) = Ret (Some v)).
Proof.
  assert (H1 : normalize_price (PyStr (py "0,125")) = Ret (Some (flt 1 (-3))))
    by (vm_compute; reflexivity).
  assert (H2 : normalize_price (PyStr (float_repr (flt 1 (-3))))
               = Ret (Some (flt 125 0))) by (vm_compute; reflexivity).
  split; [exact H1 |]. split; [vm_compute; reflexivity |].
  split; [exact H2 |].
  intros H. specialize (H _ _ H1). rewrite H2 in H. discriminate H.
Qed.

(** C3, amended: a result whose rendering is a plain numeral with one or
    two digits after the point, no exponent, is normalised from that
    rendering to the same number. *)
Theorem normalize_price_rendering_idempotent (a : pyarg) (v : pyfloat) :
  normalize_price a = Ret (Some v) ->
  short_plain (float_repr v) = true ->
  normalize_price (PyStr (float_repr v)) = Ret (Some v).
Proof.
  intros Hv Hplain.
  destruct (normalize_price_result a v Hv) as [core [Hch Ew]].
  rewrite (normalize_price_short_plain _ Hplain).
  unfold float_or_none.
  rewrite (float_repr_reads_back v); [reflexivity | | | exact Hplain].
  - apply (py_float_unsigned core v Hch Ew).
  - apply (py_float_zero_ok core v Ew).
Qed.

Lemma normalize_price_rendering_idempotent_witness :
  float_repr (flt 25 (-1)) = py "12.5" /\
  normalize_price (PyStr (float_repr (flt 25 (-1)))) = Ret (Some (flt 25 (-1))).
Proof.
  split; [vm_compute; reflexivity |].
  apply (normalize_price_rendering_idempotent (PyStr (py "12,5")) (flt 25 (-1)));
    vm_compute; reflexivity.
Defined.

(* ================================================================== *)
(** * Further properties *)

(** ** The order of floats *)

Lemma leb_scale (x y c : Z) : 0 < c -> (x * c <=? y * c) = (x <=? y).
Proof.
  intros Hc. destruct (x <=? y) eqn:E.
  - apply Z.leb_le. apply Z.leb_le in E. now apply Z.mul_le_mono_pos_r.
  - apply Z.leb_gt. apply Z.leb_gt in E. now apply Z.mul_lt_mono_pos_r.
Qed.

(** Two finite floats compare the same on any exponent below both. *)
Lemma float_leb_common (n1 n2 : bool) (m1 m2 e1 e2 k : Z) :
  k <= e1 -> k <= e2 ->
  float_leb (Fin n1 m1 e1) (Fin n2 m2 e2)
  = (signed n1 m1 * 2 ^ (e1 - k) <=? signed n2 m2 * 2 ^ (e2 - k)).
Proof.
  intros H1 H2. cbn [float_leb]. cbv zeta.
  set (e := Z.min e1 e2).
  assert (He : k <= e) by (unfold e; lia).
  assert (He1 : e <= e1) by (unfold e; lia).
  assert (He2 : e <= e2) by (unfold e; lia).
  replace (e1 - k) with ((e1 - e) + (e - k)) by lia.
  replace (e2 - k) with ((e2 - e) + (e - k)) by lia.
  rewrite !Z.pow_add_r by lia. rewrite !Z.mul_assoc.
  symmetry. apply leb_scale. apply Z.pow_pos_nonneg; lia.
Qed.

Lemma float_leb_trans (a b c : pyfloat) :
  float_leb a b = true -> float_leb b c = true -> float_leb a c = true.
Proof.
  destruct a as [n1 m1 e1 | n1], b as [n2 m2 e2 | n2], c as [n3 m3 e3 | n3];
    try (cbn [float_leb]; destruct n1; destruct n2; try destruct n3;
         cbn; congruence);
    try (cbn [float_leb]; destruct n2; try destruct n3; cbn; congruence);
    try (cbn [float_leb]; destruct n1; try destruct n3; cbn; congruence).
  set (k := Z.min e1 (Z.min e2 e3)).
  rewrite (float_leb_common n1 n2 m1 m2 e1 e2 k) by (unfold k; lia).
  rewrite (float_leb_common n2 n3 m2 m3 e2 e3 k) by (unfold k; lia).
  rewrite (float_leb_common n1 n3 m1 m3 e1 e3 k) by (unfold k; lia).
  rewrite !Z.leb_le. lia.
Qed.

Lemma float_ltb_leb (a b : pyfloat) :
  float_ltb a b = true -> float_leb a b = true.
Proof.
  destruct a as [n1 m1 e1 | n1], b as [n2 m2 e2 | n2];
    cbn [float_ltb float_leb].
  - cbv zeta. rewrite Z.ltb_lt, Z.leb_le. lia.
  - auto.
  - auto.
  - destruct n1, n2; cbn; congruence.
Qed.

Lemma float_leb_total (a b : pyfloat) :
  float_leb a b = true \/ float_leb b a = true.
Proof.
  destruct (float_ltb b a) eqn:E.
  - right. now apply float_ltb_leb.
  - left. rewrite float_leb_ltb, E. reflexivity.
Qed.

Lemma float_leb_refl (a : pyfloat) : float_leb a a = true.
Proof. destruct (float_leb_total a a); assumption. Qed.

(** ** sort_items_by_price *)

Section Sorting.
Variable A : Type.
Variable key : A -> pyfloat.

Let le (a b : A) : Prop := float_leb (key a) (key b) = true.

Lemma insert_by_perm (x : A) (l : list A) :
  Permutation (insert_by key x l) (x :: l).
Proof.
  induction l as [| y l IH]; [apply Permutation_refl |].
  cbn [insert_by]. destruct (float_ltb (key y) (key x)).
  - eapply perm_trans; [apply perm_skip, IH | apply perm_swap].
  - apply Permutation_refl.
Qed.

Lemma sorted_by_perm (l : list A) : Permutation (sorted_by key l) l.
Proof.
  induction l as [| x l IH]; [apply perm_nil |].
  cbn [sorted_by fold_right].
  eapply perm_trans; [apply insert_by_perm |]. now apply perm_skip.
Qed.

(** An element that is below all of [l] goes to the front. *)
Lemma insert_by_front (x : A) (l : list A) :
  Forall (le x) l -> insert_by key x l = x :: l.
Proof.
  destruct 1 as [| y l Hy _]; [reflexivity |].
  cbn [insert_by]. unfold le in Hy. rewrite float_leb_ltb in Hy.
  apply negb_true_iff in Hy. now rewrite Hy.
Qed.

Lemma insert_by_sorted (x : A) (l : list A) :
  StronglySorted le l -> StronglySorted le (insert_by key x l).
Proof.
  induction 1 as [| y l Hs IH Hy]; [repeat constructor |].
  cbn [insert_by]. destruct (float_ltb (key y) (key x)) eqn:E.
  - constructor; [exact IH |].
    apply Forall_forall. intros z Hz.
    apply (Permutation_in _ (insert_by_perm x l)) in Hz.
    destruct Hz as [<- | Hz].
    + now apply float_ltb_leb.
    + rewrite Forall_forall in Hy. now apply Hy.
  - assert (Hxy : le x y).
    { unfold le. rewrite float_leb_ltb, E. reflexivity. }
    constructor; [now constructor |].
    constructor; [exact Hxy |].
    eapply Forall_impl; [| exact Hy]. intros z Hz.
    exact (float_leb_trans _ _ _ Hxy Hz).
Qed.

Lemma sorted_by_sorted (l : list A) : StronglySorted le (sorted_by key l).
Proof.
  induction l as [| x l IH]; [constructor |].
  cbn [sorted_by fold_right]. now apply insert_by_sorted.
Qed.

Lemma sorted_by_fixed (l : list A) :
  StronglySorted le l -> sorted_by key l = l.
Proof.
  induction 1 as [| x l Hs IH Hx]; [reflexivity |].
  cbn [sorted_by fold_right]. fold (sorted_by key l). rewrite IH.
  now apply insert_by_front.
Qed.

Lemma filter_insert_by (p : A -> bool) (x : A) (l : list A) :
  StronglySorted le l ->
  List.filter p (insert_by key x l)
  = if p x then insert_by key x (List.filter p l) else List.filter p l.
Proof.
  induction 1 as [| y l Hs IH Hy]; [cbn; destruct (p x); reflexivity |].
  cbn [insert_by]. destruct (float_ltb (key y) (key x)) eqn:E.
  - cbn [List.filter]. rewrite IH.
    destruct (p x), (p y); try reflexivity.
    cbn [insert_by]. now rewrite E.
  - cbn [List.filter]. destruct (p x) eqn:Ex; [| reflexivity].
    destruct (p y) eqn:Ey.
    + cbn [insert_by]. now rewrite E.
    + symmetry. apply insert_by_front.
      assert (Hxy : le x y).
      { unfold le. rewrite float_leb_ltb, E. reflexivity. }
      apply Forall_forall. intros z Hz. apply filter_In in Hz.
      rewrite Forall_forall in Hy.
      exact (float_leb_trans _ _ _ Hxy (Hy z (proj1 Hz))).
Qed.

Lemma sorted_by_filter (p : A -> bool) (l : list A) :
  sorted_by key (List.filter p l) = List.filter p (sorted_by key l).
Proof.
  induction l as [| x l IH]; [reflexivity |].
  cbn [List.filter sorted_by fold_right]. fold (sorted_by key l).
  rewrite filter_insert_by by apply sorted_by_sorted.
  destruct (p x); [| exact IH].
  cbn [sorted_by fold_right]. fold (sorted_by key (List.filter p l)).
  now rewrite IH.
Qed.

(** Elements whose keys sort as equal to [k] keep their order. *)
Lemma filter_equal_insert_by (k : pyfloat) (x : A) (l : list A) :
  let eqk := fun y =>
    (negb (float_ltb (key y) k) && negb (float_ltb k (key y)))%bool in
  List.filter eqk (insert_by key x l) = List.filter eqk (x :: l).
Proof.
  intros eqk. induction l as [| y l IH]; [reflexivity |].
  cbn [insert_by]. destruct (float_ltb (key y) (key x)) eqn:E;
    [| reflexivity].
  cbn [List.filter] in *. rewrite IH.
  destruct (eqk x) eqn:Ex; [| reflexivity].
  destruct (eqk y) eqn:Ey; [| reflexivity].
  exfalso. unfold eqk in Ex, Ey.
  apply andb_true_iff in Ex. destruct Ex as [Ex1 Ex2].
  apply andb_true_iff in Ey. destruct Ey as [Ey1 Ey2].
  rewrite <- float_leb_ltb in Ex2, Ey1.
  pose proof (float_leb_trans _ _ _ Ex2 Ey1) as H.
  rewrite float_leb_ltb in H. apply negb_true_iff in H. congruence.
Qed.

Lemma sorted_by_stable (k : pyfloat) (l : list A) :
  let eqk := fun y =>
    (negb (float_ltb (key y) k) && negb (float_ltb k (key y)))%bool in
  List.filter eqk (sorted_by key l) = List.filter eqk l.
Proof.
  intros eqk. induction l as [| x l IH]; [reflexivity |].
  cbn [sorted_by fold_right]. fold (sorted_by key l).
  unfold eqk. rewrite filter_equal_insert_by. fold eqk.
  cbn [List.filter]. now rewrite IH.
Qed.

Lemma strongly_sorted_tail (l1 l2 : list A) :
  StronglySorted le (l1 ++ l2) -> StronglySorted le l2.
Proof.
  induction l1 as [| x l1 IH]; [auto |].
  cbn [app]. intros H. inversion H; subst. auto.
Qed.

Lemma strongly_sorted_order (l1 l2 l3 : list A) (a b : A) :
  StronglySorted le (l1 ++ a :: l2 ++ b :: l3) -> le a b.
Proof.
  intros H. apply strongly_sorted_tail in H. inversion H as [| ? ? _ Hall]; subst.
  rewrite Forall_forall in Hall. apply Hall.
  apply in_or_app. right. now left.
Qed.
End Sorting.

(** X1: The records come out rearranged, none lost or added, in ascending
    order of price, a record without a price counting as priced
    infinity. *)
Theorem sort_items_ascending (items : list item) :
  Permutation (sort_items_by_price items) items /\
  StronglySorted key_le (sort_items_by_price items).
Proof.
  split; [apply sorted_by_perm | apply sorted_by_sorted].
Qed.

(** X2: The sort is stable: the records whose keys sort as equal to a given
    key are in the output in the order they had in the input. *)
Theorem sort_items_stable (k : pyfloat) (items : list item) :
  List.filter (same_key k) (sort_items_by_price items)
  = List.filter (same_key k) items.
Proof. apply (sorted_by_stable item keyfn k items). Qed.

(** X3: After a record without a price comes no record with a finite price:
    what follows has no price either, or the price infinity. *)
Theorem sort_items_unpriced_last (items l1 l2 l3 : list item) (a b : item) :
  sort_items_by_price items = (l1 ++ a :: l2 ++ b :: l3)%list ->
  price_num a = None ->
  price_num b = None \/ price_num b = Some (Inf false).
Proof.
  intros E Ha.
  pose proof (sorted_by_sorted item keyfn items) as Hs.
  fold (sort_items_by_price items) in Hs. rewrite E in Hs.
  apply strongly_sorted_order in Hs.
  unfold keyfn in Hs. rewrite Ha in Hs.
  destruct (price_num b) as [[n m e | n] |]; [| | now left].
  - discriminate Hs.
  - destruct n; [discriminate Hs | now right].
Qed.

Lemma sort_items_unpriced_last_witness :
  sort_items_by_price
    [sample_item None; sample_item (Some (flt 5 0)); sample_item (Some (Inf false))]
  = [sample_item (Some (flt 5 0)); sample_item None; sample_item (Some (Inf false))] /\
  (price_num (sample_item (Some (Inf false))) = None \/
   price_num (sample_item (Some (Inf false))) = Some (Inf false)).
Proof.
  split; [reflexivity |].
  apply (sort_items_unpriced_last
           [sample_item None; sample_item (Some (flt 5 0)); sample_item (Some (Inf false))]
           [sample_item (Some (flt 5 0))] [] []
           (sample_item None) (sample_item (Some (Inf false))));
    reflexivity.
Defined.

(** X4: Filtering and sorting commute: the price filter of [main] may be
    applied before the sort or after it. *)
Theorem sort_items_filter_commute
  (minp maxp : option pyfloat) (p : item -> bool) (items : list item) :
  sort_items_by_price (List.filter p items)
  = List.filter p (sort_items_by_price items) /\
  sort_items_by_price (apply_price_filter minp maxp items)
  = apply_price_filter minp maxp (sort_items_by_price items).
Proof.
  split; [apply sorted_by_filter |].
  unfold apply_price_filter. destruct (is_some minp || is_some maxp)%bool;
    [apply sorted_by_filter | reflexivity].
Qed.

(** X5: Sorting a sorted list changes nothing. *)
Theorem sort_items_idempotent (items : list item) :
  sort_items_by_price (sort_items_by_price items) = sort_items_by_price items.
Proof.
  apply sorted_by_fixed. apply sorted_by_sorted.
Qed.

(** ** _short *)

Lemma not_space_not_sp (c : pychar) : is_space c = false -> N.eqb c ch_space = false.
Proof.
  intros H. apply N.eqb_neq. intros ->. discriminate H.
Qed.

Lemma split_from_nonempty (s cur : pystr) :
  cur <> [] -> split_from cur s <> [].
Proof.
  revert cur. induction s as [| c s IH]; intros cur Hc.
  - cbn. destruct cur; [congruence | discriminate].
  - cbn [split_from]. destruct (is_space c).
    + destruct cur; [congruence | discriminate].
    + apply IH. discriminate.
Qed.

Lemma join_cons (sep w : pystr) (ws : list pystr) :
  ws <> [] -> join sep (w :: ws) = (w ++ sep ++ join sep ws)%list.
Proof. destruct ws; [congruence | reflexivity]. Qed.

(** A tidy string is the join of its words. *)
Lemma join_split_from (s : pystr) :
  forall cur,
    (cur <> [] -> single_spaced AfterChar s = true ->
     join [ch_space] (split_from cur s) = (List.rev cur ++ s)%list) /\
    (single_spaced AtStart s = true \/ single_spaced AfterSpace s = true ->
     join [ch_space] (split_from [] s) = s).
Proof.
  induction s as [| c s IH]; intros cur.
  - split.
    + intros Hc _. cbn. destruct cur; [congruence |].
      now rewrite app_nil_r.
    + reflexivity.
  - split.
    + intros Hc H. cbn [single_spaced] in H. cbn [split_from].
      destruct (N.eqb c ch_space) eqn:E.
      * apply N.eqb_eq in E. subst c.
        change (is_space ch_space) with true. cbv iota.
        destruct cur as [| c0 cur]; [congruence |].
        rewrite join_cons.
        -- rewrite (proj2 (IH [])) by (now right). reflexivity.
        -- destruct s as [| d s]; [discriminate H |].
           cbn [single_spaced] in H. cbn [split_from].
           destruct (N.eqb d ch_space); [discriminate H |].
           destruct (is_space d); [discriminate H |].
           apply split_from_nonempty. discriminate.
      * destruct (is_space c); [discriminate H |].
        rewrite (proj1 (IH (c :: cur))) by (discriminate || exact H).
        cbn [List.rev]. now rewrite <- app_assoc.
    + intros H. cbn [split_from].
      assert (Hc : N.eqb c ch_space = false /\ is_space c = false
                   /\ single_spaced AfterChar s = true).
      { destruct H as [H | H]; cbn [single_spaced] in H;
          destruct (N.eqb c ch_space); try discriminate H;
          destruct (is_space c); try discriminate H; auto. }
      destruct Hc as [_ [Hsp Hs]]. rewrite Hsp.
      rewrite (proj1 (IH [c])) by (discriminate || exact Hs). reflexivity.
Qed.

Lemma join_split_tidy (s : pystr) :
  tidy s = true -> join [ch_space] (split s) = s.
Proof.
  intros H. apply (proj2 (join_split_from s [])). now left.
Qed.

Lemma split_from_words (s : pystr) :
  forall cur, Forall (fun c => is_space c = false) cur ->
              Forall good_word (split_from cur s).
Proof.
  assert (Hw : forall cur, cur <> [] ->
                 Forall (fun c => is_space c = false) cur ->
                 good_word (List.rev cur)).
  { intros cur Hn Hc. split.
    - intros E. apply Hn. rewrite <- (rev_involutive cur), E. reflexivity.
    - now apply Forall_rev. }
  induction s as [| c s IH]; intros cur Hcur.
  - cbn. destruct cur as [| c0 cur]; constructor; [| constructor].
    apply Hw; [discriminate | exact Hcur].
  - cbn [split_from]. destruct (is_space c) eqn:E.
    + destruct cur as [| c0 cur]; [apply IH; constructor |].
      constructor; [apply Hw; [discriminate | exact Hcur] |].
      apply IH. constructor.
    + apply IH. now constructor.
Qed.

Lemma single_spaced_word (w t : pystr) (st : ws_state) :
  good_word w ->
  single_spaced st (w ++ t) = single_spaced AfterChar t.
Proof.
  intros [Hn Hw]. revert st. induction Hw as [| c w Hc Hw IH]; intros st;
    [congruence |].
  cbn [app single_spaced]. rewrite (not_space_not_sp c Hc), Hc.
  destruct w as [| d w]; [reflexivity |].
  apply IH. discriminate.
Qed.

Lemma single_spaced_join (ws : list pystr) :
  Forall good_word ws -> ws <> [] ->
  forall st, single_spaced st (join [ch_space] ws) = true.
Proof.
  induction 1 as [| w ws Hw Hws IH]; intros Hn st; [congruence |].
  destruct ws as [| w2 ws].
  - cbn [join]. rewrite <- (app_nil_r w).
    now rewrite (single_spaced_word w [] st Hw).
  - rewrite join_cons by discriminate.
    rewrite (single_spaced_word w _ st Hw).
    cbn [app single_spaced]. rewrite N.eqb_refl. apply IH. discriminate.
Qed.

Lemma tidy_join_split (s : pystr) : tidy (join [ch_space] (split s)) = true.
Proof.
  unfold tidy, split.
  pose proof (split_from_words s [] (Forall_nil _)) as Hw.
  destruct (split_from [] s) as [| w ws] eqn:E; [reflexivity |].
  apply single_spaced_join; [exact Hw | discriminate].
Qed.

(** Cutting a tidy string and putting three points after the cut leaves
    it tidy. *)
Lemma single_spaced_cut (t : pystr) :
  forall st k, single_spaced st t = true ->
               single_spaced st (List.firstn k t ++ py "...") = true.
Proof.
  induction t as [| c t IH]; intros st k H.
  - rewrite firstn_nil. destruct st; reflexivity.
  - destruct k as [| k]; [destruct st; reflexivity |].
    cbn [List.firstn app single_spaced] in *.
    destruct (N.eqb c ch_space).
    + destruct st; try discriminate H. now apply IH.
    + destruct (is_space c); [discriminate H |]. now apply IH.
Qed.

Lemma slice_to_firstn {A : Type} (l : list A) (n : Z) :
  exists k, slice_to l n = List.firstn k l.
Proof. unfold slice_to. destruct (0 <=? n); eexists; reflexivity. Qed.

Lemma short_result_tidy (s : pyarg) (n : Z) :
  exists r, _short s n = Ret r /\ tidy r = true.
Proof.
  unfold _short. destruct (truthy s) eqn:Et; cbn [negb];
    [| exists []; split; reflexivity].
  destruct s as [| t]; [discriminate Et |]. cbv zeta.
  destruct (len (join [ch_space] (split t)) <=? n).
  - eexists. split; [reflexivity | apply tidy_join_split].
  - eexists. split; [reflexivity |].
    destruct (slice_to_firstn (join [ch_space] (split t)) (n - 3)) as [k ->].
    apply single_spaced_cut. apply tidy_join_split.
Qed.

Lemma short_result_length (s : pyarg) (n : Z) (r : pystr) :
  3 <= n -> _short s n = Ret r -> len r <= n.
Proof.
  intros Hn. unfold _short. destruct (truthy s) eqn:Et; cbn [negb].
  2:{ intros H. injection H as <-. unfold len. cbn. lia. }
  destruct s as [| t]; [discriminate Et |]. cbv zeta.
  destruct (len (join [ch_space] (split t)) <=? n) eqn:E.
  - intros H. injection H as <-. now apply Z.leb_le.
  - intros H. injection H as <-. unfold len, slice_to.
    replace (0 <=? n - 3) with true by (symmetry; apply Z.leb_le; lia).
    rewrite length_app, length_firstn.
    change (List.length (py "...")) with 3%nat. lia.
Qed.

(** X6: [_short] returns, whatever it is given, and what it returns is tidy:
    no blank at either end, none but the space, no two in a row. *)
Theorem short_tidy (s : pyarg) (n : Z) :
  exists r, _short s n = Ret r /\ tidy r = true.
Proof. exact (short_result_tidy s n). Qed.

(** X7: With room for the three points, the result has at most [n]
    characters. *)
Theorem short_length (s : pyarg) (n : Z) (r : pystr) :
  3 <= n -> _short s n = Ret r -> len r <= n.
Proof. intros Hn Hr. exact (short_result_length s n r Hn Hr). Qed.

Lemma short_length_witness :
  _short (PyStr (py "  one   two three four  ")) 12 = Ret (py "one two t...") /\
  len (py "one two t...") <= 12.
Proof.
  split; [vm_compute; reflexivity |].
  apply (short_length (PyStr (py "  one   two three four  ")) 12);
    [lia | vm_compute; reflexivity].
Defined.

(** X8: Shortening twice is shortening once. *)
Theorem short_idempotent (s : pyarg) (n : Z) (r : pystr) :
  3 <= n -> _short s n = Ret r -> _short (PyStr r) n = Ret r.
Proof.
  intros Hn Hr.
  pose proof (short_result_length s n r Hn Hr) as Hlen.
  destruct (short_result_tidy s n) as [r' [Hr' Ht]].
  rewrite Hr in Hr'. injection Hr' as <-.
  unfold _short. destruct r as [| c r]; [reflexivity |].
  cbn [truthy negb]. cbv zeta.
  rewrite (join_split_tidy _ Ht).
  replace (len (c :: r) <=? n) with true by (symmetry; now apply Z.leb_le).
  reflexivity.
Qed.

Lemma short_idempotent_witness :
  _short (PyStr (py "one two t...")) 12 = Ret (py "one two t...").
Proof.
  apply (short_idempotent (PyStr (py "  one   two three four  ")) 12);
    [lia | vm_compute; reflexivity].
Defined.

(** ** _extract_json_array *)

Lemma is_prefix_spec (p s : pystr) :
  is_prefix p s = true <-> exists r, s = (p ++ r)%list.
Proof.
  revert s. induction p as [| a p IH]; intros s.
  - split; [intros _; now exists s | reflexivity].
  - destruct s as [| b s]; cbn [is_prefix].
    + split; [discriminate | intros [r Hr]; discriminate Hr].
    + rewrite andb_true_iff, N.eqb_eq, IH. split.
      * intros [-> [r ->]]. now exists r.
      * intros [r Hr]. injection Hr as -> ->. split; [reflexivity | now exists r].
Qed.

Lemma skipn_app_exact {A : Type} (l1 l2 : list A) :
  List.skipn (List.length l1) (l1 ++ l2) = l2.
Proof. induction l1 as [| a l1 IH]; [reflexivity | exact IH]. Qed.

Lemma find_from_absent (needle s : pystr) (i : Z) :
  ~ occurs needle s -> find_from needle s i = -1.
Proof.
  revert i. induction s as [| c s IH]; intros i Hn.
  - cbn. destruct needle; [| reflexivity].
    exfalso. apply Hn. now exists [], [].
  - cbn [find_from]. destruct (is_prefix needle (c :: s)) eqn:E.
    + exfalso. apply Hn. apply is_prefix_spec in E. destruct E as [r Hr].
      exists [], r. exact Hr.
    + apply IH. intros [pre [post Hs]]. apply Hn.
      exists (c :: pre), post. now rewrite Hs.
Qed.

Lemma find_from_found (needle s : pystr) :
  forall i r, 0 <= i -> find_from needle s i = r -> r <> -1 ->
    exists pre post, s = (pre ++ needle ++ post)%list /\ r = i + len pre.
Proof.
  induction s as [| c s IH]; intros i r Hi Hr Hne.
  - cbn in Hr. destruct needle; [| congruence].
    exists [], []. split; [reflexivity | unfold len; cbn; lia].
  - cbn [find_from] in Hr. destruct (is_prefix needle (c :: s)) eqn:E.
    + apply is_prefix_spec in E. destruct E as [post Hs].
      exists [], post. split; [exact Hs | unfold len; cbn; lia].
    + destruct (IH (i + 1) r ltac:(lia) Hr Hne) as [pre [post [Hs Hri]]].
      exists (c :: pre), post. split; [now rewrite Hs |].
      unfold len in *. cbn [List.length]. lia.
Qed.

Lemma find_from_occurs (needle s : pystr) :
  forall i, 0 <= i -> occurs needle s -> 0 <= find_from needle s i.
Proof.
  induction s as [| c s IH]; intros i Hi [pre [post Hs]].
  - destruct pre; [| discriminate Hs]. destruct needle; [| discriminate Hs].
    exact Hi.
  - cbn [find_from]. destruct (is_prefix needle (c :: s)) eqn:E; [exact Hi |].
    destruct pre as [| a pre].
    + exfalso. rewrite Hs in E. cbn [app] in E.
      assert (is_prefix needle (needle ++ post) = true)
        by (apply is_prefix_spec; now exists post).
      congruence.
    + injection Hs as _ Hs. apply IH; [lia |]. now exists pre, post.
Qed.

(** The first occurrence of a character. *)
Lemma find_from_first (c : pychar) (pre rest : pystr) (i : Z) :
  ~ In c pre -> find_from [c] (pre ++ c :: rest) i = i + len pre.
Proof.
  revert i. induction pre as [| a pre IH]; intros i Hn.
  - cbn. rewrite N.eqb_refl. unfold len. cbn. lia.
  - cbn [app find_from is_prefix].
    assert (E : N.eqb c a = false).
    { apply N.eqb_neq. intros ->. apply Hn. now left. }
    rewrite E. cbn [andb]. rewrite IH by (intros H; apply Hn; now right).
    unfold len. cbn [List.length]. lia.
Qed.

Lemma scan_step_returns (ch : pychar) (in_str esc : bool) (depth : Z)
      (a b : bool) (d : Z) :
  scan_step ch in_str esc depth = (a, b, d, true) -> ch = ch_rbrack.
Proof.
  unfold scan_step.
  destruct (N.eqb ch ch_bslash && negb esc)%bool; [discriminate |].
  destruct (negb _); [| discriminate].
  destruct (N.eqb ch ch_lbrack); [discriminate |].
  destruct (N.eqb ch ch_rbrack) eqn:E; [| discriminate].
  intros _. now apply N.eqb_eq.
Qed.

(** Where the scan returns: at a closing bracket, and at the same place
    whatever follows it in the text. *)
Lemma scan_returns (s : pystr) :
  forall j in_str esc depth j',
    scan s j in_str esc depth = Some j' ->
    exists k : nat,
      j' = j + Z.of_nat k /\ List.nth_error s k = Some ch_rbrack /\
      forall tail j1,
        scan (List.firstn (S k) s ++ tail) j1 in_str esc depth
        = Some (j1 + Z.of_nat k).
Proof.
  induction s as [| ch s IH]; intros j in_str esc depth j' H; [discriminate |].
  cbn [scan] in H.
  destruct (scan_step ch in_str esc depth) as [[[a b] d] [|]] eqn:E.
  - injection H as <-. exists 0%nat. split; [lia |]. split.
    + cbn. f_equal. eapply scan_step_returns. exact E.
    + intros tail j1. cbn [List.firstn app scan]. rewrite E. f_equal. lia.
  - destruct (IH _ _ _ _ _ H) as [k [Hj [Hn Ht]]].
    exists (S k). split; [lia |]. split; [exact Hn |].
    intros tail j1. cbn [List.firstn app scan]. rewrite E.
    fold (List.firstn (S k) s). rewrite Ht. f_equal. lia.
Qed.

Lemma firstn_snoc (l : pystr) (k : nat) (x : pychar) :
  List.nth_error l k = Some x ->
  List.firstn (S k) l = (List.firstn k l ++ [x])%list.
Proof.
  revert k. induction l as [| a l IH]; intros k H.
  - destruct k; discriminate H.
  - destruct k as [| k].
    + injection H as ->. reflexivity.
    + cbn [List.nth_error] in H. cbn [List.firstn app].
      f_equal. apply (IH k H).
Qed.

(** What a successful extraction found. *)
Lemma extract_json_array_inv (t key arr : pystr) :
  _extract_json_array (PyStr t) key = Ret (Some arr) ->
  occurs (key_needle key) t /\
  exists pre rest k,
    t = (pre ++ ch_lbrack :: rest)%list /\
    List.nth_error rest k = Some ch_rbrack /\
    arr = ch_lbrack :: List.firstn (S k) rest /\
    forall tail j1,
      scan (arr ++ tail) j1 false false 0 = Some (j1 + Z.of_nat (S k)).
Proof.
  unfold _extract_json_array. cbv zeta. fold (key_needle key).
  unfold find. change (Z.to_nat 0) with 0%nat. rewrite skipn_0.
  destruct (find_from (key_needle key) t 0 =? -1) eqn:E0; [discriminate |].
  apply Z.eqb_neq in E0.
  destruct (find_from_found _ _ 0 _ ltac:(lia) eq_refl E0)
    as [pre0 [post0 [Ht Hidx]]].
  rewrite Hidx. clear E0 Hidx.
  assert (Hsk0 : List.skipn (Z.to_nat (0 + len pre0)) t
                 = (key_needle key ++ post0)%list).
  { unfold len. rewrite Z.add_0_l, Nat2Z.id, Ht. apply skipn_app_exact. }
  rewrite Hsk0.
  destruct (find_from [ch_lbrack] (key_needle key ++ post0) (0 + len pre0) =? -1)
    eqn:E1; [discriminate |].
  apply Z.eqb_neq in E1.
  destruct (find_from_found _ _ (0 + len pre0) _ ltac:(unfold len; lia) eq_refl E1)
    as [pre1 [post1 [Hs1 Hi]]].
  rewrite Hi. clear E1 Hi.
  assert (Hsk1 : List.skipn (Z.to_nat (0 + len pre0 + len pre1)) t
                 = ch_lbrack :: post1).
  { unfold len. replace (Z.to_nat (0 + Z.of_nat (List.length pre0)
                                   + Z.of_nat (List.length pre1)))
      with (List.length pre1 + List.length pre0)%nat by lia.
    rewrite <- skipn_skipn.
    replace (List.skipn (List.length pre0) t) with (key_needle key ++ post0)%list.
    2:{ rewrite Ht. symmetry. apply skipn_app_exact. }
    rewrite Hs1. apply skipn_app_exact. }
  rewrite Hsk1.
  destruct (scan (ch_lbrack :: post1) (0 + len pre0 + len pre1) false false 0)
    as [j |] eqn:Es; [| discriminate].
  intros H. injection H as <-.
  destruct (scan_returns _ _ _ _ _ _ Es) as [k [Hj [Hn Htail]]].
  destruct k as [| k]; [discriminate Hn |]. cbn [List.nth_error] in Hn.
  split; [now exists pre0, post0 |].
  exists (pre0 ++ pre1)%list, post1, k.
  assert (Harr : slice t (0 + len pre0 + len pre1) (j + 1)
                 = ch_lbrack :: List.firstn (S k) post1).
  { unfold slice. rewrite Hsk1.
    replace (Z.to_nat (j + 1 - (0 + len pre0 + len pre1))) with (S (S k)) by lia.
    reflexivity. }
  replace (len pre0 + len pre1) with (0 + len pre0 + len pre1) by lia.
  rewrite Harr. repeat split.
  - rewrite Ht, Hs1. cbn [app]. now rewrite <- !app_assoc.
  - exact Hn.
  - intros tail j1. exact (Htail tail j1).
Qed.

(** X9: Without the key followed by a colon and a bracket in the text, nothing
    is extracted. *)
Theorem extract_json_array_missing_key (t key : pystr) :
  ~ occurs (key_needle key) t ->
  _extract_json_array (PyStr t) key = Ret None.
Proof.
  intros H. unfold _extract_json_array. cbv zeta. fold (key_needle key).
  unfold find. change (Z.to_nat 0) with 0%nat. rewrite skipn_0.
  now rewrite (find_from_absent _ _ 0 H).
Qed.

Lemma extract_json_array_missing_key_witness :
  _extract_json_array (PyStr (pyq "{'products': [1, 2]}")) (py "products")
  = Ret None.
Proof.
  apply extract_json_array_missing_key.
  intros H. apply (find_from_occurs _ _ 0 (Z.le_refl 0)) in H.
  assert (E : find_from (key_needle (py "products"))
                (pyq "{'products': [1, 2]}") 0 = -1)
    by (vm_compute; reflexivity).
  rewrite E in H. lia.
Defined.

(** X10: What is extracted is a piece of the text, in one stretch, that opens
    with a bracket and closes with one; and the key, colon and bracket
    occur in the text. *)
Theorem extract_json_array_shape (t key arr : pystr) :
  _extract_json_array (PyStr t) key = Ret (Some arr) ->
  occurs (key_needle key) t /\
  exists pre body post,
    t = (pre ++ arr ++ post)%list /\
    arr = (ch_lbrack :: body ++ [ch_rbrack])%list.
Proof.
  intros H. destruct (extract_json_array_inv t key arr H)
    as [Hocc [pre [rest [k [Ht [Hn [Harr _]]]]]]].
  split; [exact Hocc |].
  exists pre, (List.firstn k rest), (List.skipn (S k) rest).
  rewrite Harr, (firstn_snoc rest k ch_rbrack Hn). split; [| reflexivity].
  rewrite Ht. cbn [app]. do 2 f_equal.
  rewrite <- (firstn_snoc rest k ch_rbrack Hn).
  symmetry. apply firstn_skipn.
Qed.

Lemma extract_json_array_shape_witness :
  occurs (key_needle (py "k")) (pyq "x 'k':[[1],']'] y") /\
  exists pre body post,
    pyq "x 'k':[[1],']'] y" = (pre ++ pyq "[[1],']']" ++ post)%list /\
    pyq "[[1],']']" = (ch_lbrack :: body ++ [ch_rbrack])%list.
Proof.
  apply (extract_json_array_shape (pyq "x 'k':[[1],']'] y") (py "k")).
  vm_compute. reflexivity.
Defined.

(** X11: An extracted array is found again as it is when it is put behind its
    key, whatever text follows it: the scan reads the array only.  (The
    key must hold no opening bracket, or the scan starts inside the
    key.) *)
Theorem extract_json_array_again (t key arr tail : pystr) :
  ~ In ch_lbrack key ->
  _extract_json_array (PyStr t) key = Ret (Some arr) ->
  _extract_json_array (PyStr (key_prefix key ++ arr ++ tail)) key
  = Ret (Some arr).
Proof.
  intros Hkey H. destruct (extract_json_array_inv t key arr H)
    as [_ [pre [rest [k [_ [Hn [Harr Hscan]]]]]]].
  assert (Hlen : List.length arr = S (S k)).
  { rewrite Harr. cbn [List.length]. rewrite length_firstn.
    assert (k < List.length rest)%nat by (apply nth_error_Some; congruence).
    lia. }
  assert (Htext : (key_prefix key ++ arr ++ tail
                   = key_needle key ++ List.firstn (S k) rest ++ tail)%list).
  { rewrite Harr. unfold key_prefix, key_needle. cbn [app].
    rewrite <- !app_assoc. reflexivity. }
  unfold _extract_json_array. cbv zeta. fold (key_needle key).
  unfold find. change (Z.to_nat 0) with 0%nat. rewrite skipn_0.
  assert (E0 : find_from (key_needle key) (key_prefix key ++ arr ++ tail) 0 = 0).
  { rewrite Htext. unfold key_needle at 2. cbn [app find_from].
    replace (is_prefix (key_needle key) _) with true; [reflexivity |].
    symmetry. apply is_prefix_spec. eexists.
    unfold key_needle. cbn [app]. rewrite <- !app_assoc. reflexivity. }
  rewrite E0. change (0 =? -1) with false. cbv iota.
  change (Z.to_nat 0) with 0%nat. rewrite skipn_0.
  assert (E1 : find_from [ch_lbrack] (key_prefix key ++ arr ++ tail) 0
               = 0 + len (key_prefix key)).
  { rewrite Harr. cbn [app]. apply find_from_first.
    unfold key_prefix. intros Hin. apply in_app_or in Hin.
    destruct Hin as [[Hin | []] | Hin]; [discriminate Hin |].
    apply in_app_or in Hin. destruct Hin as [Hin | Hin]; [now apply Hkey |].
    destruct Hin as [Hin | [Hin | []]]; discriminate Hin. }
  rewrite E1.
  replace (0 + len (key_prefix key) =? -1) with false
    by (symmetry; apply Z.eqb_neq; unfold len; lia).
  assert (Hsk : List.skipn (Z.to_nat (0 + len (key_prefix key)))
                  (key_prefix key ++ arr ++ tail) = (arr ++ tail)%list).
  { unfold len. rewrite Z.add_0_l, Nat2Z.id. apply skipn_app_exact. }
  rewrite Hsk, Hscan. unfold slice. rewrite Hsk.
  replace (Z.to_nat (0 + len (key_prefix key) + Z.of_nat (S k) + 1
                     - (0 + len (key_prefix key))))
    with (List.length arr + 0)%nat by lia.
  rewrite firstn_app_2. cbn [List.firstn]. now rewrite app_nil_r.
Qed.

Lemma extract_json_array_again_witness :
  _extract_json_array (PyStr (pyq "'k':[[1],']'] and more ]")) (py "k")
  = Ret (Some (pyq "[[1],']']")).
Proof.
  apply (extract_json_array_again (pyq "x 'k':[[1],']'] y") (py "k")
           (pyq "[[1],']']") (py " and more ]")).
  - intros [H | []]. discriminate H.
  - vm_compute. reflexivity.
Defined.

(** ** extract_price_string *)

Lemma take_decimals_split (n : nat) (s ds r : pystr) :
  take_decimals n s = (ds, r) ->
  s = (ds ++ r)%list /\ Forall (fun c => is_decimal c = true) ds.
Proof.
  revert s ds r. induction n as [| n IH]; intros s ds r H.
  - destruct s; injection H as <- <-; split; (reflexivity || constructor).
  - destruct s as [| c s]; [injection H as <- <-; split; (reflexivity || constructor) |].
    cbn [take_decimals] in H. destruct (is_decimal c) eqn:E.
    + destruct (take_decimals n s) as [ds' r'] eqn:E'. injection H as <- <-.
      destruct (IH s ds' r' E') as [-> Hd].
      split; [reflexivity | now constructor].
    + injection H as <- <-. split; [reflexivity | constructor].
Qed.

Lemma take_groups_split_len (n : nat) :
  forall s g r, (List.length s <= n)%nat -> take_groups s = (g, r) ->
                s = (g ++ r)%list.
Proof.
  induction n as [| n IH]; intros s g r Hlen H.
  - destruct s; [| cbn in Hlen; lia]. injection H as <- <-. reflexivity.
  - destruct s as [| c [| d1 [| d2 [| d3 s]]]];
      try (injection H as <- <-; reflexivity).
    cbn [take_groups] in H.
    destruct (dot_or_space c && is_decimal d1 && is_decimal d2 && is_decimal d3)%bool.
    + destruct (take_groups s) as [g' r'] eqn:E. injection H as <- <-.
      rewrite (IH s g' r') by (cbn [List.length] in Hlen; lia || exact E).
      reflexivity.
    + injection H as <- <-. reflexivity.
Qed.

Lemma take_groups_split (s g r : pystr) :
  take_groups s = (g, r) -> s = (g ++ r)%list.
Proof. apply (take_groups_split_len (List.length s)). lia. Qed.

Lemma take_fraction_split (s f r : pystr) :
  take_fraction s = (f, r) -> s = (f ++ r)%list.
Proof.
  unfold take_fraction. destruct s as [| c s]; [intros H; injection H as <- <-; reflexivity |].
  destruct (N.eqb c ch_comma); [| intros H; injection H as <- <-; reflexivity].
  destruct (take_decimals 2 s) as [ds r'] eqn:E.
  destruct (take_decimals_split 2 s ds r' E) as [-> _].
  destruct ds; intros H; injection H as <- <-; reflexivity.
Qed.

Lemma take_currency_token (s cur : pystr) :
  take_currency s = Some cur -> currency_token cur = true.
Proof.
  unfold take_currency. destruct s as [| a [| b r]]; try discriminate.
  destruct (is_k a && is_r b)%bool eqn:E.
  - destruct r as [| c r].
    + intros H. injection H as <-. exact E.
    + destruct (N.eqb c ch_dot) eqn:Ec; intros H; injection H as <-.
      * cbn [currency_token]. now rewrite E, Ec.
      * exact E.
  - destruct r as [| c r]; [discriminate |].
    destruct (is_d a && is_k b && is_k c)%bool eqn:Ed; [| discriminate].
    intros H. injection H as <-. cbn [currency_token]. rewrite Ed.
    apply orb_true_r.
Qed.

(** What a match of the primary pattern holds: the number, which starts
    with a decimal digit and is the text from there on, and the currency
    group. *)
Lemma match_price_at_inv (s : pystr) (m : pymatch) :
  match_price_at s = Some m ->
  exists d ds rest g,
    m = mk_match (d :: ds) [g] /\ is_decimal d = true /\
    s = (d :: ds ++ rest)%list /\
    (g = None \/ exists cur, g = Some cur /\ currency_token cur = true).
Proof.
  unfold match_price_at.
  destruct (take_decimals 3 s) as [ds r1] eqn:E1.
  destruct (take_decimals_split 3 s ds r1 E1) as [-> Hds].
  destruct ds as [| d ds]; [discriminate |].
  destruct (take_groups r1) as [gs r2] eqn:E2.
  destruct (take_fraction r2) as [fr r3] eqn:E3.
  intros H. injection H as <-.
  exists d, (ds ++ gs ++ fr)%list, r3, (take_currency (skip_spaces r3)).
  split; [reflexivity |]. split; [now inversion Hds |]. split.
  - rewrite (take_groups_split _ _ _ E2), (take_fraction_split _ _ _ E3).
    cbn [app]. now rewrite <- !app_assoc.
  - destruct (take_currency (skip_spaces r3)) as [cur |] eqn:Ec; [right | now left].
    exists cur. split; [reflexivity |]. eapply take_currency_token. exact Ec.
Qed.

Lemma match_price_at_none (c : pychar) (s : pystr) :
  match_price_at (c :: s) = None -> is_decimal c = false.
Proof.
  destruct (is_decimal c) eqn:E; [| reflexivity].
  unfold match_price_at.
  destruct (take_decimals_head 2 c s E) as [ds [r1 ->]].
  destruct (take_groups r1) as [gs r2]. destruct (take_fraction r2).
  intros H. discriminate H.
Qed.

Lemma search_price_inv (t : pystr) (m : pymatch) :
  search_price t = Some m ->
  exists pre d ds rest g,
    m = mk_match (d :: ds) [g] /\ is_decimal d = true /\
    t = (pre ++ d :: ds ++ rest)%list /\
    Forall (fun c => is_decimal c = false) pre /\
    (g = None \/ exists cur, g = Some cur /\ currency_token cur = true).
Proof.
  induction t as [| c t IH]; [discriminate |].
  cbn [search_price]. destruct (match_price_at (c :: t)) as [m' |] eqn:E.
  - intros H. injection H as <-.
    destruct (match_price_at_inv _ _ E) as [d [ds [rest [g [Hm [Hd [Hs Hg]]]]]]].
    exists [], d, ds, rest, g. repeat split; try assumption. constructor.
  - intros H. destruct (IH H) as [pre [d [ds [rest [g [Hm [Hd [Hs [Hp Hg]]]]]]]]].
    exists (c :: pre), d, ds, rest, g. repeat split; try assumption.
    + now rewrite Hs.
    + constructor; [now apply match_price_at_none in E | exact Hp].
Qed.

Lemma search_price_none (t : pystr) :
  search_price t = None -> Forall (fun c => is_decimal c = false) t.
Proof.
  induction t as [| c t IH]; [constructor |].
  cbn [search_price]. destruct (match_price_at (c :: t)) eqn:E; [discriminate |].
  intros H. constructor; [now apply match_price_at_none in E | auto].
Qed.

Lemma currency_token_chars (cur : pystr) :
  currency_token cur = true ->
  cur <> [] /\ Forall (fun c => is_space c = false) cur.
Proof.
  assert (Hk : forall c, is_k c = true -> is_space c = false).
  { intros c H. unfold is_k in H.
    repeat (apply orb_true_iff in H; destruct H as [H | H]);
      apply N.eqb_eq in H; subst c; reflexivity. }
  assert (Hr : forall c, is_r c = true -> is_space c = false).
  { intros c H. unfold is_r in H.
    repeat (apply orb_true_iff in H; destruct H as [H | H]);
      apply N.eqb_eq in H; subst c; reflexivity. }
  assert (Hd : forall c, is_d c = true -> is_space c = false).
  { intros c H. unfold is_d in H.
    repeat (apply orb_true_iff in H; destruct H as [H | H]);
      apply N.eqb_eq in H; subst c; reflexivity. }
  destruct cur as [| a [| b [| c [| x cur]]]]; cbn [currency_token];
    try discriminate; intros H; (split; [discriminate |]).
  - to_props. repeat constructor; auto.
  - apply orb_true_iff in H. destruct H as [H | H]; to_props.
    + subst c. repeat constructor; auto.
    + repeat constructor; auto.
Qed.

Lemma strip_ends (d : pychar) (mid cur : pystr) :
  is_space d = false -> cur <> [] ->
  Forall (fun c => is_space c = false) cur ->
  strip (d :: mid ++ cur) = (d :: mid ++ cur)%list.
Proof.
  intros Hd Hn Hc. destruct (exists_last Hn) as [c1 [z ->]].
  rewrite app_assoc. apply strip_id; [exact Hd |].
  apply Forall_app in Hc. destruct Hc as [_ Hz]. now inversion Hz.
Qed.

(** The result on a text in which the primary pattern matches. *)
Lemma extract_price_string_found (t : pystr) (m : pymatch) :
  search_price t = Some m ->
  exists cur,
    extract_price_string (PyStr t) = Ret (group1 m ++ ch_space :: cur) /\
    currency_token cur = true.
Proof.
  intros Hs.
  destruct (search_price_inv t m Hs)
    as [pre [d [ds [rest [g [Hm [Hd [Ht [_ Hg]]]]]]]]].
  unfold extract_price_string.
  replace (truthy (PyStr t)) with true
    by (rewrite Ht; destruct pre; reflexivity).
  cbn [negb]. rewrite Hs, Hm. cbn [group1 group2 later_groups bind].
  set (cur0 := match g with Some (c :: cs) => c :: cs | _ => py "kr." end).
  assert (H0 : currency_token cur0 = true).
  { unfold cur0. destruct Hg as [-> | [cur [-> Hc]]]; [reflexivity |].
    destruct cur; [discriminate Hc | exact Hc]. }
  destruct (currency_token_chars cur0 H0) as [Hn0 Hsp0].
  rewrite (strip_no_spaces cur0 Hsp0).
  set (cur1 := if str_eqb (upper cur0) (py "DKK") then py "DKK"
               else match cur0 with [] => py "kr." | _ => cur0 end).
  assert (H1 : currency_token cur1 = true).
  { unfold cur1. destruct (str_eqb (upper cur0) (py "DKK")); [reflexivity |].
    destruct cur0; [congruence | exact H0]. }
  exists cur1. split; [| exact H1].
  destruct (currency_token_chars cur1 H1) as [Hn1 Hsp1].
  destruct (decimal_char_facts d Hd) as [Hdsp _].
  f_equal.
  change ((d :: ds) ++ [ch_space] ++ cur1)%list
    with (d :: ds ++ [ch_space] ++ cur1)%list.
  rewrite app_assoc. rewrite strip_ends by assumption.
  now rewrite <- app_assoc.
Qed.

Lemma extract_price_string_not_found (t : pystr) :
  search_price t = None -> extract_price_string (PyStr t) = Ret [].
Proof.
  intros E. unfold extract_price_string.
  destruct (truthy (PyStr t)); [| reflexivity]. cbn [negb].
  now rewrite E, (search_digits_needs_price t E).
Qed.

(** X12: The result is empty exactly when the text has no decimal digit. *)
Theorem extract_price_string_empty_iff (t : pystr) :
  extract_price_string (PyStr t) = Ret [] <->
  Forall (fun c => is_decimal c = false) t.
Proof.
  split.
  - intros H. destruct (search_price t) as [m |] eqn:E.
    + destruct (extract_price_string_found t m E) as [cur [Hr _]].
      rewrite Hr in H. destruct (search_price_inv t m E)
        as [_ [d [ds [_ [g [-> _]]]]]].
      discriminate H.
    + now apply search_price_none.
  - intros H. unfold extract_price_string.
    destruct (truthy (PyStr t)); [| reflexivity]. cbn [negb].
    destruct (search_price t) as [m |] eqn:E.
    + exfalso. destruct (search_price_inv t m E)
        as [pre [d [ds [rest [g [_ [Hd [Ht _]]]]]]]].
      rewrite Forall_forall in H. specialize (H d).
      rewrite Ht in H. rewrite H in Hd; [discriminate Hd |].
      apply in_or_app. right. now left.
    + now rewrite (search_digits_needs_price t E).
Qed.

(** X13: A result that is not empty is the number, a space and a currency
    token: the number is the text from its first decimal digit on, and the
    token a spelling of [kr], [kr.] or [DKK]; there is no blank at either
    end. *)
Theorem extract_price_string_shape (t r : pystr) :
  extract_price_string (PyStr t) = Ret r -> r <> [] ->
  exists pre num rest cur,
    r = (num ++ ch_space :: cur)%list /\
    t = (pre ++ num ++ rest)%list /\
    Forall (fun c => is_decimal c = false) pre /\
    (exists d ds, num = d :: ds /\ is_decimal d = true) /\
    currency_token cur = true.
Proof.
  intros Hr Hne. destruct (search_price t) as [m |] eqn:E.
  - destruct (extract_price_string_found t m E) as [cur [Hr' Hc]].
    rewrite Hr in Hr'. injection Hr' as ->.
    destruct (search_price_inv t m E)
      as [pre [d [ds [rest [g [-> [Hd [Ht [Hp _]]]]]]]]].
    exists pre, (d :: ds), rest, cur. cbn [group1].
    repeat split; try assumption. now exists d, ds.
  - exfalso. apply Hne.
    rewrite (extract_price_string_not_found t E) in Hr. now injection Hr.
Qed.

Lemma extract_price_string_shape_witness :
  exists pre num rest cur,
    py "3.999 DKK" = (num ++ ch_space :: cur)%list /\
    py "Pris: 3.999 dkk nu" = (pre ++ num ++ rest)%list /\
    Forall (fun c => is_decimal c = false) pre /\
    (exists d ds, num = d :: ds /\ is_decimal d = true) /\
    currency_token cur = true.
Proof.
  apply (extract_price_string_shape (py "Pris: 3.999 dkk nu") (py "3.999 DKK"));
    [vm_compute; reflexivity | discriminate].
Defined.

(** ** Whole numbers read exactly *)

Lemma span_digits_app (ds r : pystr) :
  Forall (fun c => is_ascii_digit c = true) ds ->
  (forall c r', r = c :: r' -> is_ascii_digit c = false) ->
  span_digits (ds ++ r) = (ds, r).
Proof.
  intros Hds Hr. induction Hds as [| c ds Hc _ IH].
  - cbn [app]. destruct r as [| c r']; [reflexivity |].
    cbn [span_digits]. now rewrite (Hr c r' eq_refl).
  - cbn [app span_digits]. now rewrite Hc, IH.
Qed.

Lemma span_digits_all (ds : pystr) :
  Forall (fun c => is_ascii_digit c = true) ds -> span_digits ds = (ds, []).
Proof.
  intros H. rewrite <- (app_nil_r ds) at 1. apply span_digits_app; [exact H |].
  intros c r' E. discriminate E.
Qed.

Lemma py_float_digits (ds : pystr) :
  Forall (fun c => is_ascii_digit c = true) ds -> ds <> [] ->
  py_float ds = Ret (float_of_decimal false (digits_value ds 0) 0).
Proof.
  intros Hds Hne. unfold py_float.
  destruct ds as [| c ds']; [congruence |].
  assert (Hc : is_ascii_digit c = true) by now inversion Hds.
  apply ascii_digit_range in Hc.
  replace (N.eqb c ch_minus) with false
    by (symmetry; apply N.eqb_neq; unfold ch_minus; lia).
  replace (N.eqb c ch_plus) with false
    by (symmetry; apply N.eqb_neq; unfold ch_plus; lia).
  unfold parse_decimal, parse_number.
  rewrite (span_digits_all _ Hds). reflexivity.
Qed.

Lemma normalise_double (m e : Z) :
  0 < m -> normalise (2 * m) e = normalise m (e + 1).
Proof.
  intros Hm. destruct m as [| p | p]; try lia.
  change (2 * Z.pos p) with (Z.pos p~0).
  unfold normalise. cbn [pos_odd_part].
  destruct (pos_odd_part p) as [q k]. f_equal. lia.
Qed.

Lemma normalise_shift (m e k : Z) :
  0 < m -> 0 <= k -> normalise (m * 2 ^ k) e = normalise m (e + k).
Proof.
  intros Hm Hk. revert e. pattern k. apply natlike_ind; [| | exact Hk].
  - intros e. rewrite Z.pow_0_r, Z.mul_1_r, Z.add_0_r. reflexivity.
  - intros x Hx IH e. rewrite Z.pow_succ_r by exact Hx.
    replace (m * (2 * 2 ^ x)) with (2 * (m * 2 ^ x)) by ring.
    rewrite normalise_double by (apply Z.mul_pos_pos; [lia | apply Z.pow_pos_nonneg; lia]).
    rewrite IH. f_equal. lia.
Qed.

Lemma round_ratio_exact (M : Z) :
  0 <= M < 2 ^ 53 -> round_ratio M 1 = Some (normalise M 0).
Proof.
  intros [H0 H1].
  assert (H0' : M = 0 \/ 0 < M) by lia. destruct H0' as [-> | Hpos].
  { vm_compute. reflexivity. }
  pose proof (Z.log2_nonneg M) as HL0.
  assert (HL1 : Z.log2 M < 53) by (apply Z.log2_lt_pow2; lia).
  unfold round_ratio. cbv zeta.
  rewrite Z.div_1_r, Z.mod_1_r, Z.add_0_r, !Z.mul_1_r.
  rewrite Z.log2_mul_pow2 by lia.
  set (L := Z.log2 M) in *.
  replace (Z.max 0 (1074 + L - 52)) with (L + 1022) by lia.
  assert (Hq : M * 2 ^ 1074 = (M * 2 ^ (52 - L)) * 2 ^ (L + 1022)).
  { rewrite <- Z.mul_assoc, <- Z.pow_add_r by lia. do 2 f_equal. lia. }
  assert (Hp : 0 < 2 ^ (L + 1022)) by (apply Z.pow_pos_nonneg; lia).
  rewrite Z.shiftr_div_pow2 by lia.
  assert (Hmod : (M * 2 ^ 1074) mod 2 ^ (L + 1022) = 0)
    by (rewrite Hq; apply Z.mod_mul; lia).
  assert (Hdiv : M * 2 ^ 1074 / 2 ^ (L + 1022) = M * 2 ^ (52 - L))
    by (rewrite Hq; apply Z.div_mul; lia).
  rewrite Hmod, Hdiv, Z.mul_0_r.
  replace (0 ?= 2 ^ (L + 1022)) with Lt by (symmetry; apply Z.compare_lt_iff; lia).
  rewrite <- Hq.
  replace (2 ^ 2098 <=? M * 2 ^ 1074) with false.
  - rewrite normalise_shift by lia. do 2 f_equal. lia.
  - symmetry. apply Z.leb_gt.
    apply Z.lt_trans with (2 ^ 53 * 2 ^ 1074).
    + apply Z.mul_lt_mono_pos_r; [apply Z.pow_pos_nonneg; lia | lia].
    + rewrite <- Z.pow_add_r by lia. apply Z.pow_lt_mono_r; lia.
Qed.

Lemma digits_value_nonneg (ds : pystr) :
  Forall (fun c => is_ascii_digit c = true) ds ->
  forall acc, 0 <= acc -> 0 <= digits_value ds acc.
Proof.
  induction 1 as [| c ds Hc _ IH]; intros acc Ha; [exact Ha |].
  cbn [digits_value]. apply IH. apply ascii_digit_range in Hc.
  unfold digit_val. lia.
Qed.

Lemma float_of_whole (M : Z) :
  0 <= M < 2 ^ 53 -> float_of_decimal false M 0 = flt M 0.
Proof.
  intros H. unfold float_of_decimal, float_of_ratio.
  change (0 <=? 0) with true. cbv iota.
  rewrite Z.pow_0_r, Z.mul_1_r, (round_ratio_exact M H).
  unfold flt. rewrite Z.abs_eq by lia.
  destruct (normalise M 0) as [m e].
  replace (M <? 0) with false by (symmetry; apply Z.ltb_ge; lia).
  reflexivity.
Qed.

(** ** Reading a numeral *)

Lemma span_digits_rest (s ds r' : pystr) (c : pychar) :
  span_digits s = (ds, c :: r') -> is_ascii_digit c = false.
Proof.
  revert ds. induction s as [| a s IH]; intros ds H; [discriminate |].
  cbn [span_digits] in H. destruct (is_ascii_digit a) eqn:E.
  - destruct (span_digits s) as [ds' r0]. injection H as <- ->.
    now apply (IH ds').
  - injection H as <- <- <-. exact E.
Qed.

Lemma digit_or_dot_cases (c : pychar) :
  digit_or_dot c = true -> is_ascii_digit c = false -> c = ch_dot.
Proof.
  unfold digit_or_dot. intros H E. rewrite E in H. now apply N.eqb_eq in H.
Qed.

Lemma py_float_head (s : pystr) (v : pyfloat) :
  (forall c s', s = c :: s' -> c <> ch_minus /\ c <> ch_plus) ->
  py_float s = Ret v -> nonneg_float v.
Proof.
  intros Hhd. unfold py_float. destruct s as [| c s'].
  - destruct (parse_decimal []) as [[M k] |]; [| discriminate].
    intros H. injection H as <-. apply float_of_decimal_nonneg.
  - destruct (Hhd c s' eq_refl) as [H1 H2].
    apply N.eqb_neq in H1, H2. rewrite H1, H2.
    destruct (parse_decimal (c :: s')) as [[M k] |]; [| discriminate].
    intros H. injection H as <-. apply float_of_decimal_nonneg.
Qed.

(** [float] reads every string of ASCII digits with at most one point and
    at least one digit. *)
Lemma py_float_reads (s : pystr) :
  Forall (fun c => digit_or_dot c = true) s ->
  (count_occ N.eq_dec s ch_dot <= 1)%nat ->
  Exists (fun c => is_ascii_digit c = true) s ->
  exists v, py_float s = Ret v.
Proof.
  intros Hs Hdots Hdig. unfold py_float.
  assert (Hhd : match s with
                | c :: s' =>
                    if N.eqb c ch_minus then (true, s')
                    else if N.eqb c ch_plus then (false, s') else (false, s)
                | [] => (false, [])
                end = (false, s)).
  { destruct s as [| c s']; [reflexivity |].
    inversion Hs as [| ? ? Hc _]; subst. unfold digit_or_dot in Hc.
    destruct (N.eqb c ch_minus) eqn:E1.
    { apply N.eqb_eq in E1. subst c. discriminate Hc. }
    destruct (N.eqb c ch_plus) eqn:E2.
    { apply N.eqb_eq in E2. subst c. discriminate Hc. }
    reflexivity. }
  rewrite Hhd. unfold parse_decimal, parse_number.
  destruct (span_digits s) as [ip r] eqn:E1.
  destruct (span_digits_spec s ip r E1) as [Hsplit Hip].
  destruct r as [| c r'].
  - rewrite app_nil_r in Hsplit. subst ip.
    destruct s; [inversion Hdig | eexists; reflexivity].
  - pose proof (span_digits_rest s ip r' c E1) as Hc.
    assert (Hcd : c = ch_dot).
    { apply digit_or_dot_cases; [| exact Hc].
      rewrite Forall_forall in Hs. apply Hs. rewrite Hsplit.
      apply in_or_app. right. now left. }
    subst c. rewrite N.eqb_refl.
    destruct (span_digits r') as [fp r''] eqn:E2.
    destruct (span_digits_spec r' fp r'' E2) as [Hsplit2 Hfp].
    assert (Hr : r'' = []).
    { destruct r'' as [| c2 r3]; [reflexivity | exfalso].
      pose proof (span_digits_rest r' fp r3 c2 E2) as Hc2.
      assert (Hcd : c2 = ch_dot).
      { apply digit_or_dot_cases; [| exact Hc2].
        rewrite Forall_forall in Hs. apply Hs. rewrite Hsplit, Hsplit2.
        apply in_or_app. right. right. apply in_or_app. right. now left. }
      subst c2. rewrite Hsplit, Hsplit2 in Hdots.
      rewrite count_occ_app, count_occ_cons_eq in Hdots by reflexivity.
      rewrite count_occ_app, count_occ_cons_eq in Hdots by reflexivity.
      lia. }
    subst r''. rewrite app_nil_r in Hsplit2. subst r'.
    destruct (ip ++ fp)%list as [| x xs] eqn:E3.
    + exfalso. apply app_eq_nil in E3. destruct E3 as [-> ->].
      cbn [app] in Hsplit. subst s.
      inversion Hdig as [? ? H | ? ? H]; subst; [discriminate H | inversion H].
    + eexists. reflexivity.
Qed.

(** ** _parse_price_arg *)

Lemma decimal_value_in_bound (rs : list (N * N)) (c : pychar) (d : N) :
  decimal_value_in rs c = Some d -> (d < 10)%N.
Proof.
  induction rs as [| r rs IH]; [discriminate |].
  cbn [decimal_value_in]. destruct (_ && _)%bool; [| exact IH].
  intros H. injection H as <-. apply N.mod_lt. discriminate.
Qed.

Lemma decimal_value_in_ranges (rs : list (N * N)) (c : pychar) :
  in_ranges c rs = true <-> exists d, decimal_value_in rs c = Some d.
Proof.
  unfold in_ranges. induction rs as [| r rs IH].
  - split; [discriminate | intros [d H]; discriminate H].
  - cbn [existsb decimal_value_in].
    destruct (N.leb (fst r) c && N.ltb c (fst r + snd r))%bool.
    + split; [eexists; reflexivity | reflexivity].
    + exact IH.
Qed.

Lemma ascii_decimals_head (s : pystr) :
  Forall (fun c => (isdigit c || N.eqb c ch_dot)%bool = true) s ->
  forall c s', ascii_decimals s = c :: s' -> c <> ch_minus /\ c <> ch_plus.
Proof.
  intros Hs c s' E. destruct s as [| a s0]; [discriminate |].
  inversion Hs as [| ? ? Ha _]; subst.
  unfold ascii_decimals in E. cbn [List.map] in E.
  apply (f_equal (hd 0%N)) in E. cbn [hd] in E. subst c.
  destruct (decimal_value_in decimal_ranges a) as [d |] eqn:Ed.
  - apply decimal_value_in_bound in Ed. unfold ch_minus, ch_plus.
    split; apply N.neq_sym, N.lt_neq; lia.
  - split; intros ->; discriminate Ha.
Qed.

Lemma digits_and_dots_kept (s : pystr) :
  Forall (fun c => (isdigit c || N.eqb c ch_dot)%bool = true) (digits_and_dots s).
Proof.
  unfold digits_and_dots. apply Forall_forall. intros c Hc.
  apply filter_In in Hc. apply Hc.
Qed.

(** X14: [_parse_price_arg] never raises, and what it returns is not negative. *)
Theorem parse_price_arg_safe (s : pyarg) :
  exists r, _parse_price_arg s = Ret r /\
            forall v, r = Some v -> nonneg_float v.
Proof.
  destruct s as [| t]; [exists None; split; [reflexivity | discriminate] |].
  unfold _parse_price_arg.
  destruct (normalize_price_returns (PyStr t)) as [[x |] E]; rewrite E;
    cbn [bind].
  - exists (Some x). split; [reflexivity |]. intros v Hv. injection Hv as <-.
    destruct (normalize_price_result _ _ E) as [core [Hc Hf]].
    exact (py_float_unsigned core x Hc Hf).
  - cbv zeta. unfold py_float_text.
    set (F := digits_and_dots _).
    destruct (py_float (ascii_decimals F)) as [w | e] eqn:Ew; cbn [bind try_except].
    + exists (Some w). split; [reflexivity |]. intros v Hv. injection Hv as <-.
      apply (py_float_head (ascii_decimals F)); [| exact Ew].
      apply ascii_decimals_head. apply digits_and_dots_kept.
    + exists None. split; [reflexivity | discriminate].
Qed.

Lemma remove_sub_single (c : pychar) (s : pystr) :
  remove_sub [c] s = List.filter (fun x => negb (N.eqb c x)) s.
Proof.
  unfold remove_sub. induction s as [| x s IH]; [reflexivity |].
  cbn [remove_sub_from is_prefix List.length Nat.pred List.filter].
  rewrite andb_true_r. destruct (N.eqb c x); cbn [negb]; now rewrite IH.
Qed.

Lemma decimal_to_ascii (a : pychar) :
  is_decimal a = true ->
  exists d, decimal_value_in decimal_ranges a = Some d /\
            is_ascii_digit (48 + d)%N = true.
Proof.
  intros H. apply decimal_value_in_ranges in H. destruct H as [d Hd].
  exists d. split; [exact Hd |]. apply decimal_value_in_bound in Hd.
  apply ascii_digit_range. lia.
Qed.

(** The string the fallback of [_parse_price_arg] passes to [float]. *)
Lemma fallback_text_facts (t : pystr) :
  plain_digits t = true ->
  let G := ascii_decimals
             (digits_and_dots
                (replace_char ch_comma ch_dot
                   (List.filter (fun x => negb (N.eqb ch_dot x)) t))) in
  Forall (fun c => digit_or_dot c = true) G /\
  count_occ N.eq_dec G ch_dot = commas t /\
  (Exists (fun c => is_decimal c = true) t ->
   Exists (fun c => is_ascii_digit c = true) G).
Proof.
  unfold plain_digits, commas, ascii_decimals, digits_and_dots, replace_char.
  induction t as [| a t IH]; intros Hp.
  - cbn. repeat split; [constructor | intros H; inversion H].
  - cbn [List.forallb] in Hp. apply andb_true_iff in Hp.
    destruct Hp as [Ha Hp]. apply negb_true_iff in Ha.
    destruct (IH Hp) as [IH1 [IH2 IH3]]. clear IH.
    cbn [List.filter]. destruct (N.eqb ch_dot a) eqn:E1; cbn [negb].
    + apply N.eqb_eq in E1. subst a.
      rewrite count_occ_cons_neq by discriminate.
      repeat split; try assumption.
      intros H. apply IH3. inversion H as [? ? Hd | ? ? Hd]; subst;
        [discriminate Hd | exact Hd].
    + cbn [List.map]. destruct (N.eqb a ch_comma) eqn:E2.
      * apply N.eqb_eq in E2. subst a. cbn [List.filter].
        change (isdigit ch_dot || N.eqb ch_dot ch_dot)%bool with true.
        cbv iota. cbn [List.map].
        change (decimal_value_in decimal_ranges ch_dot) with (@None N).
        cbv iota. rewrite !count_occ_cons_eq by reflexivity.
        repeat split.
        -- constructor; [reflexivity | exact IH1].
        -- now rewrite IH2.
        -- intros H. apply Exists_cons_tl. apply IH3.
           inversion H as [? ? Hd | ? ? Hd]; subst; [discriminate Hd | exact Hd].
      * cbn [List.filter]. rewrite N.eqb_sym in E1.
        rewrite E1, orb_false_r.
        rewrite (count_occ_cons_neq N.eq_dec t)
          by (apply N.eqb_neq in E2; exact E2).
        unfold isdigit. rewrite Ha, orb_false_r.
        destruct (is_decimal a) eqn:Ed.
        -- destruct (decimal_to_ascii a Ed) as [d [Hd Hasc]].
           cbn [List.map]. rewrite Hd.
           rewrite count_occ_cons_neq
             by (apply ascii_digit_range in Hasc; unfold ch_dot;
                 apply N.neq_sym, N.lt_neq; lia).
           repeat split.
           ++ constructor; [| exact IH1]. unfold digit_or_dot. now rewrite Hasc.
           ++ exact IH2.
           ++ intros _. now apply Exists_cons_hd.
        -- repeat split; try assumption.
           intros H. apply IH3.
           inversion H as [? ? Hd | ? ? Hd]; subst; [congruence | exact Hd].
Qed.

(** X15: A text with a decimal digit, at most one comma and no digit character
    other than the decimals (a superscript or circled digit) is read as a
    number: by [normalize_price], or else by the fallback. *)
Theorem parse_price_arg_reads (t : pystr) :
  Exists (fun c => is_decimal c = true) t ->
  (commas t <= 1)%nat ->
  plain_digits t = true ->
  exists v, _parse_price_arg (PyStr t) = Ret (Some v).
Proof.
  intros Hd Hc Hp. unfold _parse_price_arg.
  destruct (normalize_price_returns (PyStr t)) as [[x |] E]; rewrite E;
    cbn [bind]; [now exists x |].
  cbv zeta. unfold py_float_text. rewrite remove_sub_single.
  destruct (fallback_text_facts t Hp) as [H1 [H2 H3]].
  destruct (py_float_reads _ H1) as [v Hv].
  - rewrite H2. exact Hc.
  - exact (H3 Hd).
  - rewrite Hv. cbn [bind try_except]. now exists v.
Qed.

Lemma parse_price_arg_reads_witness :
  exists v, _parse_price_arg (PyStr (py "1.2.3")) = Ret (Some v).
Proof.
  apply (parse_price_arg_reads (py "1.2.3")).
  - apply Exists_cons_hd. reflexivity.
  - vm_compute. lia.
  - reflexivity.
Defined.

(** ** Crossed bounds *)

(** X16: With the minimum above the maximum the filter keeps nothing. *)
Theorem price_filter_inverted (lo hi : pyfloat) (items : list item) :
  float_ltb hi lo = true ->
  apply_price_filter (Some lo) (Some hi) items = [].
Proof.
  intros H. unfold apply_price_filter. cbn [is_some orb].
  induction items as [| it items IH]; [reflexivity |].
  cbn [List.filter]. rewrite IH.
  replace (in_range (Some lo) (Some hi) it) with false; [reflexivity |].
  symmetry. unfold in_range. destruct (price_num it) as [pn |]; [| reflexivity].
  destruct (float_ltb pn lo) eqn:E1; [reflexivity |].
  destruct (float_ltb hi pn) eqn:E2; [reflexivity |].
  exfalso.
  assert (L1 : float_leb lo pn = true) by (rewrite float_leb_ltb, E1; reflexivity).
  assert (L2 : float_leb pn hi = true) by (rewrite float_leb_ltb, E2; reflexivity).
  pose proof (float_leb_trans _ _ _ L1 L2) as L3.
  rewrite float_leb_ltb, H in L3. discriminate L3.
Qed.

Lemma price_filter_inverted_witness :
  apply_price_filter (Some (flt 3000 0)) (Some (flt 500 0))
    [sample_item (Some (flt 1000 0)); sample_item None] = [].
Proof.
  apply (price_filter_inverted (flt 3000 0) (flt 500 0)). reflexivity.
Defined.

(** ** The cleaned form of a price string *)

Lemma remove_sub_app_absent (old a b : pystr) (h : pychar) :
  List.hd_error old = Some h -> ~ In h a ->
  remove_sub old (a ++ b) = (a ++ remove_sub old b)%list.
Proof.
  destruct old as [| h' t]; [discriminate |].
  intros Hh. injection Hh as ->.
  unfold remove_sub. induction a as [| c a IH]; intros Hn; [reflexivity |].
  cbn [app remove_sub_from is_prefix].
  assert (E : N.eqb h c = false).
  { apply N.eqb_neq. intros ->. apply Hn. now left. }
  rewrite E. cbn [andb]. rewrite IH; [reflexivity |].
  intros Hin. apply Hn. now right.
Qed.

(** What the three removals, the stripping and the filter leave of a
    currency token. *)
Lemma currency_residue (cur : pystr) :
  currency_token cur = true ->
  let R := remove_sub (py "DKK")
             (remove_sub (py "kr") (remove_sub (py "kr.") cur)) in
  List.forallb (fun c => negb (is_space c)) R = true /\
  (List.filter price_char R = [] \/ List.filter price_char R = [ch_dot]).
Proof.
  assert (Hk : forall c, is_k c = true -> c = 107%N \/ c = 75%N \/ c = 8490%N).
  { intros c H. unfold is_k in H.
    repeat (apply orb_true_iff in H; destruct H as [H | H]);
      apply N.eqb_eq in H; auto. }
  assert (Hr : forall c, is_r c = true -> c = 114%N \/ c = 82%N).
  { intros c H. unfold is_r in H.
    repeat (apply orb_true_iff in H; destruct H as [H | H]);
      apply N.eqb_eq in H; auto. }
  assert (Hd : forall c, is_d c = true -> c = 100%N \/ c = 68%N).
  { intros c H. unfold is_d in H.
    repeat (apply orb_true_iff in H; destruct H as [H | H]);
      apply N.eqb_eq in H; auto. }
  destruct cur as [| a [| b [| c [| x cur]]]]; cbn [currency_token];
    try discriminate; intros H.
  - to_props.
    destruct (Hk a) as [-> | [-> | ->]]; try assumption;
      destruct (Hr b) as [-> | ->]; try assumption;
      vm_compute; auto.
  - apply orb_true_iff in H. destruct H as [H | H]; to_props.
    + subst c.
      destruct (Hk a) as [-> | [-> | ->]]; try assumption;
        destruct (Hr b) as [-> | ->]; try assumption;
        vm_compute; auto.
    + destruct (Hd a) as [-> | ->]; try assumption;
        destruct (Hk b) as [-> | [-> | ->]]; try assumption;
        destruct (Hk c) as [-> | [-> | ->]]; try assumption;
        vm_compute; auto.
Qed.

Lemma replace_nbsp_price (s : pystr) :
  Forall (fun c => price_char c = true) s ->
  Forall (fun c => price_char c = true) (replace_char ch_nbsp ch_space s).
Proof.
  unfold replace_char. induction 1 as [| c s Hc _ IH]; [constructor |].
  cbn [List.map]. constructor; [| exact IH].
  destruct (N.eqb c ch_nbsp); [reflexivity | exact Hc].
Qed.

Lemma replace_nbsp_keeps (c : pychar) :
  is_space c = false -> (if N.eqb c ch_nbsp then ch_space else c) = c.
Proof.
  intros H. destruct (N.eqb c ch_nbsp) eqn:E; [| reflexivity].
  apply N.eqb_eq in E. subst c. discriminate H.
Qed.

Lemma replace_nbsp_no_spaces (s : pystr) :
  List.forallb (fun c => negb (is_space c)) s = true ->
  replace_char ch_nbsp ch_space s = s.
Proof.
  unfold replace_char. induction s as [| c s IH]; [reflexivity |].
  cbn [List.forallb List.map]. intros H. apply andb_true_iff in H.
  destruct H as [Hc Hs]. apply negb_true_iff in Hc.
  now rewrite (replace_nbsp_keeps c Hc), IH.
Qed.

Lemma lstrip_length (x : pystr) :
  (List.length (lstrip x) <= List.length x)%nat.
Proof.
  induction x as [| y x IHx]; [cbn; lia |]. cbn [lstrip].
  destruct (is_space y); cbn [List.length]; lia.
Qed.

Lemma lstrip_fixed (c : pychar) (s : pystr) :
  lstrip (c :: s) = c :: s -> is_space c = false.
Proof.
  cbn [lstrip]. destruct (is_space c); [| reflexivity].
  intros H. pose proof (lstrip_length s) as Hl. rewrite H in Hl.
  cbn [List.length] in Hl. lia.
Qed.

Lemma replace_nbsp_lstrip (s : pystr) :
  lstrip s = s ->
  lstrip (replace_char ch_nbsp ch_space s) = replace_char ch_nbsp ch_space s.
Proof.
  destruct s as [| c s]; [reflexivity |]. intros H.
  apply lstrip_fixed in H. unfold replace_char. cbn [List.map].
  rewrite (replace_nbsp_keeps c H). cbn [lstrip]. now rewrite H.
Qed.

Lemma replace_char_rev (a b : pychar) (s : pystr) :
  List.rev (replace_char a b s) = replace_char a b (List.rev s).
Proof. unfold replace_char. symmetry. apply map_rev. Qed.

Lemma replace_char_app (a b : pychar) (x y : pystr) :
  replace_char a b (x ++ y) = (replace_char a b x ++ replace_char a b y)%list.
Proof. unfold replace_char. apply map_app. Qed.

Lemma strip_trailing_space (s : pystr) :
  lstrip s = s -> lstrip (List.rev s) = List.rev s ->
  strip (s ++ [ch_space]) = s.
Proof.
  intros H1 H2. unfold strip.
  assert (E : lstrip (s ++ [ch_space]) = (s ++ [ch_space])%list \/ s = []).
  { destruct s as [| c s']; [now right | left].
    apply lstrip_fixed in H1. cbn [app lstrip]. now rewrite H1. }
  destruct E as [E | ->]; [| reflexivity].
  rewrite E, rev_app_distr. cbn [List.rev app lstrip].
  change (is_space ch_space) with true. cbv iota.
  rewrite H2. apply rev_involutive.
Qed.

Lemma strip_between (s w : pystr) :
  lstrip s = s -> s <> [] -> w <> [] ->
  List.forallb (fun c => negb (is_space c)) w = true ->
  strip (s ++ ch_space :: w) = (s ++ ch_space :: w)%list.
Proof.
  intros H1 Hs Hw Hall. unfold strip.
  assert (E : lstrip (s ++ ch_space :: w) = (s ++ ch_space :: w)%list).
  { destruct s as [| c s']; [congruence |].
    apply lstrip_fixed in H1. cbn [app lstrip]. now rewrite H1. }
  rewrite E. destruct (exists_last Hw) as [w0 [z ->]].
  rewrite forallb_app in Hall. apply andb_true_iff in Hall.
  destruct Hall as [_ Hz]. cbn [List.forallb] in Hz.
  rewrite andb_true_r in Hz. apply negb_true_iff in Hz.
  replace (s ++ ch_space :: w0 ++ [z])%list
    with ((s ++ ch_space :: w0) ++ [z])%list
    by (rewrite <- app_assoc; reflexivity).
  rewrite rev_app_distr. cbn [List.rev app lstrip]. rewrite Hz.
  change (z :: List.rev (s ++ ch_space :: w0))
    with (List.rev [z] ++ List.rev (s ++ ch_space :: w0))%list.
  rewrite <- rev_app_distr. apply rev_involutive.
Qed.

Lemma residue_cases (sfx : pystr) :
  currency_suffix sfx = true ->
  residue sfx = [] \/ residue sfx = [ch_space] \/
  residue sfx = [ch_space; ch_dot].
Proof.
  destruct sfx as [| c cur]; [now left |].
  cbn [currency_suffix]. intros H. apply andb_true_iff in H.
  destruct H as [_ Hcur]. destruct (currency_residue cur Hcur) as [_ HR].
  cbv zeta in HR. unfold residue.
  destruct (remove_sub (py "DKK") _) as [| r0 R0]; [now left | right].
  destruct HR as [-> | ->]; auto.
Qed.

(** The cleaned form of a number followed by nothing or by a blank and a
    currency token. *)
Lemma cleaned_of_price_exact (num sfx : pystr) :
  Forall (fun c => price_char c = true) num ->
  num <> [] -> lstrip num = num -> lstrip (List.rev num) = List.rev num ->
  currency_suffix sfx = true ->
  cleaned_of (num ++ sfx) =
  (replace_char ch_nbsp ch_space num ++ residue sfx)%list.
Proof.
  intros Hch Hne Hl Hr Hsfx.
  set (num' := replace_char ch_nbsp ch_space num).
  assert (Hch' : Forall (fun c => price_char c = true) num')
    by (apply replace_nbsp_price; exact Hch).
  assert (Habs : forall h, price_char h = false -> ~ In h num).
  { intros h Hh Hin. rewrite Forall_forall in Hch.
    specialize (Hch h Hin). congruence. }
  assert (Hl' : lstrip num' = num') by (apply replace_nbsp_lstrip; exact Hl).
  assert (Hr' : lstrip (List.rev num') = List.rev num').
  { unfold num'. rewrite replace_char_rev. apply replace_nbsp_lstrip. exact Hr. }
  assert (Hne' : num' <> []).
  { unfold num', replace_char. destruct num; [congruence | discriminate]. }
  unfold cleaned_of, residue. destruct sfx as [| c cur].
  - rewrite !app_nil_r.
    rewrite (remove_sub_absent (py "kr.") num 107%N eq_refl) by (now apply Habs).
    rewrite (remove_sub_absent (py "kr") num 107%N eq_refl) by (now apply Habs).
    rewrite (remove_sub_absent (py "DKK") num 68%N eq_refl) by (now apply Habs).
    fold num'. unfold strip. rewrite Hl', Hr', rev_involutive.
    now apply filter_all.
  - cbn [currency_suffix] in Hsfx. apply andb_true_iff in Hsfx.
    destruct Hsfx as [Hc Hcur]. apply N.eqb_eq in Hc. subst c.
    destruct (currency_residue cur Hcur) as [HR1 _].
    replace (num ++ ch_space :: cur)%list with ((num ++ [ch_space]) ++ cur)%list
      by (rewrite <- app_assoc; reflexivity).
    assert (Habs2 : forall h, price_char h = false -> ~ In h (num ++ [ch_space])).
    { intros h Hh Hin. apply in_app_or in Hin. destruct Hin as [Hin | [<- | []]].
      - now apply (Habs h).
      - discriminate Hh. }
    rewrite (remove_sub_app_absent (py "kr.") _ _ 107%N eq_refl) by (now apply Habs2).
    rewrite (remove_sub_app_absent (py "kr") _ _ 107%N eq_refl) by (now apply Habs2).
    rewrite (remove_sub_app_absent (py "DKK") _ _ 68%N eq_refl) by (now apply Habs2).
    set (R := remove_sub (py "DKK") _) in *.
    rewrite !replace_char_app. fold num'.
    rewrite (replace_nbsp_no_spaces R HR1).
    change (replace_char ch_nbsp ch_space [ch_space]) with [ch_space].
    destruct R as [| r0 R0] eqn:ER.
    + rewrite !app_nil_r.
      rewrite strip_trailing_space by assumption. now apply filter_all.
    + rewrite <- ER in *. rewrite <- app_assoc. cbn [app].
      rewrite strip_between by (assumption || congruence).
      rewrite filter_app. cbn [List.filter].
      change (price_char ch_space) with true. cbv iota.
      rewrite (filter_all price_char num' Hch'). rewrite ER. reflexivity.
Qed.

Lemma cleaned_of_price (num sfx : pystr) :
  Forall (fun c => price_char c = true) num ->
  num <> [] -> lstrip num = num -> lstrip (List.rev num) = List.rev num ->
  currency_suffix sfx = true ->
  exists X,
    cleaned_of (num ++ sfx) = (replace_char ch_nbsp ch_space num ++ X)%list /\
    (X = [] \/ X = [ch_space] \/ X = [ch_space; ch_dot]).
Proof.
  intros Hch Hne Hl Hr Hsfx. exists (residue sfx). split.
  - now apply cleaned_of_price_exact.
  - now apply residue_cases.
Qed.

(** ** Whole-number prices *)

Lemma normalize_price_unfold (p : pystr) :
  cleaned_of p <> [] ->
  normalize_price (PyStr p) =
  let cleaned := cleaned_of p in
  if re_search_sep3 cleaned then
    float_or_none
      (digits_and_dots
         (replace_char ch_comma ch_dot
            (List.filter (fun c => negb (dot_or_space c)) cleaned)))
  else
    match decimal_sep_of cleaned with
    | None =>
        float_or_none
          (List.filter
             (fun c => negb (is_space c || N.eqb c ch_dot || N.eqb c ch_comma))
             cleaned)
    | Some sep =>
        float_or_none
          (digits_and_dots
             (if N.eqb sep ch_dot then
                List.filter (fun c => negb (is_space c || N.eqb c ch_comma)) cleaned
              else
                replace_char ch_comma ch_dot
                  (List.filter (fun c => negb (dot_or_space c)) cleaned)))
    end.
Proof.
  intros Hne. unfold normalize_price.
  destruct p as [| c p]; [exfalso; apply Hne; reflexivity |].
  cbn [truthy negb]. cbv zeta.
  destruct (cleaned_of (c :: p)) as [| c0 cl]; [congruence | reflexivity].
Qed.

Lemma groups_of_three_ind (P : pystr -> Prop) :
  P [] ->
  (forall sep d1 d2 d3 s,
      dot_or_space sep = true -> is_ascii_digit d1 = true ->
      is_ascii_digit d2 = true -> is_ascii_digit d3 = true ->
      groups_of_three s = true -> P s -> P (sep :: d1 :: d2 :: d3 :: s)) ->
  forall s, groups_of_three s = true -> P s.
Proof.
  intros H0 Hstep s.
  assert (H : forall n s, (List.length s <= n)%nat ->
                          groups_of_three s = true -> P s).
  { clear s. induction n as [| n IH]; intros s Hlen Hg.
    - destruct s; [exact H0 | cbn in Hlen; lia].
    - destruct s as [| sep [| d1 [| d2 [| d3 s]]]];
        try exact H0; try discriminate Hg.
      cbn [groups_of_three] in Hg. to_props.
      apply Hstep; try assumption. apply IH; [| assumption].
      cbn [List.length] in Hlen. lia. }
  apply (H (List.length s)). lia.
Qed.

Lemma groups_of_three_chars (s : pystr) :
  groups_of_three s = true ->
  Forall (fun c => (is_ascii_digit c || dot_or_space c)%bool = true) s.
Proof.
  apply groups_of_three_ind; [constructor |].
  intros sep d1 d2 d3 s' Hs H1 H2 H3 _ IH.
  repeat constructor; try exact IH;
    rewrite ?Hs, ?H1, ?H2, ?H3, ?orb_true_r; reflexivity.
Qed.

Lemma groups_of_three_last (s : pystr) :
  groups_of_three s = true ->
  s = [] \/ exists s0 z, s = (s0 ++ [z])%list /\ is_ascii_digit z = true.
Proof.
  intros H. pattern s. apply groups_of_three_ind; [now left | | exact H].
  clear s H.
  intros sep d1 d2 d3 s' _ _ _ H3 _ [-> | [s0 [z [-> Hz]]]]; right.
  - exists [sep; d1; d2], d3. split; [reflexivity | exact H3].
  - exists (sep :: d1 :: d2 :: d3 :: s0), z. split; [reflexivity | exact Hz].
Qed.

Lemma digit_not_space (c : pychar) :
  is_ascii_digit c = true -> is_space c = false.
Proof.
  intros H. destruct (is_space c) eqn:E; [| reflexivity].
  apply space_not_ascii_digit in E. congruence.
Qed.

Lemma re_search_sep3_app_r (a b : pystr) :
  re_search_sep3 b = true -> re_search_sep3 (a ++ b) = true.
Proof.
  intros H. induction a as [| c a IH]; [exact H |].
  cbn [app re_search_sep3]. rewrite IH. apply orb_true_r.
Qed.

(** The characters of a whole number, and its two ends. *)
Lemma whole_number_shape (num : pystr) :
  whole_number num = true ->
  exists ds r,
    num = (ds ++ r)%list /\ ds <> [] /\
    Forall (fun c => is_ascii_digit c = true) ds /\
    groups_of_three r = true /\
    Forall (fun c => price_char c = true) num /\
    lstrip num = num /\ lstrip (List.rev num) = List.rev num.
Proof.
  unfold whole_number. destruct (span_digits num) as [ds r] eqn:E.
  destruct (span_digits_spec num ds r E) as [-> Hds].
  destruct ds as [| d ds]; [discriminate |]. intros Hg.
  exists (d :: ds), r. repeat split; try assumption; try discriminate.
  - apply Forall_app. split.
    + eapply Forall_impl; [| exact Hds]. intros c Hc. unfold price_char.
      now rewrite Hc.
    + eapply Forall_impl; [| exact (groups_of_three_chars r Hg)].
      intros c Hc. unfold price_char. unfold dot_or_space in Hc.
      destruct (is_ascii_digit c); [reflexivity |].
      cbn [orb] in *. apply orb_true_iff in Hc. destruct Hc as [-> | ->];
        [reflexivity | apply orb_true_r].
  - cbn [app]. apply lstrip_no_space. apply digit_not_space.
    now inversion Hds.
  - assert (Hlast : exists s0 z, (d :: ds ++ r)%list = (s0 ++ [z])%list /\
                                 is_ascii_digit z = true).
    { destruct (groups_of_three_last r Hg) as [-> | [s0 [z [-> Hz]]]].
      - rewrite app_nil_r.
        destruct (@exists_last _ (d :: ds)) as [s0 [z Hz]]; [discriminate |].
        exists s0, z. split; [exact Hz |].
        rewrite Hz in Hds. apply Forall_app in Hds. destruct Hds as [_ Hds].
        now inversion Hds.
      - exists (d :: ds ++ s0)%list, z. split; [| exact Hz].
        cbn [app]. now rewrite <- app_assoc. }
    destruct Hlast as [s0 [z [Hs Hz]]]. cbn [app]. rewrite Hs.
    rewrite rev_app_distr. cbn [List.rev app].
    apply lstrip_no_space. now apply digit_not_space.
Qed.

Lemma digit_not_nbsp (s : pystr) :
  Forall (fun c => is_ascii_digit c = true) s ->
  replace_char ch_nbsp ch_space s = s.
Proof.
  intros H. apply replace_char_absent. apply digits_no; [reflexivity | exact H].
Qed.

(** Without the points and blanks, the cleaned form of a whole number is
    its digits. *)
Lemma whole_digits (s X : pystr) :
  Forall (fun c => (is_ascii_digit c || dot_or_space c)%bool = true) s ->
  X = [] \/ X = [ch_space] \/ X = [ch_space; ch_dot] ->
  List.filter (fun c => negb (dot_or_space c))
    (replace_char ch_nbsp ch_space s ++ X)
  = List.filter is_ascii_digit s.
Proof.
  intros Hs HX. rewrite filter_app.
  replace (List.filter (fun c => negb (dot_or_space c)) X) with (@nil pychar)
    by (destruct HX as [-> | [-> | ->]]; reflexivity).
  rewrite app_nil_r. unfold replace_char.
  induction Hs as [| c s Hc _ IH]; [reflexivity |].
  cbn [List.map List.filter]. rewrite IH.
  destruct (is_ascii_digit c) eqn:Ed.
  - rewrite (replace_nbsp_keeps c (digit_not_space c Ed)).
    now rewrite (digit_not_sep c Ed).
  - cbn [orb] in Hc.
    replace (dot_or_space (if N.eqb c ch_nbsp then ch_space else c)) with true;
      [reflexivity |].
    destruct (N.eqb c ch_nbsp); [reflexivity | now rewrite Hc].
Qed.

Lemma digits_filter_id (ds : pystr) :
  Forall (fun c => is_ascii_digit c = true) ds ->
  List.filter is_ascii_digit ds = ds.
Proof. apply filter_all. Qed.

Lemma digits_nonempty (ds r : pystr) :
  ds <> [] -> Forall (fun c => is_ascii_digit c = true) ds ->
  List.filter is_ascii_digit (ds ++ r) <> [].
Proof.
  intros Hne Hds. rewrite filter_app, (digits_filter_id ds Hds).
  destruct ds; [congruence | discriminate].
Qed.

Lemma float_or_none_digits (D : pystr) :
  Forall (fun c => is_ascii_digit c = true) D -> D <> [] ->
  digits_value D 0 < 2 ^ 53 ->
  float_or_none D = Ret (Some (flt (digits_value D 0) 0)).
Proof.
  intros HD Hne Hv. unfold float_or_none.
  rewrite (py_float_digits D HD Hne). cbn [bind try_except].
  rewrite float_of_whole; [reflexivity |].
  split; [apply digits_value_nonneg; [exact HD | lia] | exact Hv].
Qed.

Lemma re_search_sep3_plain (ds X : pystr) :
  Forall (fun c => is_ascii_digit c = true) ds ->
  X = [] \/ X = [ch_space] \/ X = [ch_space; ch_dot] ->
  re_search_sep3 (ds ++ X) = false.
Proof.
  intros Hds HX. induction Hds as [| c ds Hc _ IH].
  - destruct HX as [-> | [-> | ->]]; reflexivity.
  - cbn [app re_search_sep3]. now rewrite (digit_not_sep c Hc), IH.
Qed.

Lemma decimal_sep_of_plain (ds X : pystr) :
  Forall (fun c => is_ascii_digit c = true) ds ->
  X = [] \/ X = [ch_space] \/ X = [ch_space; ch_dot] ->
  decimal_sep_of (ds ++ X) = None.
Proof.
  intros Hds HX. unfold decimal_sep_of, rfind.
  assert (Hc : ~ In ch_comma (ds ++ X)).
  { intros Hin. apply in_app_or in Hin. destruct Hin as [Hin | Hin].
    - revert Hin. apply digits_no; [reflexivity | exact Hds].
    - destruct HX as [-> | [-> | ->]]; cbn in Hin; intuition discriminate. }
  rewrite (rfind_from_absent ch_comma _ Hc).
  destruct HX as [-> | [-> | ->]].
  - rewrite rfind_from_absent; [reflexivity |]. rewrite app_nil_r.
    apply digits_no; [reflexivity | exact Hds].
  - rewrite rfind_from_absent; [reflexivity |].
    intros Hin. apply in_app_or in Hin. destruct Hin as [Hin | [Hin | []]];
      [| discriminate Hin].
    revert Hin. apply digits_no; [reflexivity | exact Hds].
  - replace (ds ++ [ch_space; ch_dot])%list
      with ((ds ++ [ch_space]) ++ ch_dot :: [])%list
      by (rewrite <- app_assoc; reflexivity).
    rewrite rfind_from_last by (intros []).
    unfold len. rewrite !length_app. cbn [List.length].
    replace ((0 + Z.of_nat (List.length ds + 1) =? -1)) with false
      by (symmetry; apply Z.eqb_neq; lia).
    cbn [andb].
    replace (-1 <? 0 + Z.of_nat (List.length ds + 1)) with true
      by (symmetry; apply Z.ltb_lt; lia).
    replace (Z.of_nat (List.length ds + 1 + 1) - (0 + Z.of_nat (List.length ds + 1)) - 1)
      with 0 by lia.
    reflexivity.
Qed.

Lemma plain_digits_kept (ds X : pystr) :
  Forall (fun c => is_ascii_digit c = true) ds ->
  X = [] \/ X = [ch_space] \/ X = [ch_space; ch_dot] ->
  List.filter
    (fun c => negb (is_space c || N.eqb c ch_dot || N.eqb c ch_comma)) (ds ++ X)
  = ds.
Proof.
  intros Hds HX. rewrite filter_app.
  replace (List.filter _ X) with (@nil pychar)
    by (destruct HX as [-> | [-> | ->]]; reflexivity).
  rewrite app_nil_r. apply filter_all.
  eapply Forall_impl; [| exact Hds]. intros c Hc.
  destruct (digit_or_dot_facts c) as [Hs [_ [_ [_ [Hcm _]]]]].
  { unfold digit_or_dot. now rewrite Hc. }
  rewrite Hs. apply ascii_digit_range in Hc.
  replace (N.eqb c ch_dot) with false
    by (symmetry; apply N.eqb_neq; unfold ch_dot; apply N.neq_sym, N.lt_neq; lia).
  replace (N.eqb c ch_comma) with false
    by (symmetry; apply N.eqb_neq; exact Hcm).
  reflexivity.
Qed.

(** A whole number, with or without a currency token after it, is read
    as the float of its digits. *)
Lemma normalize_price_whole_number (num sfx : pystr) :
  whole_number num = true -> currency_suffix sfx = true ->
  normalize_price (PyStr (num ++ sfx)) =
  float_or_none (List.filter is_ascii_digit num) /\
  Forall (fun c => is_ascii_digit c = true) (List.filter is_ascii_digit num) /\
  List.filter is_ascii_digit num <> [].
Proof.
  intros Hw Hsfx.
  destruct (whole_number_shape num Hw)
    as [ds [r [Hnum [Hne [Hds [Hg [Hch [Hl Hr]]]]]]]].
  assert (Hnn : num <> []) by (rewrite Hnum; destruct ds; [congruence | discriminate]).
  destruct (cleaned_of_price num sfx Hch Hnn Hl Hr Hsfx) as [X [Hcl HX]].
  assert (Hall : Forall (fun c => is_ascii_digit c = true)
                   (List.filter is_ascii_digit num)).
  { apply Forall_forall. intros c Hc. apply filter_In in Hc. apply Hc. }
  assert (Hdn : List.filter is_ascii_digit num <> [])
    by (rewrite Hnum; now apply digits_nonempty).
  split; [| split; assumption].
  rewrite normalize_price_unfold.
  2:{ rewrite Hcl. unfold replace_char. destruct num; [congruence | discriminate]. }
  cbv zeta. rewrite Hcl.
  assert (Hsep : Forall (fun c => (is_ascii_digit c || dot_or_space c)%bool = true) num).
  { rewrite Hnum. apply Forall_app. split.
    - eapply Forall_impl; [| exact Hds]. intros c Hc. now rewrite Hc.
    - now apply groups_of_three_chars. }
  destruct r as [| sep [| d1 [| d2 [| d3 r']]]]; try discriminate Hg.
  - rewrite app_nil_r in Hnum. subst num.
    rewrite (digit_not_nbsp ds Hds).
    rewrite (re_search_sep3_plain ds X Hds HX).
    rewrite (decimal_sep_of_plain ds X Hds HX).
    rewrite (plain_digits_kept ds X Hds HX).
    now rewrite (digits_filter_id ds Hds).
  - cbn [groups_of_three] in Hg. to_props.
    replace (re_search_sep3 (replace_char ch_nbsp ch_space num ++ X)) with true.
    + rewrite (whole_digits num X Hsep HX).
      rewrite replace_char_absent
        by (apply digits_no; [reflexivity | exact Hall]).
      rewrite digits_and_dots_id; [reflexivity |].
      eapply Forall_impl; [| exact Hall]. intros c Hc. unfold digit_or_dot.
      now rewrite Hc.
    + symmetry. rewrite Hnum, replace_char_app, <- app_assoc.
      apply re_search_sep3_app_r.
      unfold replace_char. cbn [List.map app re_search_sep3 three_decimals].
      rewrite (replace_nbsp_keeps d1), (replace_nbsp_keeps d2),
        (replace_nbsp_keeps d3) by (now apply digit_not_space).
      rewrite (ascii_digit_is_decimal d1), (ascii_digit_is_decimal d2),
        (ascii_digit_is_decimal d3) by assumption.
      replace (dot_or_space (if N.eqb sep ch_nbsp then ch_space else sep)) with true;
        [reflexivity |].
      destruct (N.eqb sep ch_nbsp); [reflexivity | now symmetry].
Qed.

(** X17: A listing's whole-number price below [2^53] is read exactly: digits,
    or digits in groups of three after points or blanks, alone or with
    [kr], [kr.] or [DKK] after a blank. *)
Theorem normalize_price_whole (num sfx : pystr) :
  whole_number num = true -> currency_suffix sfx = true ->
  whole_value num < 2 ^ 53 ->
  normalize_price (PyStr (num ++ sfx)) = Ret (Some (flt (whole_value num) 0)).
Proof.
  intros Hw Hsfx Hv.
  destruct (normalize_price_whole_number num sfx Hw Hsfx) as [-> [HD Hne]].
  now apply float_or_none_digits.
Qed.

Lemma normalize_price_whole_witness :
  normalize_price (PyStr (py "1.234.567" ++ py " Kr.")) =
  Ret (Some (flt (whole_value (py "1.234.567")) 0)).
Proof.
  apply (normalize_price_whole (py "1.234.567") (py " Kr."));
    [reflexivity | reflexivity | vm_compute; reflexivity].
Defined.

(** ** From the texts to the filter's verdict *)

Lemma pos_odd_part_spec (p : positive) :
  0 <= snd (pos_odd_part p) /\
  Z.pos p = Z.pos (fst (pos_odd_part p)) * 2 ^ snd (pos_odd_part p).
Proof.
  induction p as [p IH | p IH |]; cbn [pos_odd_part fst snd];
    try (split; [lia | rewrite Z.pow_0_r; lia]).
  destruct (pos_odd_part p) as [q k]. cbn [fst snd] in *.
  destruct IH as [Hk Hp]. split; [lia |].
  rewrite Z.pow_add_r, Z.pow_1_r by lia.
  change (Z.pos p~0) with (2 * Z.pos p). rewrite Hp. ring.
Qed.

Lemma normalise_spec (m : Z) :
  0 <= m ->
  0 <= snd (normalise m 0) /\
  fst (normalise m 0) * 2 ^ snd (normalise m 0) = m.
Proof.
  intros Hm. unfold normalise. destruct m as [| p | p]; try lia.
  - cbn [fst snd]. split; [lia | reflexivity].
  - pose proof (pos_odd_part_spec p) as [Hk Hp].
    destruct (pos_odd_part p) as [q k]. cbn [fst snd] in *.
    split; [lia |]. now symmetry.
Qed.

(** Whole floats compare as the integers they hold. *)
Lemma flt_leb (a b : Z) :
  0 <= a -> 0 <= b -> float_leb (flt a 0) (flt b 0) = (a <=? b).
Proof.
  intros Ha Hb. unfold flt. rewrite !Z.abs_eq by assumption.
  destruct (normalise_spec a Ha) as [Ha1 Ha2].
  destruct (normalise_spec b Hb) as [Hb1 Hb2].
  destruct (normalise a 0) as [m1 e1], (normalise b 0) as [m2 e2].
  cbn [fst snd] in *.
  replace (a <? 0) with false by (symmetry; apply Z.ltb_ge; lia).
  replace (b <? 0) with false by (symmetry; apply Z.ltb_ge; lia).
  rewrite (float_leb_common false false m1 m2 e1 e2 0) by assumption.
  cbn [signed]. now rewrite !Z.sub_0_r, Ha2, Hb2.
Qed.

Lemma whole_value_nonneg (num : pystr) : 0 <= whole_value num.
Proof.
  unfold whole_value. apply digits_value_nonneg; [| lia].
  apply Forall_forall. intros c Hc. apply filter_In in Hc. apply Hc.
Qed.

Lemma whole_price_reads (num sfx : pystr) :
  whole_price num sfx = true ->
  normalize_price (PyStr (num ++ sfx)) = Ret (Some (flt (whole_value num) 0)).
Proof.
  unfold whole_price. intros H. to_props. apply Z.ltb_lt in H0.
  destruct (normalize_price_whole_number num sfx H H1) as [-> [HD Hne]].
  now apply float_or_none_digits.
Qed.

(** X18: From the text of a listing's price and of the two bounds to the
    filter's verdict: with whole numbers below [2^53] everywhere, the
    listing stays exactly when its number lies between the bounds. *)
Theorem whole_price_in_range (p ps lo los hi his : pystr) (it : item) :
  whole_price p ps = true ->
  whole_price lo los = true ->
  whole_price hi his = true ->
  normalize_price (PyStr (p ++ ps)) = Ret (price_num it) ->
  exists l h,
    _parse_price_arg (PyStr (lo ++ los)) = Ret (Some l) /\
    _parse_price_arg (PyStr (hi ++ his)) = Ret (Some h) /\
    in_range (Some l) (Some h) it =
    ((whole_value lo <=? whole_value p) && (whole_value p <=? whole_value hi))%bool.
Proof.
  intros Hp Hlo Hhi Hit.
  rewrite (whole_price_reads p ps Hp) in Hit. injection Hit as Hit.
  exists (flt (whole_value lo) 0), (flt (whole_value hi) 0).
  unfold _parse_price_arg.
  rewrite (whole_price_reads lo los Hlo), (whole_price_reads hi his Hhi).
  cbn [bind]. repeat split.
  unfold in_range. rewrite <- Hit.
  pose proof (whole_value_nonneg p) as H1.
  pose proof (whole_value_nonneg lo) as H2.
  pose proof (whole_value_nonneg hi) as H3.
  rewrite <- (flt_leb (whole_value lo) (whole_value p)) by assumption.
  rewrite <- (flt_leb (whole_value p) (whole_value hi)) by assumption.
  rewrite !float_leb_ltb.
  destruct (float_ltb (flt (whole_value p) 0) (flt (whole_value lo) 0));
    destruct (float_ltb (flt (whole_value hi) 0) (flt (whole_value p) 0));
    reflexivity.
Qed.

Lemma whole_price_in_range_witness :
  exists l h,
    _parse_price_arg (PyStr (py "500" ++ [])) = Ret (Some l) /\
    _parse_price_arg (PyStr (py "3.000" ++ [])) = Ret (Some h) /\
    in_range (Some l) (Some h) (sample_item (Some (flt 1234 0))) =
    ((whole_value (py "500") <=? whole_value (py "1.234"))
     && (whole_value (py "1.234") <=? whole_value (py "3.000")))%bool.
Proof.
  apply (whole_price_in_range (py "1.234") (py " kr.") (py "500") []
           (py "3.000") [] (sample_item (Some (flt 1234 0))));
    vm_compute; reflexivity.
Defined.

(** ** From the extracted string to its number *)

Lemma count_filter_le (f : pychar -> bool) (x : pychar) (s : pystr) :
  (count_occ N.eq_dec (List.filter f s) x <= count_occ N.eq_dec s x)%nat.
Proof.
  induction s as [| c s IH]; [cbn; lia |].
  cbn [List.filter]. destruct (f c); cbn [count_occ];
    destruct (N.eq_dec c x); lia.
Qed.

Lemma count_replace_other (a b x : pychar) (s : pystr) :
  x <> a -> x <> b ->
  count_occ N.eq_dec (replace_char a b s) x = count_occ N.eq_dec s x.
Proof.
  intros Ha Hb. unfold replace_char. induction s as [| c s IH]; [reflexivity |].
  cbn [List.map count_occ]. rewrite IH.
  destruct (N.eqb c a) eqn:E.
  - apply N.eqb_eq in E. subst c.
    destruct (N.eq_dec b x), (N.eq_dec a x); congruence.
  - reflexivity.
Qed.

Lemma count_comma_to_dot (s : pystr) :
  count_occ N.eq_dec
    (replace_char ch_comma ch_dot
       (List.filter (fun c => negb (dot_or_space c)) s)) ch_dot
  = count_occ N.eq_dec s ch_comma.
Proof.
  unfold replace_char. induction s as [| c s IH]; [reflexivity |].
  cbn [List.filter]. destruct (dot_or_space c) eqn:E; cbn [negb].
  - rewrite count_occ_cons_neq; [exact IH |].
    intros ->. discriminate E.
  - cbn [List.map]. destruct (N.eqb c ch_comma) eqn:Ec.
    + apply N.eqb_eq in Ec. subst c.
      rewrite !count_occ_cons_eq by reflexivity. f_equal. exact IH.
    + apply N.eqb_neq in Ec.
      rewrite !count_occ_cons_neq; [exact IH | exact Ec |].
      intros ->. discriminate E.
Qed.

Lemma exists_digit_filter (f : pychar -> bool) (s : pystr) :
  (forall c, is_ascii_digit c = true -> f c = true) ->
  Exists (fun c => is_ascii_digit c = true) s ->
  Exists (fun c => is_ascii_digit c = true) (List.filter f s).
Proof.
  intros Hf H. apply Exists_exists in H. destruct H as [c [Hin Hc]].
  apply Exists_exists. exists c. split; [| exact Hc].
  apply filter_In. split; [exact Hin | now apply Hf].
Qed.

Lemma exists_digit_replace (a b : pychar) (s : pystr) :
  is_ascii_digit a = false ->
  Exists (fun c => is_ascii_digit c = true) s ->
  Exists (fun c => is_ascii_digit c = true) (replace_char a b s).
Proof.
  intros Ha H. apply Exists_exists in H. destruct H as [c [Hin Hc]].
  apply Exists_exists. exists c. split; [| exact Hc].
  unfold replace_char. apply in_map_iff. exists c. split; [| exact Hin].
  destruct (N.eqb c a) eqn:E; [| reflexivity].
  apply N.eqb_eq in E. subst c. congruence.
Qed.

Lemma float_or_none_reads (K : pystr) :
  Forall (fun c => digit_or_dot c = true) K ->
  (count_occ N.eq_dec K ch_dot <= 1)%nat ->
  Exists (fun c => is_ascii_digit c = true) K ->
  exists v, float_or_none K = Ret (Some v).
Proof.
  intros H1 H2 H3. destruct (py_float_reads K H1 H2 H3) as [v Hv].
  exists v. unfold float_or_none. now rewrite Hv.
Qed.

(** [normalize_price] returns a number when the cleaned form has a digit,
    at most one comma and, unless a group of three digits follows a point
    or a blank, at most one point. *)
Lemma normalize_price_reads (p : pystr) :
  Exists (fun c => is_ascii_digit c = true) (cleaned_of p) ->
  (count_occ N.eq_dec (cleaned_of p) ch_comma <= 1)%nat ->
  re_search_sep3 (cleaned_of p) = true \/
  (count_occ N.eq_dec (cleaned_of p) ch_dot <= 1)%nat ->
  exists v, normalize_price (PyStr p) = Ret (Some v).
Proof.
  intros Hd Hc Hr. pose proof (cleaned_of_chars p) as Hch.
  rewrite normalize_price_unfold by (intros E; rewrite E in Hd; inversion Hd).
  cbv zeta. set (c := cleaned_of p) in *.
  assert (K1 : exists v,
             float_or_none
               (digits_and_dots
                  (replace_char ch_comma ch_dot
                     (List.filter (fun c => negb (dot_or_space c)) c)))
             = Ret (Some v)).
  { rewrite digits_and_dots_id by (apply comma_to_dot_chars; exact Hch).
    apply float_or_none_reads.
    - apply comma_to_dot_chars; exact Hch.
    - now rewrite count_comma_to_dot.
    - apply exists_digit_replace; [reflexivity |].
      apply exists_digit_filter; [| exact Hd].
      intros x Hx. now rewrite (digit_not_sep x Hx). }
  destruct (re_search_sep3 c) eqn:Ere; [exact K1 |].
  destruct Hr as [Hr | Hr]; [discriminate Hr |].
  destruct (decimal_sep_of c) as [sep |].
  - destruct (N.eqb sep ch_dot); [| exact K1].
    rewrite digits_and_dots_id by (apply keep_dot_chars; exact Hch).
    apply float_or_none_reads.
    + apply keep_dot_chars; exact Hch.
    + eapply Nat.le_trans; [apply count_filter_le | exact Hr].
    + apply exists_digit_filter; [| exact Hd].
      intros x Hx. rewrite (digit_not_space x Hx).
      destruct (digit_or_dot_facts x) as [_ [_ [_ [_ [Hcm _]]]]].
      { unfold digit_or_dot. now rewrite Hx. }
      apply N.eqb_neq in Hcm. now rewrite Hcm.
  - apply float_or_none_reads.
    + apply keep_digit_chars; exact Hch.
    + match goal with
      | |- (count_occ _ ?l _ <= 1)%nat =>
          assert (E0 : count_occ N.eq_dec l ch_dot = 0%nat)
      end.
      { apply count_occ_not_In. intros Hin. apply filter_In in Hin.
        destruct Hin as [_ Hf].
        rewrite N.eqb_refl, orb_true_r in Hf. discriminate Hf. }
      rewrite E0. lia.
    + apply exists_digit_filter; [| exact Hd].
      intros x Hx. rewrite (digit_not_space x Hx).
      destruct (digit_or_dot_facts x) as [_ [_ [_ [_ [Hcm _]]]]].
      { unfold digit_or_dot. now rewrite Hx. }
      apply N.eqb_neq in Hcm. rewrite Hcm.
      apply ascii_digit_range in Hx.
      replace (N.eqb x ch_dot) with false; [reflexivity |].
      symmetry. apply N.eqb_neq. unfold ch_dot. apply N.neq_sym, N.lt_neq. lia.
Qed.

Lemma search_price_at (t : pystr) (m : pymatch) :
  search_price t = Some m ->
  exists pre s, t = (pre ++ s)%list /\ match_price_at s = Some m.
Proof.
  induction t as [| c t IH]; [discriminate |].
  cbn [search_price]. destruct (match_price_at (c :: t)) as [m' |] eqn:E.
  - intros H. injection H as <-. exists [], (c :: t). split; [reflexivity | exact E].
  - intros H. destruct (IH H) as [pre [s [-> Hs]]].
    exists (c :: pre), s. split; [reflexivity | exact Hs].
Qed.

Lemma ascii_decimals_only_In (s : pystr) (c : pychar) :
  ascii_decimals_only s = true -> In c s -> is_decimal c = true ->
  is_ascii_digit c = true.
Proof.
  unfold ascii_decimals_only. intros H Hin Hd.
  rewrite forallb_forall in H. specialize (H c Hin). now rewrite Hd in H.
Qed.

Lemma ascii_decimals_only_app (a b : pystr) :
  ascii_decimals_only (a ++ b) = true ->
  ascii_decimals_only a = true /\ ascii_decimals_only b = true.
Proof.
  unfold ascii_decimals_only. rewrite forallb_app. apply andb_true_iff.
Qed.

Lemma take_decimals_ascii (n : nat) (s ds r : pystr) :
  take_decimals n s = (ds, r) -> ascii_decimals_only s = true ->
  Forall (fun c => is_ascii_digit c = true) ds.
Proof.
  intros H Ha. destruct (take_decimals_split n s ds r H) as [-> Hd].
  apply ascii_decimals_only_app in Ha. destruct Ha as [Ha _].
  apply Forall_forall. intros c Hc. rewrite Forall_forall in Hd.
  apply (ascii_decimals_only_In ds c Ha Hc). now apply Hd.
Qed.

Lemma take_groups_ascii_len (n : nat) :
  forall s g r, (List.length s <= n)%nat -> take_groups s = (g, r) ->
                ascii_decimals_only s = true -> groups_of_three g = true.
Proof.
  induction n as [| n IH]; intros s g r Hlen H Ha.
  - destruct s; [| cbn in Hlen; lia]. injection H as <- <-. reflexivity.
  - destruct s as [| c [| d1 [| d2 [| d3 s]]]];
      try (injection H as <- <-; reflexivity).
    cbn [take_groups] in H.
    destruct (dot_or_space c && is_decimal d1 && is_decimal d2 && is_decimal d3)%bool
      eqn:E.
    + destruct (take_groups s) as [g' r'] eqn:E'. injection H as <- <-.
      apply andb_true_iff in E. destruct E as [E Hd3].
      apply andb_true_iff in E. destruct E as [E Hd2].
      apply andb_true_iff in E. destruct E as [Hc Hd1].
      apply (ascii_decimals_only_In _ d1 Ha) in Hd1; [| cbn; auto].
      apply (ascii_decimals_only_In _ d2 Ha) in Hd2; [| cbn; auto].
      apply (ascii_decimals_only_In _ d3 Ha) in Hd3; [| cbn; auto].
      cbn [groups_of_three]. rewrite Hc, Hd1, Hd2, Hd3.
      cbn [andb]. apply (IH s g' r'); [cbn [List.length] in Hlen; lia | exact E' |].
      change (c :: d1 :: d2 :: d3 :: s) with ([c; d1; d2; d3] ++ s)%list in Ha.
      now apply ascii_decimals_only_app in Ha.
    + injection H as <- <-. reflexivity.
Qed.

Lemma take_groups_ascii (s g r : pystr) :
  take_groups s = (g, r) -> ascii_decimals_only s = true ->
  groups_of_three g = true.
Proof. apply (take_groups_ascii_len (List.length s)). lia. Qed.

Lemma take_fraction_ascii (s f r : pystr) :
  take_fraction s = (f, r) -> ascii_decimals_only s = true ->
  f = [] \/
  exists fs, f = ch_comma :: fs /\ fs <> [] /\
             Forall (fun c => is_ascii_digit c = true) fs.
Proof.
  unfold take_fraction. destruct s as [| c s]; [intros H; injection H as <- <-; now left |].
  destruct (N.eqb c ch_comma) eqn:Ec; [| intros H; injection H as <- <-; now left].
  apply N.eqb_eq in Ec. subst c.
  destruct (take_decimals 2 s) as [ds r'] eqn:E. intros H Ha.
  destruct ds as [| d ds]; injection H as <- <-; [now left | right].
  exists (d :: ds). split; [reflexivity |]. split; [discriminate |].
  apply (take_decimals_ascii 2 s (d :: ds) r' E).
  change (ch_comma :: s) with ([ch_comma] ++ s)%list in Ha.
  now apply ascii_decimals_only_app in Ha.
Qed.

(** In ASCII digits the number of a match is a whole number and, maybe,
    a comma and one or two digits. *)
Lemma match_price_at_parts (s : pystr) (m : pymatch) :
  match_price_at s = Some m -> ascii_decimals_only s = true ->
  exists W fr,
    group1 m = (W ++ fr)%list /\ whole_number W = true /\
    (fr = [] \/
     exists fs, fr = ch_comma :: fs /\ fs <> [] /\
                Forall (fun c => is_ascii_digit c = true) fs).
Proof.
  unfold match_price_at. intros H Ha.
  destruct (take_decimals 3 s) as [ds r1] eqn:E1.
  pose proof (take_decimals_ascii 3 s ds r1 E1 Ha) as Hds.
  destruct (take_decimals_split 3 s ds r1 E1) as [Hs _].
  destruct ds as [| d ds]; [discriminate |].
  destruct (take_groups r1) as [gs r2] eqn:E2.
  destruct (take_fraction r2) as [fr r3] eqn:E3.
  injection H as <-. cbn [group1].
  rewrite Hs in Ha. apply ascii_decimals_only_app in Ha. destruct Ha as [_ Ha1].
  pose proof (take_groups_ascii r1 gs r2 E2 Ha1) as Hg.
  rewrite (take_groups_split r1 gs r2 E2) in Ha1.
  apply ascii_decimals_only_app in Ha1. destruct Ha1 as [_ Ha2].
  exists ((d :: ds) ++ gs)%list, fr. split; [now rewrite app_assoc |]. split.
  - unfold whole_number. rewrite span_digits_app; [exact Hg | exact Hds |].
    intros c r' ->.
    destruct r' as [| d1 [| d2 [| d3 r']]]; try discriminate Hg.
    cbn [groups_of_three] in Hg. to_props.
    destruct (is_ascii_digit c) eqn:Ec; [| reflexivity].
    apply digit_not_sep in Ec. congruence.
  - exact (take_fraction_ascii r2 fr r3 E3 Ha2).
Qed.

Lemma count_digits_none (x : pychar) (s : pystr) :
  is_ascii_digit x = false ->
  Forall (fun c => is_ascii_digit c = true) s ->
  count_occ N.eq_dec s x = 0%nat.
Proof.
  intros Hx Hs. apply count_occ_not_In. now apply digits_no.
Qed.

Lemma count_groups_comma (s : pystr) :
  Forall (fun c => (is_ascii_digit c || dot_or_space c)%bool = true) s ->
  count_occ N.eq_dec s ch_comma = 0%nat.
Proof.
  intros H. apply count_occ_not_In. intros Hin.
  rewrite Forall_forall in H. specialize (H _ Hin). discriminate H.
Qed.

Lemma extracted_price_reads (t r : pystr) :
  ascii_decimals_only t = true ->
  extract_price_string (PyStr t) = Ret r -> r <> [] ->
  exists v, normalize_price (PyStr r) = Ret (Some v).
Proof.
  intros Ha Hr Hne. destruct (search_price t) as [m |] eqn:E.
  2:{ rewrite (extract_price_string_not_found t E) in Hr.
      injection Hr as <-. congruence. }
  destruct (extract_price_string_found t m E) as [cur [Hr' Hcur]].
  rewrite Hr in Hr'. injection Hr' as ->.
  destruct (search_price_at t m E) as [pre [s [-> Hm]]].
  apply ascii_decimals_only_app in Ha. destruct Ha as [_ Ha].
  destruct (match_price_at_parts s m Hm Ha) as [W [fr [Hg [Hw Hfr]]]].
  assert (Hsfx : currency_suffix (ch_space :: cur) = true)
    by (cbn [currency_suffix]; now rewrite N.eqb_refl, Hcur).
  rewrite Hg. destruct Hfr as [-> | [fs [-> [Hfs Hdig]]]].
  - rewrite app_nil_r.
    destruct (normalize_price_whole_number W _ Hw Hsfx) as [-> [HD HDn]].
    unfold float_or_none. rewrite (py_float_digits _ HD HDn).
    eexists. reflexivity.
  - destruct (whole_number_shape W Hw)
      as [ds [gs [HW [Hdn [Hds [Hgs [Hch [Hl Hrv]]]]]]]].
    assert (Hsep : Forall (fun c => (is_ascii_digit c || dot_or_space c)%bool = true) W).
    { rewrite HW. apply Forall_app. split.
      - eapply Forall_impl; [| exact Hds]. intros c Hc. now rewrite Hc.
      - now apply groups_of_three_chars. }
    set (num := (W ++ ch_comma :: fs)%list).
    assert (Hnum_ch : Forall (fun c => price_char c = true) num).
    { apply Forall_app. split; [exact Hch |]. constructor; [reflexivity |].
      eapply Forall_impl; [| exact Hdig]. intros c Hc. unfold price_char.
      now rewrite Hc. }
    assert (Hnn : num <> []) by (unfold num; destruct W; discriminate).
    assert (Hnl : lstrip num = num).
    { unfold num. destruct W as [| d W']; [rewrite HW in *; destruct ds; [congruence | discriminate] |].
      apply lstrip_fixed in Hl. cbn [app]. now apply lstrip_no_space. }
    assert (Hnr : lstrip (List.rev num) = List.rev num).
    { unfold num. destruct (exists_last Hfs) as [fs0 [z Hz]].
      rewrite Hz in *. apply Forall_app in Hdig. destruct Hdig as [_ Hz'].
      replace (W ++ ch_comma :: fs0 ++ [z])%list
        with ((W ++ ch_comma :: fs0) ++ [z])%list
        by (rewrite <- app_assoc; reflexivity).
      rewrite rev_app_distr. cbn [List.rev app].
      apply lstrip_no_space. apply digit_not_space. now inversion Hz'. }
    destruct (cleaned_of_price num _ Hnum_ch Hnn Hnl Hnr Hsfx) as [X [Hcl HX]].
    apply normalize_price_reads; rewrite Hcl.
    + apply Exists_app. left. apply exists_digit_replace; [reflexivity |].
      unfold num. rewrite HW. destruct ds as [| d ds']; [congruence |].
      apply Exists_cons_hd. now inversion Hds.
    + rewrite count_occ_app, count_replace_other by discriminate.
      unfold num. rewrite count_occ_app, count_occ_cons_eq by reflexivity.
      unfold pychar. rewrite (count_groups_comma W Hsep).
      rewrite (count_digits_none ch_comma fs eq_refl Hdig).
      destruct HX as [-> | [-> | ->]]; cbn; lia.
    + destruct gs as [| sep [| d1 [| d2 [| d3 gs']]]]; try discriminate Hgs.
      * right. rewrite count_occ_app, count_replace_other by discriminate.
        unfold num. rewrite count_occ_app, count_occ_cons_neq by discriminate.
        rewrite HW, app_nil_r. unfold pychar.
        rewrite (count_digits_none ch_dot ds eq_refl Hds).
        rewrite (count_digits_none ch_dot fs eq_refl Hdig).
        destruct HX as [-> | [-> | ->]]; cbn; lia.
      * left. cbn [groups_of_three] in Hgs. to_props.
        unfold num. rewrite HW, !replace_char_app, <- !app_assoc.
        apply re_search_sep3_app_r.
        unfold replace_char at 1. cbn [List.map app re_search_sep3 three_decimals].
        rewrite (replace_nbsp_keeps d1), (replace_nbsp_keeps d2),
          (replace_nbsp_keeps d3) by (now apply digit_not_space).
        rewrite (ascii_digit_is_decimal d1), (ascii_digit_is_decimal d2),
          (ascii_digit_is_decimal d3) by assumption.
        replace (dot_or_space (if N.eqb sep ch_nbsp then ch_space else sep)) with true;
          [reflexivity |].
        destruct (N.eqb sep ch_nbsp); [reflexivity | now symmetry].
Qed.

(** X19: What [extract_price_string] finds in a text whose decimal digits are
    the ASCII ones, [normalize_price] reads as a number. *)
Theorem extracted_price_is_number (t r : pystr) :
  ascii_decimals_only t = true ->
  extract_price_string (PyStr t) = Ret r -> r <> [] ->
  exists v, normalize_price (PyStr r) = Ret (Some v).
Proof. apply extracted_price_reads. Qed.

Lemma extracted_price_is_number_witness :
  exists v, normalize_price (PyStr (py "1.250,50 DKK")) = Ret (Some v).
Proof.
  apply (extracted_price_is_number (py "Pris 1.250,50 dkk i alt") (py "1.250,50 DKK"));
    [reflexivity | vm_compute; reflexivity | discriminate].
Defined.

(** ** The decimal comma *)

Lemma residue_point (c : pychar) (cur : pystr) :
  currency_token cur = true ->
  (point_token (c :: cur) = true /\ residue (c :: cur) = [ch_space; ch_dot]) \/
  (point_token (c :: cur) = false /\
   (residue (c :: cur) = [] \/ residue (c :: cur) = [ch_space])).
Proof.
  assert (Hk : forall c, is_k c = true -> c = 107%N \/ c = 75%N \/ c = 8490%N).
  { intros x H. unfold is_k in H.
    repeat (apply orb_true_iff in H; destruct H as [H | H]);
      apply N.eqb_eq in H; auto. }
  assert (Hr : forall c, is_r c = true -> c = 114%N \/ c = 82%N).
  { intros x H. unfold is_r in H.
    repeat (apply orb_true_iff in H; destruct H as [H | H]);
      apply N.eqb_eq in H; auto. }
  assert (Hd : forall c, is_d c = true -> c = 100%N \/ c = 68%N).
  { intros x H. unfold is_d in H.
    repeat (apply orb_true_iff in H; destruct H as [H | H]);
      apply N.eqb_eq in H; auto. }
  destruct cur as [| a [| b [| d [| x cur]]]]; cbn [currency_token];
    try discriminate; intros H.
  - to_props.
    destruct (Hk a) as [-> | [-> | ->]]; try assumption;
      destruct (Hr b) as [-> | ->]; try assumption;
      vm_compute; auto.
  - apply orb_true_iff in H. destruct H as [H | H]; to_props.
    + subst d.
      destruct (Hk a) as [-> | [-> | ->]]; try assumption;
        destruct (Hr b) as [-> | ->]; try assumption;
        vm_compute; auto.
    + destruct (Hd a) as [-> | ->]; try assumption;
        destruct (Hk b) as [-> | [-> | ->]]; try assumption;
        destruct (Hk d) as [-> | [-> | ->]]; try assumption;
        vm_compute; auto.
Qed.

Lemma py_float_no_sign (s : pystr) :
  (forall c s', s = c :: s' -> c <> ch_minus /\ c <> ch_plus) ->
  py_float s =
  match parse_decimal s with
  | Some (M, p) => Ret (float_of_decimal false M p)
  | None => Raise ValueError
  end.
Proof.
  intros Hhd. unfold py_float. destruct s as [| c s']; [reflexivity |].
  destruct (Hhd c s' eq_refl) as [H1 H2].
  apply N.eqb_neq in H1, H2. now rewrite H1, H2.
Qed.

Lemma py_float_decimal (ip fp : pystr) :
  Forall (fun c => is_ascii_digit c = true) ip ->
  Forall (fun c => is_ascii_digit c = true) fp ->
  (ip ++ fp)%list <> [] ->
  py_float (ip ++ ch_dot :: fp) =
  Ret (float_of_decimal false (digits_value (ip ++ fp) 0) (0 - len fp)).
Proof.
  intros Hip Hfp Hne. rewrite py_float_no_sign.
  - unfold parse_decimal, parse_number.
    rewrite (span_digits_app ip (ch_dot :: fp) Hip)
      by (intros c r' E; injection E as <- _; reflexivity).
    rewrite N.eqb_refl, (span_digits_all fp Hfp).
    destruct (ip ++ fp)%list as [| x xs] eqn:E; [congruence |].
    reflexivity.
  - intros c s' E. destruct ip as [| d ip'].
    + injection E as <- _. split; discriminate.
    + injection E as <- _. inversion Hip as [| ? ? Hc _]; subst.
      apply ascii_digit_range in Hc. unfold ch_minus, ch_plus.
      split; apply N.neq_sym, N.lt_neq; lia.
Qed.

Lemma re_search_sep3_skip (a b : pystr) :
  Forall (fun c => dot_or_space c = false) a ->
  re_search_sep3 (a ++ b) = re_search_sep3 b.
Proof.
  induction 1 as [| c a Hc _ IH]; [reflexivity |].
  cbn [app re_search_sep3]. now rewrite Hc, IH.
Qed.

Lemma decimal_not_sep (ds fp : pystr) :
  Forall (fun c => is_ascii_digit c = true) ds ->
  Forall (fun c => is_ascii_digit c = true) fp ->
  Forall (fun c => dot_or_space c = false) (ds ++ ch_comma :: fp).
Proof.
  intros Hds Hfp. apply Forall_app. split; [| constructor; [reflexivity |]];
    (eapply Forall_impl; [| eassumption]); intros c Hc; now apply digit_not_sep.
Qed.

Lemma len_app (a b : pystr) : len (a ++ b) = len a + len b.
Proof. unfold len. rewrite length_app. lia. Qed.

Lemma len_cons (c : pychar) (a : pystr) : len (c :: a) = 1 + len a.
Proof. unfold len. cbn [List.length]. lia. Qed.

(** The string [float] gets when the comma is taken as the decimal
    separator. *)
Lemma decimal_core (W fp X : pystr) :
  Forall (fun c => (is_ascii_digit c || dot_or_space c)%bool = true) W ->
  Forall (fun c => is_ascii_digit c = true) fp ->
  X = [] \/ X = [ch_space] \/ X = [ch_space; ch_dot] ->
  digits_and_dots
    (replace_char ch_comma ch_dot
       (List.filter (fun c => negb (dot_or_space c))
          (replace_char ch_nbsp ch_space (W ++ ch_comma :: fp) ++ X)))
  = (List.filter is_ascii_digit W ++ ch_dot :: fp)%list.
Proof.
  intros HW Hfp HX.
  assert (HD : Forall (fun c => is_ascii_digit c = true) (List.filter is_ascii_digit W)).
  { apply Forall_forall. intros c Hc. apply filter_In in Hc. apply Hc. }
  rewrite replace_char_app, <- app_assoc, filter_app.
  rewrite <- (app_nil_r (replace_char ch_nbsp ch_space W)).
  rewrite (whole_digits W [] HW) by (now left).
  change (replace_char ch_nbsp ch_space (ch_comma :: fp))
    with (ch_comma :: replace_char ch_nbsp ch_space fp).
  rewrite (digit_not_nbsp fp Hfp). cbn [app List.filter].
  change (negb (dot_or_space ch_comma)) with true. cbv iota.
  rewrite filter_app.
  replace (List.filter (fun c => negb (dot_or_space c)) X) with (@nil pychar)
    by (destruct HX as [-> | [-> | ->]]; reflexivity).
  rewrite app_nil_r.
  rewrite (filter_all (fun c => negb (dot_or_space c)) fp)
    by (eapply Forall_impl; [| exact Hfp]; intros c Hc;
        now rewrite (digit_not_sep c Hc)).
  rewrite replace_char_app.
  rewrite (replace_char_absent ch_comma ch_dot (List.filter is_ascii_digit W))
    by (apply digits_no; [reflexivity | exact HD]).
  change (replace_char ch_comma ch_dot (ch_comma :: fp))
    with (ch_dot :: replace_char ch_comma ch_dot fp).
  rewrite (replace_char_absent ch_comma ch_dot fp)
    by (apply digits_no; [reflexivity | exact Hfp]).
  apply digits_and_dots_id. apply Forall_app. split.
  - eapply Forall_impl; [| exact HD]. intros c Hc. unfold digit_or_dot.
    now rewrite Hc.
  - constructor; [reflexivity |].
    eapply Forall_impl; [| exact Hfp]. intros c Hc. unfold digit_or_dot.
    now rewrite Hc.
Qed.

Lemma decimal_sep_of_comma (ds fp X : pystr) :
  Forall (fun c => is_ascii_digit c = true) ds ->
  Forall (fun c => is_ascii_digit c = true) fp ->
  (1 <= List.length fp <= 2)%nat ->
  X = [] \/ X = [ch_space] ->
  decimal_sep_of (ds ++ ch_comma :: fp ++ X) = Some ch_comma.
Proof.
  intros Hds Hfp Hlen HX. unfold decimal_sep_of, rfind.
  assert (HnX : forall c, c = ch_dot \/ c = ch_comma -> ~ In c X).
  { intros c Hc Hin. destruct HX as [-> | ->]; cbn in Hin;
      destruct Hc as [-> | ->]; intuition discriminate. }
  rewrite (rfind_from_last ch_comma ds (fp ++ X)).
  2:{ intros Hin. apply in_app_or in Hin. destruct Hin as [Hin | Hin].
      - revert Hin. apply digits_no; [reflexivity | exact Hfp].
      - revert Hin. apply HnX. now right. }
  rewrite (rfind_from_absent ch_dot).
  2:{ intros Hin. apply in_app_or in Hin. destruct Hin as [Hin | [Hin | Hin]].
      - revert Hin. apply digits_no; [reflexivity | exact Hds].
      - discriminate Hin.
      - apply in_app_or in Hin. destruct Hin as [Hin | Hin].
        + revert Hin. apply digits_no; [reflexivity | exact Hfp].
        + revert Hin. apply HnX. now left. }
  rewrite len_app, len_cons, len_app.
  assert (H0 : 0 <= len ds) by (unfold len; lia).
  replace (0 + len ds =? -1) with false by (symmetry; apply Z.eqb_neq; lia).
  rewrite andb_false_r.
  replace (0 + len ds <? -1) with false by (symmetry; apply Z.ltb_ge; lia).
  replace (len ds + (1 + (len fp + len X)) - (0 + len ds) - 1)
    with (len fp + len X) by lia.
  unfold in_1_2_3, len.
  destruct fp as [| f1 [| f2 [| f3 fp]]]; cbn [List.length] in Hlen; try lia;
    destruct HX as [-> | ->]; reflexivity.
Qed.

Lemma forallb_digits (s : pystr) :
  Forall (fun c => is_ascii_digit c = true) s ->
  List.forallb is_ascii_digit s = true.
Proof. intros H. apply forallb_forall. now apply Forall_forall. Qed.

(** X20: A price with a decimal comma and one or two digits after it is read
    as the float nearest to that decimal number, whatever the grouping of
    the whole part, and with or without a currency token; the one
    exception is a plain whole part before a token that keeps its point
    ([Kr.], [KR.]). *)
Theorem normalize_price_decimal (W fp sfx : pystr) :
  whole_number W = true ->
  Forall (fun c => is_ascii_digit c = true) fp ->
  (1 <= List.length fp <= 2)%nat ->
  currency_suffix sfx = true ->
  (List.forallb is_ascii_digit W && point_token sfx)%bool = false ->
  normalize_price (PyStr (W ++ ch_comma :: fp ++ sfx)) =
  Ret (Some (float_of_decimal false
               (digits_value (List.filter is_ascii_digit W ++ fp) 0)
               (0 - len fp))).
Proof.
  intros Hw Hfp Hlen Hsfx Hpt.
  destruct (whole_number_shape W Hw)
    as [ds [gs [HW [Hdn [Hds [Hgs [Hch [Hl Hrv]]]]]]]].
  assert (Hsep : Forall (fun c => (is_ascii_digit c || dot_or_space c)%bool = true) W).
  { rewrite HW. apply Forall_app. split.
    - eapply Forall_impl; [| exact Hds]. intros c Hc. now rewrite Hc.
    - now apply groups_of_three_chars. }
  set (num := (W ++ ch_comma :: fp)%list).
  assert (Hnum_ch : Forall (fun c => price_char c = true) num).
  { apply Forall_app. split; [exact Hch |]. constructor; [reflexivity |].
    eapply Forall_impl; [| exact Hfp]. intros c Hc. unfold price_char.
    now rewrite Hc. }
  assert (Hnn : num <> []) by (unfold num; destruct W; discriminate).
  assert (Hnl : lstrip num = num).
  { unfold num. destruct W as [| d W'];
      [rewrite HW in *; destruct ds; [congruence | discriminate] |].
    apply lstrip_fixed in Hl. cbn [app]. now apply lstrip_no_space. }
  assert (Hfn : fp <> []) by (destruct fp; [cbn in Hlen; lia | discriminate]).
  assert (Hnr : lstrip (List.rev num) = List.rev num).
  { unfold num. destruct (exists_last Hfn) as [fs0 [z Hz]].
    rewrite Hz in Hfp. apply Forall_app in Hfp. destruct Hfp as [_ Hz'].
    rewrite Hz.
    replace (W ++ ch_comma :: fs0 ++ [z])%list
      with ((W ++ ch_comma :: fs0) ++ [z])%list
      by (rewrite <- app_assoc; reflexivity).
    rewrite rev_app_distr. cbn [List.rev app].
    apply lstrip_no_space. apply digit_not_space. now inversion Hz'. }
  pose proof (cleaned_of_price_exact num sfx Hnum_ch Hnn Hnl Hnr Hsfx) as Hcl.
  pose proof (residue_cases sfx Hsfx) as HX.
  replace (W ++ ch_comma :: fp ++ sfx)%list with (num ++ sfx)%list
    by (unfold num; rewrite <- app_assoc; reflexivity).
  assert (HD : Forall (fun c => is_ascii_digit c = true) (List.filter is_ascii_digit W)).
  { apply Forall_forall. intros c Hc. apply filter_In in Hc. apply Hc. }
  assert (Hcore : float_or_none (List.filter is_ascii_digit W ++ ch_dot :: fp) =
                  Ret (Some (float_of_decimal false
                     (digits_value (List.filter is_ascii_digit W ++ fp) 0)
                     (0 - len fp)))).
  { unfold float_or_none. rewrite py_float_decimal; try assumption; [reflexivity |].
    destruct fp; [congruence |]. intros E. apply app_eq_nil in E.
    destruct E as [_ E]. discriminate E. }
  rewrite normalize_price_unfold.
  2:{ rewrite Hcl. unfold num, replace_char. destruct W; discriminate. }
  cbv zeta. rewrite Hcl.
  destruct (re_search_sep3 (replace_char ch_nbsp ch_space num ++ residue sfx)) eqn:Ere.
  - unfold num. rewrite (decimal_core W fp _ Hsep Hfp HX). exact Hcore.
  - destruct gs as [| sep [| d1 [| d2 [| d3 gs']]]]; try discriminate Hgs.
    + rewrite app_nil_r in HW. subst W.
      rewrite (forallb_digits ds Hds) in Hpt. cbn [andb] in Hpt.
      assert (HX2 : residue sfx = [] \/ residue sfx = [ch_space]).
      { destruct sfx as [| c cur]; [now left |].
        cbn [currency_suffix] in Hsfx. apply andb_true_iff in Hsfx.
        destruct Hsfx as [_ Hcur].
        destruct (residue_point c cur Hcur) as [[Hp _] | [_ Hres]];
          [congruence | exact Hres]. }
      pose proof (decimal_core ds fp _ Hsep Hfp HX) as Hc. fold num in Hc.
      assert (En : replace_char ch_nbsp ch_space num = (ds ++ ch_comma :: fp)%list).
      { unfold num. apply replace_char_absent. intros Hin.
        apply in_app_or in Hin. destruct Hin as [Hin | [Hin | Hin]].
        - revert Hin. apply digits_no; [reflexivity | exact Hds].
        - discriminate Hin.
        - revert Hin. apply digits_no; [reflexivity | exact Hfp]. }
      rewrite En in *.
      replace (decimal_sep_of ((ds ++ ch_comma :: fp) ++ residue sfx))
        with (Some ch_comma)
        by (symmetry; rewrite <- app_assoc; cbn [app];
            now apply decimal_sep_of_comma).
      change (N.eqb ch_comma ch_dot) with false. cbv iota.
      rewrite Hc. exact Hcore.
    + exfalso. cbn [groups_of_three] in Hgs. to_props.
      assert (Et : re_search_sep3 (replace_char ch_nbsp ch_space num ++ residue sfx)
                   = true).
      { unfold num. rewrite HW, !replace_char_app, <- !app_assoc.
        apply re_search_sep3_app_r.
        unfold replace_char at 1. cbn [List.map app re_search_sep3 three_decimals].
        rewrite (replace_nbsp_keeps d1), (replace_nbsp_keeps d2),
          (replace_nbsp_keeps d3) by (now apply digit_not_space).
        rewrite (ascii_digit_is_decimal d1), (ascii_digit_is_decimal d2),
          (ascii_digit_is_decimal d3) by assumption.
        replace (dot_or_space (if N.eqb sep ch_nbsp then ch_space else sep)) with true;
          [reflexivity |].
        destruct (N.eqb sep ch_nbsp); [reflexivity | now symmetry]. }
      congruence.
Qed.

Lemma normalize_price_decimal_witness :
  normalize_price (PyStr (py "1.234" ++ ch_comma :: py "50" ++ py " Kr.")) =
  Ret (Some (float_of_decimal false
               (digits_value (List.filter is_ascii_digit (py "1.234") ++ py "50") 0)
               (0 - len (py "50")))).
Proof.
  apply (normalize_price_decimal (py "1.234") (py "50") (py " Kr."));
    try reflexivity.
  - repeat constructor.
  - cbn. lia.
Defined.

Lemma decimal_sep_of_point (ds fp : pystr) :
  Forall (fun c => is_ascii_digit c = true) ds ->
  Forall (fun c => is_ascii_digit c = true) fp ->
  decimal_sep_of (ds ++ ch_comma :: fp ++ [ch_space; ch_dot]) = None.
Proof.
  intros Hds Hfp. unfold decimal_sep_of, rfind.
  rewrite (rfind_from_last ch_comma ds (fp ++ [ch_space; ch_dot])).
  2:{ intros Hin. apply in_app_or in Hin. destruct Hin as [Hin | Hin].
      - revert Hin. apply digits_no; [reflexivity | exact Hfp].
      - cbn in Hin. intuition discriminate. }
  replace (ds ++ ch_comma :: fp ++ [ch_space; ch_dot])%list
    with ((ds ++ ch_comma :: fp ++ [ch_space]) ++ ch_dot :: [])%list.
  2:{ rewrite <- app_assoc. cbn [app]. rewrite <- app_assoc. reflexivity. }
  rewrite (rfind_from_last ch_dot _ []) by (intros []).
  rewrite !len_app, !len_cons, !len_app.
  change (len []) with 0. change (len [ch_space]) with 1.
  assert (H0 : 0 <= len ds) by (unfold len; lia).
  assert (H1 : 0 <= len fp) by (unfold len; lia).
  replace (0 + (len ds + (1 + (len fp + 1))) =? -1) with false
    by (symmetry; apply Z.eqb_neq; lia).
  cbn [andb].
  replace (0 + len ds <? 0 + (len ds + (1 + (len fp + 1)))) with true
    by (symmetry; apply Z.ltb_lt; lia).
  replace (len ds + (1 + (len fp + 1)) + (1 + 0)
           - (0 + (len ds + (1 + (len fp + 1)))) - 1) with 0 by lia.
  reflexivity.
Qed.

(** X21: After a plain number with a decimal comma, a currency token that
    keeps its point ([Kr.], [KR.], [kR.]) makes that point the last
    separator: the comma is dropped and the digits on both sides are read
    as one whole number, so that [12,50 Kr.] is 1250. *)
Theorem normalize_price_point_token (ds fp sfx : pystr) :
  Forall (fun c => is_ascii_digit c = true) ds -> ds <> [] ->
  Forall (fun c => is_ascii_digit c = true) fp ->
  currency_suffix sfx = true -> point_token sfx = true ->
  digits_value (ds ++ fp) 0 < 2 ^ 53 ->
  normalize_price (PyStr (ds ++ ch_comma :: fp ++ sfx)) =
  Ret (Some (flt (digits_value (ds ++ fp) 0) 0)).
Proof.
  intros Hds Hne Hfp Hsfx Hpt Hv.
  set (num := (ds ++ ch_comma :: fp)%list).
  assert (Hnum_ch : Forall (fun c => price_char c = true) num).
  { apply Forall_app. split; [| constructor; [reflexivity |]];
      (eapply Forall_impl; [| eassumption]); intros c Hc; unfold price_char;
      now rewrite Hc. }
  assert (Hnn : num <> []) by (unfold num; destruct ds; discriminate).
  assert (Hnl : lstrip num = num).
  { unfold num. destruct ds as [| d ds']; [congruence |]. cbn [app].
    apply lstrip_no_space. apply digit_not_space. now inversion Hds. }
  assert (Hnr : lstrip (List.rev num) = List.rev num).
  { unfold num. apply lstrip_no_spaces. apply Forall_rev.
    apply Forall_app. split; [| constructor; [reflexivity |]];
      (eapply Forall_impl; [| eassumption]); intros c Hc;
      now apply digit_not_space. }
  pose proof (cleaned_of_price_exact num sfx Hnum_ch Hnn Hnl Hnr Hsfx) as Hcl.
  assert (HX : residue sfx = [ch_space; ch_dot]).
  { destruct sfx as [| c cur]; [discriminate Hpt |].
    cbn [currency_suffix] in Hsfx. apply andb_true_iff in Hsfx.
    destruct Hsfx as [_ Hcur].
    destruct (residue_point c cur Hcur) as [[_ Hres] | [Hp _]];
      [exact Hres | congruence]. }
  assert (En : replace_char ch_nbsp ch_space num = num).
  { unfold num. apply replace_char_absent. intros Hin.
    apply in_app_or in Hin. destruct Hin as [Hin | [Hin | Hin]].
    - revert Hin. apply digits_no; [reflexivity | exact Hds].
    - discriminate Hin.
    - revert Hin. apply digits_no; [reflexivity | exact Hfp]. }
  rewrite HX, En in Hcl.
  replace (ds ++ ch_comma :: fp ++ sfx)%list with (num ++ sfx)%list
    by (unfold num; rewrite <- app_assoc; reflexivity).
  rewrite normalize_price_unfold by (rewrite Hcl; destruct num; [congruence | discriminate]).
  cbv zeta. rewrite Hcl.
  rewrite (re_search_sep3_skip num) by (now apply decimal_not_sep).
  change (re_search_sep3 [ch_space; ch_dot]) with false. cbv iota.
  replace (decimal_sep_of (num ++ [ch_space; ch_dot])) with (@None pychar)
    by (symmetry; unfold num; rewrite <- app_assoc; cbn [app];
        now apply decimal_sep_of_point).
  assert (Hall : Forall (fun c => is_ascii_digit c = true) (ds ++ fp))
    by (apply Forall_app; split; assumption).
  replace (List.filter
             (fun c => negb (is_space c || N.eqb c ch_dot || N.eqb c ch_comma))
             (num ++ [ch_space; ch_dot]))
    with (ds ++ fp)%list.
  - apply float_or_none_digits; [exact Hall | | exact Hv].
    destruct ds; [congruence | discriminate].
  - unfold num. rewrite !filter_app. cbn [List.filter].
    change (negb (is_space ch_comma || N.eqb ch_comma ch_dot
                  || N.eqb ch_comma ch_comma)) with false.
    change (negb (is_space ch_space || N.eqb ch_space ch_dot
                  || N.eqb ch_space ch_comma)) with false.
    change (negb (is_space ch_dot || N.eqb ch_dot ch_dot
                  || N.eqb ch_dot ch_comma)) with false. cbv iota.
    rewrite app_nil_r.
    pose proof (plain_digits_kept ds [] Hds (or_introl eq_refl)) as E1.
    pose proof (plain_digits_kept fp [] Hfp (or_introl eq_refl)) as E2.
    rewrite app_nil_r in E1, E2. now rewrite E1, E2.
Qed.

Lemma normalize_price_point_token_witness :
  normalize_price (PyStr (py "12" ++ ch_comma :: py "50" ++ py " Kr.")) =
  Ret (Some (flt (digits_value (py "12" ++ py "50") 0) 0)).
Proof.
  apply (normalize_price_point_token (py "12") (py "50") (py " Kr."));
    try reflexivity; try discriminate; repeat constructor.
Defined.

(** ** The price of a listing *)

(** X22: The price of a listing comes from the first tag text that holds a
    decimal digit, and then the record has a number beside it; when no
    text holds a digit the record has neither.  The decimal digits of the
    texts are the ASCII ones. *)
Theorem listing_price_spec (txts : list pystr) :
  List.forallb ascii_decimals_only txts = true ->
  (Forall (Forall (fun c => is_decimal c = false)) txts /\
   listing_price txts = Ret ([], None)) \/
  (exists pre t post r v,
      txts = (pre ++ t :: post)%list /\
      Forall (Forall (fun c => is_decimal c = false)) pre /\
      Exists (fun c => is_decimal c = true) t /\
      extract_price_string (PyStr t) = Ret r /\ r <> [] /\
      listing_price txts = Ret (r, Some v)).
Proof.
  induction txts as [| txt rest IH]; intros Ha.
  - left. split; [constructor | reflexivity].
  - cbn [List.forallb] in Ha. apply andb_true_iff in Ha.
    destruct Ha as [Ha Har]. specialize (IH Har).
    assert (Hskip : Forall (fun c => is_decimal c = false) txt ->
                    first_price (txt :: rest) = first_price rest ->
                    (Forall (Forall (fun c => is_decimal c = false)) (txt :: rest) /\
                     listing_price (txt :: rest) = Ret ([], None)) \/
                    (exists pre t post r v,
                        (txt :: rest) = (pre ++ t :: post)%list /\
                        Forall (Forall (fun c => is_decimal c = false)) pre /\
                        Exists (fun c => is_decimal c = true) t /\
                        extract_price_string (PyStr t) = Ret r /\ r <> [] /\
                        listing_price (txt :: rest) = Ret (r, Some v))).
    { intros Hfree Hfp. unfold listing_price in *. rewrite Hfp.
      destruct IH as [[Hall Hl] | [pre [t [post [r [v [E [Hpre [Ht [Hr [Hne Hl]]]]]]]]]]].
      - left. split; [now constructor | exact Hl].
      - right. exists (txt :: pre), t, post, r, v. subst rest.
        split; [reflexivity |]. split; [now constructor |].
        repeat split; assumption. }
    destruct txt as [| c txt'].
    + apply Hskip; [constructor | reflexivity].
    + destruct (search_price (c :: txt')) as [m |] eqn:E.
      * right.
        destruct (extract_price_string_found _ m E) as [cur [Hr Hcur]].
        destruct (search_price_inv _ m E)
          as [pre0 [d [ds [rest0 [g [Hm [Hd [Ht _]]]]]]]].
        assert (Hne : (group1 m ++ ch_space :: cur)%list <> [])
          by (rewrite Hm; discriminate).
        destruct (extracted_price_reads _ _ Ha Hr Hne) as [v Hv].
        exists [], (c :: txt'), rest, (group1 m ++ ch_space :: cur)%list, v.
        split; [reflexivity |]. split; [constructor |]. split; [| split; [exact Hr |]; split; [exact Hne |]].
        -- rewrite Ht. apply Exists_app. right. now apply Exists_cons_hd.
        -- unfold listing_price. cbn [first_price truthy negb].
           rewrite Hr. cbn [bind].
           destruct (group1 m ++ ch_space :: cur)%list as [| p0 pr] eqn:Epr;
             [congruence |].
           cbn [bind]. rewrite Hv. reflexivity.
      * apply Hskip; [now apply search_price_none |].
        cbn [first_price truthy negb].
        now rewrite (extract_price_string_not_found _ E).
Qed.

Lemma listing_price_spec_witness :
  (Forall (Forall (fun c => is_decimal c = false))
     [py "Ny"; py "Pris 3.999 kr"; py "2 stk"] /\
   listing_price [py "Ny"; py "Pris 3.999 kr"; py "2 stk"] = Ret ([], None)) \/
  (exists pre t post r v,
      [py "Ny"; py "Pris 3.999 kr"; py "2 stk"] = (pre ++ t :: post)%list /\
      Forall (Forall (fun c => is_decimal c = false)) pre /\
      Exists (fun c => is_decimal c = true) t /\
      extract_price_string (PyStr t) = Ret r /\ r <> [] /\
      listing_price [py "Ny"; py "Pris 3.999 kr"; py "2 stk"] = Ret (r, Some v)).
Proof.
  apply (listing_price_spec [py "Ny"; py "Pris 3.999 kr"; py "2 stk"]).
  reflexivity.
Defined.

(** ** The lines of print_comparison_table *)

Lemma len_ljust (s : pystr) (w : Z) : len (ljust s w) = Z.max (len s) w.
Proof.
  unfold ljust. rewrite len_app. unfold len at 2. rewrite repeat_length.
  unfold len. lia.
Qed.

Lemma short_returns (a : pyarg) (n : Z) : exists r, _short a n = Ret r.
Proof.
  unfold _short. destruct a as [| t]; [eexists; reflexivity |].
  destruct (negb (truthy (PyStr t))); [eexists; reflexivity |].
  cbv zeta. destruct (_ <=? _); eexists; reflexivity.
Qed.

(** X23: The header of the comparison table is as long as the rule under it;
    a line of the table is never shorter, and is exactly that long when
    every one of its cells fits its column. *)
Theorem table_line_width (i : Z) (left right : option item) :
  exists row line hline,
    table_row i left right = Ret row /\ fmt row = Ret line /\
    fmt hdr = Ret hline /\ len hline = rule_width /\
    rule_width <= len line /\
    (len line = rule_width <-> Forall2 (fun c w => len c <= w) row widths).
Proof.
  unfold table_row.
  destruct (short_returns (match left with Some l => title_arg l | None => PyNone end) 60)
    as [lt Hlt].
  destruct (short_returns (match right with Some r => title_arg r | None => PyNone end) 60)
    as [rt Hrt].
  assert (El : match left with Some l => _short (title_arg l) 60 | None => Ret [] end
               = Ret lt) by (destruct left; exact Hlt).
  assert (Er : match right with Some r => _short (title_arg r) 60 | None => Ret [] end
               = Ret rt) by (destruct right; exact Hrt).
  rewrite El, Er. cbn [bind].
  set (c1 := digits_of (i + 1)).
  set (c3 := match left with Some l => price l | None => [] end).
  set (c4 := match left with Some l => location l | None => [] end).
  set (c6 := match right with Some r => price r | None => [] end).
  eexists. eexists. eexists.
  split; [reflexivity |]. split; [reflexivity |]. split; [reflexivity |].
  split; [reflexivity |].
  change rule_width with 154.
  cbn [List.combine List.map join fst snd widths].
  rewrite !len_app, !len_ljust.
  change (len (py " | ")) with 3.
  split; [lia |]. split.
  - intros H. repeat constructor; lia.
  - intros H.
    inversion H as [| ? ? ? ? H1 T1]; subst; clear H.
    inversion T1 as [| ? ? ? ? H2 T2]; subst; clear T1.
    inversion T2 as [| ? ? ? ? H3 T3]; subst; clear T2.
    inversion T3 as [| ? ? ? ? H4 T4]; subst; clear T3.
    inversion T4 as [| ? ? ? ? H5 T5]; subst; clear T4.
    inversion T5 as [| ? ? ? ? H6 T6]; subst; clear T5.
    lia.
Qed.

(** ** Extracting twice *)

Lemma shown_currency_token (g : option pystr) :
  (g = None \/ exists cur, g = Some cur /\ currency_token cur = true) ->
  currency_token (shown_currency g) = true.
Proof.
  intros [-> | [cur [-> Hc]]]; [reflexivity |].
  destruct cur as [| c cs]; [discriminate Hc |]. cbn [shown_currency].
  destruct (str_eqb _ _); [reflexivity | exact Hc].
Qed.

Lemma extract_price_string_shown (t : pystr) (m : pymatch) :
  search_price t = Some m ->
  exists d ds g,
    m = mk_match (d :: ds) [g] /\
    (g = None \/ exists cur, g = Some cur /\ currency_token cur = true) /\
    extract_price_string (PyStr t) = Ret (d :: ds ++ ch_space :: shown_currency g).
Proof.
  intros Hs.
  destruct (search_price_inv t m Hs)
    as [pre [d [ds [rest [g [Hm [Hd [Ht [_ Hg]]]]]]]]].
  exists d, ds, g. split; [exact Hm |]. split; [exact Hg |].
  unfold extract_price_string.
  replace (truthy (PyStr t)) with true
    by (rewrite Ht; destruct pre; reflexivity).
  cbn [negb]. rewrite Hs, Hm. cbn [group1 group2 later_groups bind].
  set (cur0 := match g with Some (c :: cs) => c :: cs | _ => py "kr." end).
  assert (H0 : currency_token cur0 = true).
  { unfold cur0. destruct Hg as [-> | [cur [-> Hc]]]; [reflexivity |].
    destruct cur; [discriminate Hc | exact Hc]. }
  destruct (currency_token_chars cur0 H0) as [Hn0 Hsp0].
  rewrite (strip_no_spaces cur0 Hsp0).
  assert (E1 : (if str_eqb (upper cur0) (py "DKK") then py "DKK"
                else match cur0 with [] => py "kr." | _ => cur0 end)
               = shown_currency g).
  { unfold cur0, shown_currency.
    destruct g as [[| c cs] |]; reflexivity. }
  rewrite E1.
  pose proof (shown_currency_token g Hg) as H1.
  destruct (currency_token_chars _ H1) as [Hn1 Hsp1].
  destruct (decimal_char_facts d Hd) as [Hdsp _].
  f_equal.
  change ((d :: ds) ++ [ch_space] ++ shown_currency g)%list
    with (d :: ds ++ [ch_space] ++ shown_currency g)%list.
  rewrite app_assoc. rewrite strip_ends by assumption.
  now rewrite <- app_assoc.
Qed.

Lemma take_decimals_again (n : nat) :
  forall s ds r tail,
    take_decimals n s = (ds, r) ->
    (forall c t, tail = c :: t -> is_decimal c = false) ->
    take_decimals n (ds ++ tail) = (ds, tail).
Proof.
  assert (Hstop : forall k tail,
             (forall c t, tail = c :: t -> is_decimal c = false) ->
             take_decimals k tail = ([], tail)).
  { intros k tail Ht. destruct k, tail as [| c t]; try reflexivity.
    cbn [take_decimals]. now rewrite (Ht c t eq_refl). }
  induction n as [| n IH]; intros s ds r tail H Ht.
  - destruct s; injection H as <- <-; apply Hstop; exact Ht.
  - destruct s as [| c s]; [injection H as <- <-; apply Hstop; exact Ht |].
    cbn [take_decimals] in H. destruct (is_decimal c) eqn:E.
    + destruct (take_decimals n s) as [ds' r'] eqn:E'. injection H as <- <-.
      cbn [app take_decimals]. rewrite E, (IH s ds' r' tail E' Ht). reflexivity.
    + injection H as <- <-. apply Hstop; exact Ht.
Qed.

Lemma take_groups_again_len (n : nat) :
  forall s g r tail,
    (List.length s <= n)%nat -> take_groups s = (g, r) ->
    take_groups tail = ([], tail) ->
    take_groups (g ++ tail) = (g, tail).
Proof.
  induction n as [| n IH]; intros s g r tail Hlen H Ht.
  - destruct s; [| cbn in Hlen; lia]. injection H as <- <-. exact Ht.
  - destruct s as [| c [| d1 [| d2 [| d3 s]]]];
      try (injection H as <- <-; exact Ht).
    cbn [take_groups] in H.
    destruct (dot_or_space c && is_decimal d1 && is_decimal d2 && is_decimal d3)%bool
      eqn:E.
    + destruct (take_groups s) as [g' r'] eqn:E'. injection H as <- <-.
      cbn [app take_groups]. rewrite E.
      rewrite (IH s g' r' tail) by (cbn [List.length] in Hlen; lia || assumption).
      reflexivity.
    + injection H as <- <-. exact Ht.
Qed.

Lemma take_groups_stop (c : pychar) (s : pystr) :
  dot_or_space c = false -> take_groups (c :: s) = ([], c :: s).
Proof.
  intros H. destruct s as [| d1 [| d2 [| d3 s]]]; try reflexivity.
  cbn [take_groups]. now rewrite H.
Qed.

Lemma take_groups_head (s g r : pystr) :
  take_groups s = (g, r) ->
  g = [] \/ exists c g', g = c :: g' /\ dot_or_space c = true.
Proof.
  destruct s as [| c [| d1 [| d2 [| d3 s]]]];
    try (intros H; injection H as <- <-; now left).
  cbn [take_groups].
  destruct (dot_or_space c && is_decimal d1 && is_decimal d2 && is_decimal d3)%bool
    eqn:E.
  - destruct (take_groups s) as [g' r']. intros H. injection H as <- <-.
    right. to_props. eexists. eexists. split; [reflexivity | assumption].
  - intros H. injection H as <- <-. now left.
Qed.

Lemma take_fraction_head (s f r : pystr) :
  take_fraction s = (f, r) ->
  f = [] \/ exists fs, f = ch_comma :: fs.
Proof.
  unfold take_fraction. destruct s as [| c s]; [intros H; injection H as <- <-; now left |].
  destruct (N.eqb c ch_comma) eqn:Ec; [| intros H; injection H as <- <-; now left].
  apply N.eqb_eq in Ec. subst c.
  destruct (take_decimals 2 s) as [[| d ds] r']; intros H; injection H as <- <-;
    [now left | right; eexists; reflexivity].
Qed.

Lemma take_fraction_again (s f r tail : pystr) :
  take_fraction s = (f, r) ->
  (forall c t, tail = c :: t -> is_decimal c = false /\ c <> ch_comma) ->
  take_fraction (f ++ tail) = (f, tail).
Proof.
  intros H Ht.
  assert (Hstop : take_fraction tail = ([], tail)).
  { unfold take_fraction. destruct tail as [| c t]; [reflexivity |].
    destruct (Ht c t eq_refl) as [_ Hc]. apply N.eqb_neq in Hc. now rewrite Hc. }
  unfold take_fraction in H. destruct s as [| c s]; [injection H as <- <-; exact Hstop |].
  destruct (N.eqb c ch_comma) eqn:Ec; [| injection H as <- <-; exact Hstop].
  destruct (take_decimals 2 s) as [ds r'] eqn:E.
  destruct ds as [| d ds]; injection H as <- <-; [exact Hstop |].
  cbn [app]. unfold take_fraction. rewrite Ec.
  change (d :: ds ++ tail)%list with ((d :: ds) ++ tail)%list.
  rewrite (take_decimals_again 2 s (d :: ds) r' tail E); [reflexivity |].
  intros x t Hx. now apply (Ht x t).
Qed.

Lemma sep_not_decimal (c : pychar) :
  dot_or_space c = true -> is_decimal c = false.
Proof.
  intros H. destruct (is_decimal c) eqn:E; [| reflexivity].
  destruct (decimal_char_facts c E) as [Hs [Hd _]].
  unfold dot_or_space in H. rewrite Hs, Hd in H. discriminate H.
Qed.

Lemma currency_token_head (cur : pystr) :
  currency_token cur = true ->
  exists a rest, cur = a :: rest /\ is_space a = false /\ is_decimal a = false /\
                 a <> ch_comma.
Proof.
  intros H. destruct (currency_token_chars cur H) as [Hn Hsp].
  destruct cur as [| a rest]; [congruence |].
  exists a, rest. split; [reflexivity |]. split; [now inversion Hsp |].
  assert (Hk : forall c, is_k c = true -> is_decimal c = false /\ c <> ch_comma).
  { intros c Hc. unfold is_k in Hc.
    repeat (apply orb_true_iff in Hc; destruct Hc as [Hc | Hc]);
      apply N.eqb_eq in Hc; subst c; split; (reflexivity || discriminate). }
  assert (Hd : forall c, is_d c = true -> is_decimal c = false /\ c <> ch_comma).
  { intros c Hc. unfold is_d in Hc.
    repeat (apply orb_true_iff in Hc; destruct Hc as [Hc | Hc]);
      apply N.eqb_eq in Hc; subst c; split; (reflexivity || discriminate). }
  destruct rest as [| b [| c [| x rest]]]; cbn [currency_token] in H;
    try discriminate H.
  - to_props. now apply Hk.
  - apply orb_true_iff in H. destruct H as [H | H]; to_props;
      [now apply Hk | now apply Hd].
Qed.

Lemma take_currency_self (cur : pystr) :
  currency_token cur = true -> take_currency cur = Some cur.
Proof.
  destruct cur as [| a [| b [| c [| x rest]]]]; cbn [currency_token];
    try discriminate; intros H.
  - cbn [take_currency]. now rewrite H.
  - cbn [take_currency]. apply orb_true_iff in H. destruct H as [H | H].
    + apply andb_true_iff in H. destruct H as [H Hc]. now rewrite H, Hc.
    + rewrite H. destruct (is_k a && is_r b)%bool eqn:E; [| reflexivity].
      exfalso. to_props. unfold is_k in *. unfold is_d in *.
      repeat match goal with
             | Hx : (_ || _)%bool = true |- _ =>
                 apply orb_true_iff in Hx; destruct Hx as [Hx | Hx]
             end; to_props; subst; discriminate.
Qed.

Lemma shown_currency_again (g : option pystr) :
  shown_currency (Some (shown_currency g)) = shown_currency g.
Proof.
  destruct g as [[| c cs] |]; try reflexivity.
  change (shown_currency (Some (c :: cs)))
    with (if str_eqb (upper (c :: cs)) (py "DKK") then py "DKK" else c :: cs).
  destruct (str_eqb (upper (c :: cs)) (py "DKK")) eqn:E; [reflexivity |].
  cbn [shown_currency]. now rewrite E.
Qed.

(** X24: The extractor leaves its own results as they are. *)
Theorem extract_price_string_idempotent (t r : pystr) :
  extract_price_string (PyStr t) = Ret r ->
  extract_price_string (PyStr r) = Ret r.
Proof.
  intros Hr. destruct (search_price t) as [m |] eqn:E.
  2:{ rewrite (extract_price_string_not_found t E) in Hr.
      injection Hr as <-. reflexivity. }
  destruct (extract_price_string_shown t m E) as [d [ds [g [Hm [Hg Hx]]]]].
  rewrite Hr in Hx. injection Hx as ->.
  destruct (search_price_at t m E) as [pre [s [_ Hat]]].
  unfold match_price_at in Hat.
  destruct (take_decimals 3 s) as [ds0 r1] eqn:E1.
  destruct ds0 as [| d0 ds0]; [discriminate |].
  destruct (take_groups r1) as [gs r2] eqn:E2.
  destruct (take_fraction r2) as [fr r3] eqn:E3.
  injection Hat as Hat. rewrite Hm in Hat.
  pose proof (f_equal group1 Hat) as Hnum. cbn [group1] in Hnum. clear Hat.
  pose proof (shown_currency_token g Hg) as Htok.
  set (cur := shown_currency g) in *.
  destruct (currency_token_head cur Htok) as [a [rest [Ecur [Ha1 [Ha2 Ha3]]]]].
  assert (Hsp : is_decimal ch_space = false /\ ch_space <> ch_comma)
    by (split; [reflexivity | discriminate]).
  assert (M : match_price_at (d :: ds ++ ch_space :: cur)
              = Some (mk_match (d :: ds) [Some cur])).
  { change (d :: ds ++ ch_space :: cur)%list with ((d :: ds) ++ ch_space :: cur)%list.
    rewrite <- Hnum.
    replace ((d0 :: ds0 ++ gs ++ fr) ++ ch_space :: cur)%list
      with ((d0 :: ds0) ++ gs ++ fr ++ ch_space :: cur)%list
      by (cbn [app]; now rewrite <- !app_assoc).
    unfold match_price_at.
    rewrite (take_decimals_again 3 s (d0 :: ds0) r1 _ E1).
    2:{ intros c t0 Hc.
        destruct (take_groups_head r1 gs r2 E2) as [-> | [c0 [g' [-> Hc0]]]].
        - destruct (take_fraction_head r2 fr r3 E3) as [-> | [fs ->]].
          + injection Hc as <- _. reflexivity.
          + injection Hc as <- _. reflexivity.
        - injection Hc as <- _. now apply sep_not_decimal. }
    rewrite (take_groups_again_len (List.length r1) r1 gs r2 _ (le_n _) E2).
    2:{ destruct (take_fraction_head r2 fr r3 E3) as [-> | [fs ->]].
        - cbn [app]. rewrite Ecur.
          destruct rest as [| b [| c rest']]; try reflexivity.
          cbn [take_groups]. rewrite Ha2, andb_false_r. reflexivity.
        - apply take_groups_stop. reflexivity. }
    rewrite (take_fraction_again r2 fr r3 _ E3).
    2:{ intros c t0 Hc. injection Hc as <- _. exact Hsp. }
    cbn [skip_spaces]. change (is_space ch_space) with true. cbv iota.
    rewrite Ecur. cbn [skip_spaces]. rewrite Ha1. rewrite <- Ecur.
    rewrite (take_currency_self cur Htok). reflexivity. }
  assert (S1 : search_price (d :: ds ++ ch_space :: cur)
               = Some (mk_match (d :: ds) [Some cur])).
  { cbn [search_price]. now rewrite M. }
  destruct (extract_price_string_shown _ _ S1) as [d' [ds' [g' [Hm' [_ Hx']]]]].
  injection Hm' as <- <- <-. rewrite Hx'.
  unfold cur. rewrite shown_currency_again. reflexivity.
Qed.

Lemma extract_price_string_idempotent_witness :
  extract_price_string (PyStr (py "1.250,50 DKK")) = Ret (py "1.250,50 DKK").
Proof.
  apply (extract_price_string_idempotent (py "nu 1.250,50 dkk pr. stk")).
  vm_compute. reflexivity.
Defined.
